(** * Subsidy analyzer workflow: a shallow embedding of
    [langgraph_analyzer/{utils,schemas,nodes,graph}.py].

    Python [str] values are sequences of Unicode code points, JSON-like
    values are an inductive type, the workflow state is a record, and every
    call that leaves the process (HTTP, file system, PDF reader, language
    model, clock) is answered by a [world] record of outcomes. *)

From Stdlib Require Import List NArith ZArith QArith Bool Ascii String Lia.
From Stdlib Require Import DecimalString.
Import ListNotations.

Set Implicit Arguments.
Set Warnings "-register-all".

(* ------------------------------------------------------------------ *)
(** * Python strings *)

Module PyStr.

(** A Python [str]: its code points, in order. *)
Definition pystr := list N.

(** ASCII literal of the source as a [pystr]. *)
Definition lit (s : string) : pystr :=
  map N_of_ascii (list_ascii_of_string s).

Fixpoint eqb (a b : pystr) : bool :=
  match a, b with
  | [], [] => true
  | x :: a', y :: b' => N.eqb x y && eqb a' b'
  | _, _ => false
  end.

(** [prefix.startswith]-style test: is [p] a prefix of [s]? *)
Fixpoint startswith (s p : pystr) : bool :=
  match p, s with
  | [], _ => true
  | x :: p', y :: s' => N.eqb x y && startswith s' p'
  | _ :: _, [] => false
  end.

(** [p in s] on strings: [p] occurs as a contiguous substring of [s]. *)
Fixpoint contains (s p : pystr) : bool :=
  startswith s p ||
  match s with
  | [] => false
  | _ :: s' => contains s' p
  end.

(** [s.endswith(p)]. *)
Definition endswith (s p : pystr) : bool :=
  startswith (rev s) (rev p).

(** Characters the source names. *)
Definition c_slash : N := 47.
Definition c_hyphen : N := 45.
Definition c_underscore : N := 95.
Definition c_lbrace : N := 123.
Definition c_rbrace : N := 125.
Definition c_newline : N := 10.
Definition c_dquote : N := 34.

(** The Unicode character database for code points above ASCII: which are
    word characters ([str.isalnum]), white space ([str.isspace]) and decimal
    digits, and the lower-case mapping.  It belongs to the Python runtime,
    not to this repository, and is taken as a parameter. *)
Record unicode_db := {
  uni_alnum : N -> bool;
  uni_space : N -> bool;
  uni_digit : N -> bool;
  uni_lower : N -> list N
}.

Definition is_ascii (c : N) : bool := (c <? 128)%N.

Definition ascii_digit (c : N) : bool := ((48 <=? c) && (c <=? 57))%N.
Definition ascii_upper (c : N) : bool := ((65 <=? c) && (c <=? 90))%N.
Definition ascii_lower (c : N) : bool := ((97 <=? c) && (c <=? 122))%N.
Definition ascii_alnum (c : N) : bool :=
  ascii_digit c || ascii_upper c || ascii_lower c.
(** ASCII white space for [str] patterns: TAB..CR, FS..US and SPACE. *)
Definition ascii_space (c : N) : bool :=
  ((9 <=? c) && (c <=? 13) || (28 <=? c) && (c <=? 32))%N.

Section Classes.
Variable U : unicode_db.

(** [\d] of a [str] pattern. *)
Definition is_digit (c : N) : bool :=
  if is_ascii c then ascii_digit c else uni_digit U c.

(** [\s] of a [str] pattern, and the characters [str.strip] removes. *)
Definition is_space (c : N) : bool :=
  if is_ascii c then ascii_space c else uni_space U c.

(** [\w] of a [str] pattern: alphanumerics and the underscore. *)
Definition is_word (c : N) : bool :=
  if is_ascii c then ascii_alnum c || N.eqb c c_underscore
  else uni_alnum U c.

(** [str.lower()]. *)
Definition lower_char (c : N) : list N :=
  if is_ascii c then (if ascii_upper c then [c + 32]%N else [c])
  else uni_lower U c.

Definition lower (s : pystr) : pystr := flat_map lower_char s.

(** [str.strip()]: white space removed at both ends. *)
Fixpoint lstrip (s : pystr) : pystr :=
  match s with
  | c :: s' => if is_space c then lstrip s' else s
  | [] => []
  end.

Definition strip (s : pystr) : pystr := rev (lstrip (rev (lstrip s))).
End Classes.

(** A database that agrees with Unicode on the code points the examples of
    this file use: outside ASCII it knows the Latin-1 letters and the
    no-break space, and holds every other code point (the em dash U+2014
    among them) to be neither alphanumeric nor white space nor a digit. *)
Definition latin1_db : unicode_db := {|
  uni_alnum := fun c =>
    ((192 <=? c) && (c <=? 255) && negb (N.eqb c 215) && negb (N.eqb c 247)
     || N.eqb c 170 || N.eqb c 181 || N.eqb c 186
     || N.eqb c 178 || N.eqb c 179 || N.eqb c 185
     || (188 <=? c) && (c <=? 190))%N;
  uni_space := fun c => (N.eqb c 133 || N.eqb c 160)%N;
  uni_digit := fun _ => false;
  uni_lower := fun c =>
    if ((192 <=? c) && (c <=? 222) && negb (N.eqb c 215))%N
    then [c + 32]%N else [c]
|}.

End PyStr.
Import PyStr.

(* ------------------------------------------------------------------ *)
(** * Python values *)

(** The values that reach the workflow: what [json.loads] and
    [response.json()] build, which is also what a caller's [subsidy_data]
    holds.  Finite floats are kept as rationals. *)
Inductive json : Type :=
| JNull
| JBool (b : bool)
| JInt (z : Z)
| JFloat (q : Q)
| JStr (s : pystr)
| JArr (l : list json)
| JObj (o : list (pystr * json)).

(** A [dict] with [str] keys, in insertion order. *)
Definition obj := list (pystr * json).

(** Python truthiness ([bool(v)], as used by [if v], [not v], [a or b]). *)
Definition truthy (v : json) : bool :=
  match v with
  | JNull => false
  | JBool b => b
  | JInt z => negb (Z.eqb z 0)
  | JFloat q => negb (Z.eqb (Qnum q) 0)
  | JStr s => match s with [] => false | _ => true end
  | JArr l => match l with [] => false | _ => true end
  | JObj o => match o with [] => false | _ => true end
  end.

(** [a or b]. *)
Definition py_or (a b : json) : json := if truthy a then a else b.

(** [d.get(k)]: the value under [k], [None] when the key is absent. *)
Fixpoint dict_get (d : obj) (k : pystr) : json :=
  match d with
  | [] => JNull
  | (k', v) :: d' => if PyStr.eqb k' k then v else dict_get d' k
  end.

(** [k in d]. *)
Fixpoint dict_mem (d : obj) (k : pystr) : bool :=
  match d with
  | [] => false
  | (k', _) :: d' => PyStr.eqb k' k || dict_mem d' k
  end.

(** [d[k] = v]: overwrite in place, or append a new key. *)
Fixpoint dict_set (d : obj) (k : pystr) (v : json) : obj :=
  match d with
  | [] => [(k, v)]
  | (k', v') :: d' =>
      if PyStr.eqb k' k then (k', v) :: d' else (k', v') :: dict_set d' k v
  end.

(** [d.update(e)] for a dict [e]. *)
Definition dict_update (d e : obj) : obj :=
  fold_left (fun acc kv => dict_set acc (fst kv) (snd kv)) e d.

(** [x == 'literal']: only a [str] equals a [str]. *)
Definition eq_str (v : json) (s : pystr) : bool :=
  match v with
  | JStr t => PyStr.eqb t s
  | _ => false
  end.

(** What a call that may raise gives back: its value, or the text
    [str(e)] of the exception. *)
Inductive outcome (A : Type) : Type :=
| Ok (a : A)
| Raise (msg : pystr).
Arguments Ok {A} a.
Arguments Raise {A} msg.

(* ------------------------------------------------------------------ *)
(** * utils.py *)

Module Utils.
Section WithUnicode.
Variable U : unicode_db.

(** The digits a match of [/(\d+)$] captures when it starts at the head
    of [s]: a slash, one or more digits, and then the end of the string
    or the single newline that ends it. *)
Fixpoint take_digits (s : pystr) : pystr * pystr :=
  match s with
  | c :: s' =>
      if is_digit U c
      then let '(d, r) := take_digits s' in (c :: d, r)
      else ([], s)
  | [] => ([], [])
  end.

Definition at_end (r : pystr) : bool :=
  match r with
  | [] => true
  | [c] => N.eqb c c_newline
  | _ => false
  end.

Definition match_bdns_here (s : pystr) : option pystr :=
  match s with
  | c :: s' =>
      if N.eqb c c_slash then
        let '(d, r) := take_digits s' in
        match d with
        | [] => None
        | _ :: _ => if at_end r then Some d else None
        end
      else None
  | [] => None
  end.

(** [extract_bdns_from_url]: [re.search(r'/(\d+)$', url)], leftmost
    match, group 1; [None] when nothing matches. *)
Fixpoint extract_bdns_from_url (url : pystr) : option pystr :=
  match match_bdns_here url with
  | Some d => Some d
  | None =>
      match url with
      | [] => None
      | _ :: url' => extract_bdns_from_url url'
      end
  end.

(** [re.sub(r'[^\w\s-]', '', filename)]. *)
Definition keep_char (c : N) : bool :=
  is_word U c || is_space U c || N.eqb c c_hyphen.

Definition remove_special (s : pystr) : pystr := filter keep_char s.

(** [re.sub(r'[-\s]+', '_', s)]: every maximal run of hyphens and white
    space becomes one underscore. *)
Definition is_sep (c : N) : bool := N.eqb c c_hyphen || is_space U c.

(** [in_run] tells that the character before was part of the run being
    replaced. *)
Fixpoint collapse_from (in_run : bool) (s : pystr) : pystr :=
  match s with
  | [] => []
  | c :: s' =>
      if is_sep c
      then (if in_run then collapse_from true s'
            else c_underscore :: collapse_from true s')
      else c :: collapse_from false s'
  end.

Definition collapse_seps (s : pystr) : pystr := collapse_from false s.

(** [clean_filename(filename, max_length)]. *)
Definition clean_filename_n (filename : pystr) (max_length : nat) : pystr :=
  firstn max_length (collapse_seps (remove_special filename)).

(** [clean_filename(filename)] with the default [max_length=50]. *)
Definition clean_filename (filename : pystr) : pystr :=
  clean_filename_n filename 50.
End WithUnicode.

(** [re.search(r'\{.*\}', text, re.DOTALL)]: the span from the first
    opening brace to the last closing brace after it. *)
Fixpoint from_first_lbrace (s : pystr) : option pystr :=
  match s with
  | [] => None
  | c :: s' => if N.eqb c c_lbrace then Some s else from_first_lbrace s'
  end.

(** The longest prefix of [s] that ends in a closing brace. *)
Fixpoint upto_last_rbrace (s : pystr) : option pystr :=
  match s with
  | [] => None
  | c :: s' =>
      match upto_last_rbrace s' with
      | Some p => Some (c :: p)
      | None => if N.eqb c c_rbrace then Some [c] else None
      end
  end.

Definition json_span (text : pystr) : option pystr :=
  match from_first_lbrace text with
  | Some s => upto_last_rbrace s
  | None => None
  end.

(** [extract_json_from_text]: the span handed to [json.loads].  [loads sp]
    is [Ok (Some d)] when the span decodes, [Ok None] when [json.loads]
    raises [json.JSONDecodeError], which the function catches, and
    [Raise m] when it raises anything else (the [ValueError] of an integer
    with too many digits, a [RecursionError]), which the function lets
    through to its caller.  With no span the result is [None] as well.  A
    text that starts with an opening brace decodes, if at all, to a
    dict. *)
Definition extract_json_from_text
    (loads : pystr -> outcome (option obj)) (text : pystr)
  : outcome (option obj) :=
  match json_span text with
  | Some sp => loads sp
  | None => Ok None
  end.

(** [validate_pdf_content]: [content.startswith(b'%PDF')]. *)
Definition pdf_magic : list N := lit "%PDF".

Definition validate_pdf_content (content : list N) : bool :=
  startswith content pdf_magic.

End Utils.


(* ------------------------------------------------------------------ *)
(** * schemas.py *)

Module Schemas.

(** [d[k]] when present: [None] is an absent key. *)
Fixpoint dict_find (d : obj) (k : pystr) : option json :=
  match d with
  | [] => None
  | (k', v) :: d' => if PyStr.eqb k' k then Some v else dict_find d' k
  end.

Record SubsidyIdentification := {
  organismo_emisor : pystr;
  titulo_convocatoria : pystr;
  base_reguladora : pystr
}.

Record SubsidyDetails := {
  beneficiarios : list pystr;
  finalidad_ayuda : pystr
}.

Record EconomicConditions := {
  presupuesto_total : pystr;
  distribucion_territorial : option (list (pystr * pystr));
  cuantia_por_solicitud : pystr
}.

Record DeadlinesAndProcedure := {
  plazo_presentacion : pystr;
  plazo_resolucion : pystr;
  medio_presentacion : pystr;
  enlace_tramite : option pystr
}.

Record SubsidyAnalysisResult := {
  identificacion : SubsidyIdentification;
  detalles : SubsidyDetails;
  condiciones_economicas : EconomicConditions;
  plazos_procedimiento : DeadlinesAndProcedure;
  metadata : obj
}.

(** Validation of the model constructors on decoded JSON, [None] standing
    for [ValidationError]: a [str] field takes a string, [List[str]] a list
    of strings, [Dict[str, str]] a dict of strings, an [Optional] field also
    [None] or a missing key, a nested model a dict; keys the model does not
    declare are ignored. *)
Definition bind {A B} (x : option A) (f : A -> option B) : option B :=
  match x with
  | Some a => f a
  | None => None
  end.

Notation "x <- e ;; k" := (bind e (fun x => k))
  (at level 61, e at next level, right associativity).

Definition as_str (v : json) : option pystr :=
  match v with
  | JStr s => Some s
  | _ => None
  end.

Definition as_dict (v : json) : option obj :=
  match v with
  | JObj o => Some o
  | _ => None
  end.

Fixpoint all_str (l : list json) : option (list pystr) :=
  match l with
  | [] => Some []
  | v :: l' => s <- as_str v ;; r <- all_str l' ;; Some (s :: r)
  end.

Fixpoint all_str_values (o : obj) : option (list (pystr * pystr)) :=
  match o with
  | [] => Some []
  | (k, v) :: o' => s <- as_str v ;; r <- all_str_values o' ;; Some ((k, s) :: r)
  end.

Definition req_str (d : obj) (k : string) : option pystr :=
  v <- dict_find d (lit k) ;; as_str v.

Definition opt_str (d : obj) (k : string) : option (option pystr) :=
  match dict_find d (lit k) with
  | None | Some JNull => Some None
  | Some (JStr s) => Some (Some s)
  | Some _ => None
  end.

Definition req_str_list (d : obj) (k : string) : option (list pystr) :=
  match dict_find d (lit k) with
  | Some (JArr l) => all_str l
  | _ => None
  end.

Definition opt_str_dict (d : obj) (k : string)
  : option (option (list (pystr * pystr))) :=
  match dict_find d (lit k) with
  | None | Some JNull => Some None
  | Some (JObj o) => r <- all_str_values o ;; Some (Some r)
  | Some _ => None
  end.

Definition req_model {A} (validate : obj -> option A) (d : obj) (k : string)
  : option A :=
  v <- dict_find d (lit k) ;; o <- as_dict v ;; validate o.

Definition validate_identification (d : obj) : option SubsidyIdentification :=
  a <- req_str d "organismo_emisor" ;;
  b <- req_str d "titulo_convocatoria" ;;
  c <- req_str d "base_reguladora" ;;
  Some {| organismo_emisor := a; titulo_convocatoria := b;
          base_reguladora := c |}.

Definition validate_details (d : obj) : option SubsidyDetails :=
  a <- req_str_list d "beneficiarios" ;;
  b <- req_str d "finalidad_ayuda" ;;
  Some {| beneficiarios := a; finalidad_ayuda := b |}.

Definition validate_economic (d : obj) : option EconomicConditions :=
  a <- req_str d "presupuesto_total" ;;
  b <- opt_str_dict d "distribucion_territorial" ;;
  c <- req_str d "cuantia_por_solicitud" ;;
  Some {| presupuesto_total := a; distribucion_territorial := b;
          cuantia_por_solicitud := c |}.

Definition validate_deadlines (d : obj) : option DeadlinesAndProcedure :=
  a <- req_str d "plazo_presentacion" ;;
  b <- req_str d "plazo_resolucion" ;;
  c <- req_str d "medio_presentacion" ;;
  e <- opt_str d "enlace_tramite" ;;
  Some {| plazo_presentacion := a; plazo_resolucion := b;
          medio_presentacion := c; enlace_tramite := e |}.

(** [metadata: Dict[str, Any] = Field(default_factory=dict)]. *)
Definition validate_metadata (d : obj) : option obj :=
  match dict_find d (lit "metadata") with
  | None => Some []
  | Some (JObj o) => Some o
  | Some _ => None
  end.

(** [SubsidyAnalysisResult( **analysis_json )]. *)
Definition validate_result (d : obj) : option SubsidyAnalysisResult :=
  a <- req_model validate_identification d "identificacion" ;;
  b <- req_model validate_details d "detalles" ;;
  c <- req_model validate_economic d "condiciones_economicas" ;;
  e <- req_model validate_deadlines d "plazos_procedimiento" ;;
  m <- validate_metadata d ;;
  Some {| identificacion := a; detalles := b; condiciones_economicas := c;
          plazos_procedimiento := e; metadata := m |}.

(** An entry of [pdf_urls]: [{'url', 'name', 'id'}].  The name and the id
    are whatever the registry record held. *)
Record pdf_ref := {
  url : pystr;
  name : json;
  id : json
}.

(** An entry of [pdf_texts]: [{'filename', 'text', 'path'}]. *)
Record pdf_text := {
  filename : pystr;
  text : pystr;
  path : pystr
}.

(** [SubsidyState].  A key the dict lacks reads, through [state.get], as the
    default the node gives it, so every field holds a value here: [JNull]
    and [None] for an absent key or a Python [None], the empty list, dict
    and zero for the defaults of [get]. *)
Record SubsidyState := {
  bdns_code : json;
  source_url : json;
  subsidy_data : obj;
  pdf_urls : list pdf_ref;
  pdf_texts : list pdf_text;
  pdf_count : Z;
  analysis_result : option SubsidyAnalysisResult;
  raw_analysis : option obj;
  error : option pystr;
  logs : list pystr;
  processing_time : option Q
}.

Definition set_bdns_code (v : json) (s : SubsidyState) : SubsidyState :=
  {| bdns_code := v; source_url := source_url s;
     subsidy_data := subsidy_data s; pdf_urls := pdf_urls s;
     pdf_texts := pdf_texts s; pdf_count := pdf_count s;
     analysis_result := analysis_result s; raw_analysis := raw_analysis s;
     error := error s; logs := logs s;
     processing_time := processing_time s |}.

Definition set_subsidy_data (v : obj) (s : SubsidyState) : SubsidyState :=
  {| bdns_code := bdns_code s; source_url := source_url s;
     subsidy_data := v; pdf_urls := pdf_urls s;
     pdf_texts := pdf_texts s; pdf_count := pdf_count s;
     analysis_result := analysis_result s; raw_analysis := raw_analysis s;
     error := error s; logs := logs s;
     processing_time := processing_time s |}.

Definition set_pdf_urls (v : list pdf_ref) (s : SubsidyState) : SubsidyState :=
  {| bdns_code := bdns_code s; source_url := source_url s;
     subsidy_data := subsidy_data s; pdf_urls := v;
     pdf_texts := pdf_texts s; pdf_count := pdf_count s;
     analysis_result := analysis_result s; raw_analysis := raw_analysis s;
     error := error s; logs := logs s;
     processing_time := processing_time s |}.

Definition set_pdf_texts (v : list pdf_text) (s : SubsidyState) : SubsidyState :=
  {| bdns_code := bdns_code s; source_url := source_url s;
     subsidy_data := subsidy_data s; pdf_urls := pdf_urls s;
     pdf_texts := v; pdf_count := pdf_count s;
     analysis_result := analysis_result s; raw_analysis := raw_analysis s;
     error := error s; logs := logs s;
     processing_time := processing_time s |}.

Definition set_pdf_count (v : Z) (s : SubsidyState) : SubsidyState :=
  {| bdns_code := bdns_code s; source_url := source_url s;
     subsidy_data := subsidy_data s; pdf_urls := pdf_urls s;
     pdf_texts := pdf_texts s; pdf_count := v;
     analysis_result := analysis_result s; raw_analysis := raw_analysis s;
     error := error s; logs := logs s;
     processing_time := processing_time s |}.

Definition set_analysis_result (v : option SubsidyAnalysisResult)
    (s : SubsidyState) : SubsidyState :=
  {| bdns_code := bdns_code s; source_url := source_url s;
     subsidy_data := subsidy_data s; pdf_urls := pdf_urls s;
     pdf_texts := pdf_texts s; pdf_count := pdf_count s;
     analysis_result := v; raw_analysis := raw_analysis s;
     error := error s; logs := logs s;
     processing_time := processing_time s |}.

Definition set_raw_analysis (v : option obj) (s : SubsidyState)
  : SubsidyState :=
  {| bdns_code := bdns_code s; source_url := source_url s;
     subsidy_data := subsidy_data s; pdf_urls := pdf_urls s;
     pdf_texts := pdf_texts s; pdf_count := pdf_count s;
     analysis_result := analysis_result s; raw_analysis := v;
     error := error s; logs := logs s;
     processing_time := processing_time s |}.

(** [state["error"] = msg]. *)
Definition set_error (msg : pystr) (s : SubsidyState) : SubsidyState :=
  {| bdns_code := bdns_code s; source_url := source_url s;
     subsidy_data := subsidy_data s; pdf_urls := pdf_urls s;
     pdf_texts := pdf_texts s; pdf_count := pdf_count s;
     analysis_result := analysis_result s; raw_analysis := raw_analysis s;
     error := Some msg; logs := logs s;
     processing_time := processing_time s |}.

(** [state["logs"] = state.get("logs", []) + [line]]. *)
Definition add_log (line : pystr) (s : SubsidyState) : SubsidyState :=
  {| bdns_code := bdns_code s; source_url := source_url s;
     subsidy_data := subsidy_data s; pdf_urls := pdf_urls s;
     pdf_texts := pdf_texts s; pdf_count := pdf_count s;
     analysis_result := analysis_result s; raw_analysis := raw_analysis s;
     error := error s; logs := logs s ++ [line];
     processing_time := processing_time s |}.

Definition set_processing_time (t : Q) (s : SubsidyState) : SubsidyState :=
  {| bdns_code := bdns_code s; source_url := source_url s;
     subsidy_data := subsidy_data s; pdf_urls := pdf_urls s;
     pdf_texts := pdf_texts s; pdf_count := pdf_count s;
     analysis_result := analysis_result s; raw_analysis := raw_analysis s;
     error := error s; logs := logs s;
     processing_time := Some t |}.

End Schemas.
Import Schemas.

(* ------------------------------------------------------------------ *)
(** * The world outside the process *)

(** Exceptions the interpreter raises inside the nodes. *)
Inductive py_error :=
| ExpectedString (v : json)          (* [re] applied to a non-string *)
| NoAttribute (v : json) (attr : string) (* [v.get], [v.lower] *)
| NotSized (v : json)                (* [len(v)], [for _ in v] *)
| MissingKey (k : string)            (* [d[k]] *)
| GraphRecursion.                    (* the engine's step limit *)

(** The registry's answer: status code and what [response.json()] gives. *)
Record api_response := {
  api_status : Z;
  api_json : outcome json
}.

(** A document download: status code and [response.content]. *)
Record doc_response := {
  doc_status : Z;
  doc_content : outcome (list N)
}.

(** The user prompt of the analysis: which template, filled with what. *)
Inductive prompt :=
| PromptWithPdf (data : obj) (pdf_text : pystr)
| PromptWithoutPdf (data : obj).

Record world := {
  unicode : unicode_db;
  (** [str(e)] of an interpreter exception *)
  str_of_error : py_error -> pystr;
  (** [str(v)] of a float, a list or a dict *)
  py_repr : json -> pystr;
  (** [d.update(v)] for [v] not a dict: the dict afterwards, and the
      exception if it raised *)
  update_non_dict : obj -> json -> obj * option pystr;
  (** [session.get(api_url, timeout=30)] *)
  registry_get : pystr -> outcome api_response;
  (** [create_download_directory()] *)
  make_download_dir : outcome pystr;
  (** [session.get(pdf_url, stream=True, timeout=60)] for the reference at
      a position of [pdf_urls] *)
  doc_get : nat -> pystr -> outcome doc_response;
  (** [download_dir / pdf_filename], as a string *)
  path_join : pystr -> pystr -> pystr;
  (** writing the bytes to a path *)
  write_bytes : pystr -> list N -> outcome unit;
  (** [PdfReader(...)] and [extract_text()] of every page, in page order *)
  pdf_page_texts : list N -> outcome (list pystr);
  (** [llm.invoke(messages)]: the response text and the token usage list *)
  llm_invoke : prompt -> outcome (pystr * list obj);
  (** [llm.model_name] *)
  llm_model_name : pystr;
  (** [json.loads] on a span that starts with an opening brace: the dict,
      [None] for a [json.JSONDecodeError], or any other exception *)
  json_loads : pystr -> outcome (option obj);
  (** [datetime.now().isoformat()] in the analysis node *)
  now_isoformat : pystr;
  (** [datetime.now().strftime(...)] in the save node *)
  now_stamp : pystr;
  (** [json.dump(save_data, f, ...)] to the path *)
  write_json : pystr -> obj + SubsidyAnalysisResult -> outcome unit;
  (** [time.time() - start_time] *)
  elapsed : Q
}.

(** [str(z)] of an [int]. *)
Definition str_of_Z (z : Z) : pystr :=
  lit (DecimalString.NilZero.string_of_int (Z.to_int z)).

(** [f"{v}"]: [str(v)]. *)
Definition py_format (w : world) (v : json) : pystr :=
  match v with
  | JNull => lit "None"
  | JBool true => lit "True"
  | JBool false => lit "False"
  | JInt z => str_of_Z z
  | JStr s => s
  | JFloat _ | JArr _ | JObj _ => py_repr w v
  end.

(* ------------------------------------------------------------------ *)
(** * nodes.py: identifier, registry and document location *)

Module Nodes.
Section WithWorld.
Variable w : world.

(** [extract_bdns_from_url(source_url)] as the node calls it: [re.search]
    raises on a value that is not a string. *)
Definition url_code (source : json) : outcome json :=
  match source with
  | JStr u =>
      match Utils.extract_bdns_from_url (unicode w) u with
      | Some d => Ok (JStr d)
      | None => Ok JNull
      end
  | v => Raise (str_of_error w (ExpectedString v))
  end.

(** [subsidy_data.get("codigo_bdns") or subsidy_data.get("bdns_code")]. *)
Definition data_code (data : obj) : json :=
  py_or (dict_get data (lit "codigo_bdns")) (dict_get data (lit "bdns_code")).

(** [state["bdns_code"] = code] under [if code:]. *)
Definition store_code (code : json) (s : SubsidyState) : SubsidyState :=
  if truthy code then set_bdns_code code s else s.

Definition extract_bdns_node (s : SubsidyState) : SubsidyState :=
  let from_url :=
    if negb (truthy (bdns_code s)) && truthy (source_url s)
    then match url_code (source_url s) with
         | Ok c => Ok (c, store_code c s)
         | Raise m => Raise m
         end
    else Ok (bdns_code s, s) in
  match from_url with
  | Raise m => set_error (lit "Error extracting BDNS: " ++ m) s
  | Ok (c1, s1) =>
      let '(c2, s2) :=
        if negb (truthy c1)
        then let c := data_code (subsidy_data s1) in (c, store_code c s1)
        else (c1, s1) in
      if negb (truthy c2)
      then set_error (lit "No BDNS code could be extracted") s2
      else add_log (lit "BDNS code: " ++ py_format w c2) s2
  end.

Definition api_url (code : json) : pystr :=
  lit "https://www.subvenciones.gob.es/bdnstrans/api/convocatorias?numConv="
  ++ py_format w code ++ lit "&vpd=GE".

(** [existing_data.update(data)]: the dict afterwards, and the exception if
    it raised.  The dict is the state's own, so what [update] did before it
    raised stays in the state. *)
Definition py_update (existing : obj) (data : json) : obj * option pystr :=
  match data with
  | JObj e => (dict_update existing e, None)
  | v => update_non_dict w existing v
  end.

Definition fetch_error (m : pystr) (s : SubsidyState) : SubsidyState :=
  set_error (lit "Error fetching subsidy info: " ++ m) s.

Definition fetch_subsidy_info_node (s : SubsidyState) : SubsidyState :=
  if negb (truthy (bdns_code s))
  then set_error (lit "No BDNS code available for API call") s
  else
    match registry_get w (api_url (bdns_code s)) with
    | Raise m => fetch_error m s
    | Ok r =>
        if Z.eqb (api_status r) 200 then
          match api_json r with
          | Raise m => fetch_error m s
          | Ok data =>
              match py_update (subsidy_data s) data with
              | (d, Some m) => fetch_error m (set_subsidy_data d s)
              | (d, None) =>
                  add_log (lit "API data fetched successfully")
                          (set_subsidy_data d s)
              end
          end
        else
          add_log (lit "API call failed with status: "
                   ++ str_of_Z (api_status r)) s
    end.

(** [doc.get('nombreFic') or doc.get('nombre') or doc.get('name') or
    'Unknown']. *)
Definition doc_name_of (doc : obj) : json :=
  py_or (py_or (py_or (dict_get doc (lit "nombreFic"))
                      (dict_get doc (lit "nombre")))
               (dict_get doc (lit "name")))
        (JStr (lit "Unknown")).

(** [doc.get('tipo') or doc.get('type') or '']. *)
Definition doc_type_of (doc : obj) : json :=
  py_or (py_or (dict_get doc (lit "tipo")) (dict_get doc (lit "type")))
        (JStr []).

(** ['pdf' in doc_name.lower()]. *)
Definition name_has_pdf (doc_name : json) : outcome bool :=
  match doc_name with
  | JStr n => Ok (contains (lower (unicode w) n) (lit "pdf"))
  | v => Raise (str_of_error w (NoAttribute v "lower"))
  end.

(** [(doc_type == 'PDF' or 'pdf' in doc_name.lower()) and doc_id], with
    the short circuits of [or] and [and]. *)
Definition is_pdf_candidate (doc : obj) : outcome bool :=
  if eq_str (doc_type_of doc) (lit "PDF")
  then Ok (truthy (dict_get doc (lit "id")))
  else match name_has_pdf (doc_name_of doc) with
       | Ok true => Ok (truthy (dict_get doc (lit "id")))
       | Ok false => Ok false
       | Raise m => Raise m
       end.

Definition doc_url (code doc_id : json) : pystr :=
  lit "https://www.subvenciones.gob.es/bdnstrans/GE/es/convocatoria/"
  ++ py_format w code ++ lit "/document/" ++ py_format w doc_id.

Definition make_ref (code : json) (doc : obj) : pdf_ref :=
  {| url := doc_url code (dict_get doc (lit "id"));
     name := doc_name_of doc;
     id := dict_get doc (lit "id") |}.

(** What [for doc in subsidy_data['documentos']] iterates over, after
    [len(...)] of the same value in the log line. *)
Definition iter_documents (docs : json) : outcome (list json) :=
  match docs with
  | JArr l => Ok l
  | JObj o => Ok (map (fun kv => JStr (fst kv)) o)
  | JStr s => Ok (map (fun c => JStr [c]) s)
  | v => Raise (str_of_error w (NotSized v))
  end.

(** The body of the loop over the documents: the list [pdf_urls] grows by
    the candidates, and the first exception ends the loop. *)
Fixpoint collect_pdf_urls (code : json) (docs : list json)
    (acc : list pdf_ref) : outcome (list pdf_ref) :=
  match docs with
  | [] => Ok acc
  | JObj doc :: rest =>
      match is_pdf_candidate doc with
      | Ok true => collect_pdf_urls code rest (acc ++ [make_ref code doc])
      | Ok false => collect_pdf_urls code rest acc
      | Raise m => Raise m
      end
  | v :: _ => Raise (str_of_error w (NoAttribute v "get"))
  end.

Definition locate_documents (s : SubsidyState) : outcome (list pdf_ref) :=
  let data := subsidy_data s in
  if dict_mem data (lit "documentos")
     && truthy (dict_get data (lit "documentos"))
  then match iter_documents (dict_get data (lit "documentos")) with
       | Ok docs => collect_pdf_urls (bdns_code s) docs []
       | Raise m => Raise m
       end
  else Ok [].

Definition find_pdf_urls_node (s : SubsidyState) : SubsidyState :=
  match locate_documents s with
  | Ok refs =>
      add_log (lit "Found " ++ str_of_Z (Z.of_nat (List.length refs))
               ++ lit " PDFs")
              (set_pdf_urls refs s)
  | Raise m => set_error (lit "Error finding PDFs: " ++ m) s
  end.

(** ** Document acquisition *)

Inductive level := INFO | WARNING | ERROR.

(** A record sent to [logger]. *)
Definition log_record := (level * pystr)%type.

(** [text = ""; for page in pdf_reader.pages: text += page.extract_text()
    + "\n"]. *)
Definition join_pages (pages : list pystr) : pystr :=
  flat_map (fun p => p ++ [c_newline]) pages.

(** The inner [try] of the extraction: the entry to append, if any, and
    what is logged. *)
Definition extract_entry (doc_name pdf_path : pystr) (content : list N)
  : option pdf_text * list log_record :=
  match pdf_page_texts w content with
  | Ok pages =>
      let text := join_pages pages in
      match strip (unicode w) text with
      | _ :: _ =>
          (Some {| filename := doc_name; text := text; path := pdf_path |},
           [(INFO, lit "Extracted "
                   ++ str_of_Z (Z.of_nat (List.length text))
                   ++ lit " characters from " ++ doc_name)])
      | [] => (None, [(WARNING, lit "No text extracted from " ++ doc_name)])
      end
  | Raise m =>
      (None, [(ERROR, lit "Error extracting text from " ++ doc_name
                      ++ lit ": " ++ m)])
  end.

Definition download_error (doc_name : json) (m : pystr) : log_record :=
  (ERROR, lit "Error downloading " ++ py_format w doc_name ++ lit ": " ++ m).

(** Saving and extracting, once the bytes are known to be a PDF. *)
Definition save_and_extract (download_dir : pystr) (code doc_name : json)
    (content : list N) : option pdf_text * list log_record :=
  match doc_name with
  | JStr n =>
      let safe_name := Utils.clean_filename (unicode w) n in
      let pdf_filename := py_format w code ++ lit "_" ++ safe_name
                          ++ lit ".pdf" in
      let pdf_path := path_join w download_dir pdf_filename in
      match write_bytes w pdf_path content with
      | Ok _ =>
          let '(e, l) := extract_entry n pdf_path content in
          (e, (INFO, lit "Saved PDF to: " ++ pdf_path) :: l)
      | Raise m => (None, [download_error doc_name m])
      end
  | v => (None, [download_error doc_name
                   (str_of_error w (ExpectedString v))])
  end.

(** One pass of the loop body, for the reference at position [i]. *)
Definition download_one (download_dir : pystr) (code : json) (i : nat)
    (r : pdf_ref) : option pdf_text * list log_record :=
  let start :=
    (INFO, lit "Downloading: " ++ py_format w (name r) ++ lit " from "
           ++ url r) in
  let '(e, l) :=
    match doc_get w i (url r) with
    | Raise m => (None, [download_error (name r) m])
    | Ok resp =>
        if Z.eqb (doc_status resp) 200 then
          match doc_content resp with
          | Raise m => (None, [download_error (name r) m])
          | Ok content =>
              if Utils.validate_pdf_content content
              then save_and_extract download_dir code (name r) content
              else (None, [(WARNING,
                            lit "Downloaded content is not a valid PDF: "
                            ++ py_format w (name r))])
          end
        else (None, [(WARNING, lit "Failed to download "
                               ++ py_format w (name r) ++ lit ": HTTP "
                               ++ str_of_Z (doc_status resp))])
    end in
  (e, start :: l).

(** The locals of the loop: [pdf_texts], [successful_downloads], and the
    records sent to the logger so far. *)
Record loop_state := {
  l_texts : list pdf_text;
  l_successful : Z;
  l_logger : list log_record
}.

Definition loop_step (download_dir : pystr) (code : json) (i : nat)
    (r : pdf_ref) (a : loop_state) : loop_state :=
  match download_one download_dir code i r with
  | (Some e, l) =>
      {| l_texts := l_texts a ++ [e];
         l_successful := l_successful a + 1;
         l_logger := l_logger a ++ l |}
  | (None, l) =>
      {| l_texts := l_texts a;
         l_successful := l_successful a;
         l_logger := l_logger a ++ l |}
  end.

(** [for pdf_info in pdf_urls: ...], from position [i] on. *)
Fixpoint download_loop (download_dir : pystr) (code : json) (i : nat)
    (refs : list pdf_ref) (a : loop_state) : loop_state :=
  match refs with
  | [] => a
  | r :: rest =>
      download_loop download_dir code (S i) rest
                    (loop_step download_dir code i r a)
  end.

Definition loop_start : loop_state :=
  {| l_texts := []; l_successful := 0; l_logger := [] |}.

Definition download_pdfs_node (s : SubsidyState) : SubsidyState :=
  match pdf_urls s with
  | [] =>
      add_log (lit "No PDFs to download")
              (set_pdf_count 0 (set_pdf_texts [] s))
  | refs =>
      match make_download_dir w with
      | Raise m => set_error (lit "Error in download process: " ++ m) s
      | Ok dir =>
          let a := download_loop dir (bdns_code s) 0 refs loop_start in
          add_log (lit "Downloaded and processed "
                   ++ str_of_Z (l_successful a) ++ lit " PDFs")
                  (set_pdf_count (l_successful a)
                     (set_pdf_texts (l_texts a) s))
      end
  end.

(** What the node sends to the logger inside the loop. *)
Definition download_logger (s : SubsidyState) : list log_record :=
  match pdf_urls s, make_download_dir w with
  | _ :: _, Ok dir =>
      l_logger (download_loop dir (bdns_code s) 0 (pdf_urls s) loop_start)
  | _, _ => []
  end.

(** ** Analysis *)

(** [f"=== DOCUMENT: {pdf['filename']} ===\n{pdf['text']}"]. *)
Definition pdf_section (t : pdf_text) : pystr :=
  lit "=== DOCUMENT: " ++ filename t ++ lit " ===" ++ [c_newline] ++ text t.

(** ["\n\n".join(pdf_sections)]. *)
Fixpoint join_sections (l : list pystr) : pystr :=
  match l with
  | [] => []
  | [x] => x
  | x :: rest => x ++ [c_newline; c_newline] ++ join_sections rest
  end.

Definition combined_pdf_text (texts : list pdf_text) : pystr :=
  join_sections (map pdf_section texts).

(** The prompt is chosen by [if combined_pdf_text:]. *)
Definition build_prompt (data : obj) (texts : list pdf_text) : prompt :=
  match combined_pdf_text texts with
  | [] => PromptWithoutPdf data
  | _ :: _ => PromptWithPdf data (combined_pdf_text texts)
  end.

(** The token usage log line reads three keys of [token_usage[0]]. *)
Definition check_usage (token_usage : list obj) : outcome unit :=
  match token_usage with
  | [] => Ok tt
  | usage :: _ =>
      if negb (dict_mem usage (lit "model_name"))
      then Raise (str_of_error w (MissingKey "model_name"))
      else if negb (dict_mem usage (lit "input_tokens"))
      then Raise (str_of_error w (MissingKey "input_tokens"))
      else if negb (dict_mem usage (lit "output_tokens"))
      then Raise (str_of_error w (MissingKey "output_tokens"))
      else Ok tt
  end.

(** The [metadata] dict. *)
Definition make_metadata (s : SubsidyState) (token_usage : list obj) : obj :=
  [ (lit "analysis_date", JStr (now_isoformat w));
    (lit "subsidy_code", bdns_code s);
    (lit "used_pdf",
       JBool (match pdf_texts s with [] => false | _ => true end));
    (lit "pdf_count", JInt (Z.of_nat (List.length (pdf_texts s))));
    (lit "model_used", JStr (llm_model_name w));
    (lit "version", JStr (lit "3.0-langgraph"));
    (lit "token_usage",
       match token_usage with [] => JNull | u :: _ => JObj u end) ].

(** [state["analysis_result"].metadata = metadata]. *)
Definition with_metadata (m : obj) (r : SubsidyAnalysisResult)
  : SubsidyAnalysisResult :=
  {| identificacion := identificacion r; detalles := detalles r;
     condiciones_economicas := condiciones_economicas r;
     plazos_procedimiento := plazos_procedimiento r;
     metadata := m |}.

(** [analysis_json = extract_json_from_text(analysis_text)] and
    [if analysis_json: ... else: ...] on the response text; an exception
    that the extraction lets through goes on to the handler of the node. *)
Definition store_analysis (analysis_text : pystr) (s : SubsidyState)
  : outcome SubsidyState :=
  match Utils.extract_json_from_text (json_loads w) analysis_text with
  | Raise m => Raise m
  | Ok (Some (kv :: rest)) =>
      let analysis_json := kv :: rest in
      match validate_result analysis_json with
      | Some r => Ok (set_analysis_result (Some r) s)
      | None => Ok (set_raw_analysis (Some analysis_json) s)
      end
  | Ok (Some []) | Ok None =>
      Ok (set_raw_analysis
            (Some [(lit "raw_response", JStr analysis_text)])
            (set_error
               (lit "Could not extract valid JSON from LLM response") s))
  end.

(** [if state.get("analysis_result"): ... elif state.get("raw_analysis"):
    ...]: a model instance is always true, a dict when it is not empty. *)
Definition attach_metadata (m : obj) (s : SubsidyState) : SubsidyState :=
  match analysis_result s with
  | Some r => set_analysis_result (Some (with_metadata m r)) s
  | None =>
      match raw_analysis s with
      | Some (kv :: rest) =>
          set_raw_analysis
            (Some (dict_set (kv :: rest) (lit "metadata") (JObj m))) s
      | Some [] | None => s
      end
  end.

Definition analyze_subsidy_node (s : SubsidyState) : SubsidyState :=
  let failed m := set_error (lit "Error in LLM analysis: " ++ m) s in
  match llm_invoke w (build_prompt (subsidy_data s) (pdf_texts s)) with
  | Raise m => failed m
  | Ok (analysis_text, token_usage) =>
      match check_usage token_usage with
      | Raise m => failed m
      | Ok _ =>
          match store_analysis analysis_text s with
          | Raise m => failed m
          | Ok s1 =>
              add_log (lit "LLM analysis completed")
                      (attach_metadata (make_metadata s1 token_usage) s1)
          end
      end
  end.

(** The body of the node ran to its [return state], rather than into its
    [except] clause: the call of the model, the reading of the usage
    record and the extraction of the JSON all returned. *)
Definition analysis_completed (s : SubsidyState) : bool :=
  match llm_invoke w (build_prompt (subsidy_data s) (pdf_texts s)) with
  | Raise _ => false
  | Ok (analysis_text, token_usage) =>
      match check_usage token_usage with
      | Raise _ => false
      | Ok _ =>
          match Utils.extract_json_from_text (json_loads w) analysis_text
          with
          | Raise _ => false
          | Ok _ => true
          end
      end
  end.

(** ** Persistence *)

Definition pdf_indicator (count : Z) : pystr :=
  if (0 <? count)%Z
  then lit "_with_" ++ str_of_Z count ++ lit "_PDFs"
  else lit "_JSON_only".

Definition result_filename (s : SubsidyState) : pystr :=
  lit "LangGraph_Analysis_" ++ py_format w (bdns_code s) ++ lit "_"
  ++ now_stamp w ++ pdf_indicator (pdf_count s) ++ lit ".json".

(** [analysis_result.model_dump()] if there is one, else [raw_analysis];
    [None] when [not (analysis_result or raw_analysis)]. *)
Definition save_data (s : SubsidyState) : option (obj + SubsidyAnalysisResult) :=
  match analysis_result s, raw_analysis s with
  | Some r, _ => Some (inr r)
  | None, Some (kv :: rest) => Some (inl (kv :: rest))
  | None, _ => None
  end.

Definition save_results_node (s : SubsidyState) : SubsidyState :=
  match save_data s with
  | None => s
  | Some d =>
      if negb (truthy (bdns_code s)) then s
      else
        let failed m := set_error (lit "Error saving results: " ++ m) s in
        match make_download_dir w with
        | Raise m => failed m
        | Ok dir =>
            let filepath := path_join w dir (result_filename s) in
            match write_json w filepath d with
            | Raise m => failed m
            | Ok _ => add_log (lit "Results saved to " ++ filepath) s
            end
        end
  end.

End WithWorld.
End Nodes.

(* ------------------------------------------------------------------ *)
(** * graph.py *)

Module Graph.

(** The part of [langgraph.graph.StateGraph] the workflow uses: named
    nodes, one entry point, directed edges.  [END] is the name no node
    carries. *)
Record StateGraph (S : Type) := {
  nodes : list (string * (S -> S));
  entry_point : option string;
  edges : list (string * string)
}.
Arguments nodes {S} _.
Arguments entry_point {S} _.
Arguments edges {S} _.

Definition END : string := "__end__".

Section Builder.
Variable S : Type.

Definition empty_graph : StateGraph S :=
  {| nodes := []; entry_point := None; edges := [] |}.

Definition add_node (n : string) (f : S -> S) (g : StateGraph S)
  : StateGraph S :=
  {| nodes := nodes g ++ [(n, f)]; entry_point := entry_point g;
     edges := edges g |}.

Definition set_entry_point (n : string) (g : StateGraph S) : StateGraph S :=
  {| nodes := nodes g; entry_point := Some n; edges := edges g |}.

Definition add_edge (a b : string) (g : StateGraph S) : StateGraph S :=
  {| nodes := nodes g; entry_point := entry_point g;
     edges := edges g ++ [(a, b)] |}.

Fixpoint find_node (l : list (string * (S -> S))) (n : string)
  : option (S -> S) :=
  match l with
  | [] => None
  | (m, f) :: l' => if String.eqb m n then Some f else find_node l' n
  end.

(** The nodes an edge leads to from [n], [END] left out. *)
Definition successors (g : StateGraph S) (n : string) : list string :=
  filter (fun m => negb (String.eqb m END))
         (map snd (filter (fun e => String.eqb (fst e) n) (edges g))).

(** Running the nodes of one step in turn; [None] for a name without a
    node. *)
Fixpoint run_step (g : StateGraph S) (active : list string) (s : S)
  : option S :=
  match active with
  | [] => Some s
  | n :: rest =>
      match find_node (nodes g) n with
      | Some f => run_step g rest (f s)
      | None => None
      end
  end.

(** Step after step until no node is active; [None] stands for the
    exception the engine raises, among them the one for a run that is not
    over within the limit of steps. *)
Fixpoint run (g : StateGraph S) (limit : nat) (active : list string)
    (s : S) (trace : list string) : option (S * list string) :=
  match active with
  | [] => Some (s, trace)
  | _ :: _ =>
      match limit with
      | O => None
      | Datatypes.S limit' =>
          match run_step g active s with
          | Some s' =>
              run g limit' (flat_map (successors g) active) s'
                  (trace ++ active)
          | None => None
          end
      end
  end.

(** The default [recursion_limit] of a compiled graph. *)
Definition recursion_limit : nat := 25.

(** [workflow.invoke(initial_state, config)]: the final state, and the
    names of the nodes in the order they ran. *)
Definition invoke_trace (g : StateGraph S) (s : S) : option (S * list string) :=
  match entry_point g with
  | Some n => run g recursion_limit [n] s []
  | None => None
  end.

Definition invoke (g : StateGraph S) (s : S) : option S :=
  option_map fst (invoke_trace g s).

(** [_build_workflow], for any six node functions. *)
Definition build_workflow_of (f1 f2 f3 f4 f5 f6 : S -> S) : StateGraph S :=
  add_edge "save_results" END
  (add_edge "analyze_subsidy" "save_results"
  (add_edge "download_pdfs" "analyze_subsidy"
  (add_edge "find_pdf_urls" "download_pdfs"
  (add_edge "fetch_subsidy_info" "find_pdf_urls"
  (add_edge "extract_bdns" "fetch_subsidy_info"
  (set_entry_point "extract_bdns"
  (add_node "save_results" f6
  (add_node "analyze_subsidy" f5
  (add_node "download_pdfs" f4
  (add_node "find_pdf_urls" f3
  (add_node "fetch_subsidy_info" f2
  (add_node "extract_bdns" f1 empty_graph)))))))))))).

End Builder.

(** The six stages, by the names the workflow gives them. *)
Definition stage_names : list string :=
  [ "extract_bdns"; "fetch_subsidy_info"; "find_pdf_urls";
    "download_pdfs"; "analyze_subsidy"; "save_results" ]%string.

Section WithWorld.
Variable w : world.

(** [SubsidyAnalyzerGraph._build_workflow]. *)
Definition build_workflow : StateGraph SubsidyState :=
  build_workflow_of
    (Nodes.extract_bdns_node w) (Nodes.fetch_subsidy_info_node w)
    (Nodes.find_pdf_urls_node w) (Nodes.download_pdfs_node w)
    (Nodes.analyze_subsidy_node w) (Nodes.save_results_node w).

(** The dict the three entry points return. *)
Record run_result := {
  success : bool;
  r_analysis_result : option SubsidyAnalysisResult;
  r_raw_analysis : option obj;
  r_processing_time : Q;
  r_pdf_count : Z;
  r_logs : list pystr;
  r_error : option pystr
}.

(** A result returned before the workflow is invoked. *)
Definition rejected (msg : pystr) : run_result :=
  {| success := false; r_analysis_result := None; r_raw_analysis := None;
     r_processing_time := 0; r_pdf_count := 0; r_logs := [];
     r_error := Some msg |}.

(** [bool(final_state.get("error"))]. *)
Definition error_set (e : option pystr) : bool :=
  match e with
  | Some (_ :: _) => true
  | _ => false
  end.

Definition initial_state (code source : json) (data : obj) : SubsidyState :=
  {| bdns_code := code; source_url := source; subsidy_data := data;
     pdf_urls := []; pdf_texts := []; pdf_count := 0;
     analysis_result := None; raw_analysis := None; error := None;
     logs := []; processing_time := None |}.

(** The [try] around [self.workflow.invoke]: the result, and the names of
    the nodes that ran. *)
Definition run_workflow (s0 : SubsidyState) : run_result * list string :=
  match invoke_trace build_workflow s0 with
  | Some (final, trace) =>
      let final := set_processing_time (elapsed w) final in
      ({| success := negb (error_set (error final));
          r_analysis_result := analysis_result final;
          r_raw_analysis := raw_analysis final;
          r_processing_time := elapsed w;
          r_pdf_count := pdf_count final;
          r_logs := logs final;
          r_error := error final |}, trace)
  | None =>
      let msg := str_of_error w GraphRecursion in
      ({| success := false; r_analysis_result := None;
          r_raw_analysis := None; r_processing_time := elapsed w;
          r_pdf_count := 0; r_logs := [lit "Workflow failed: " ++ msg];
          r_error := Some msg |}, [])
  end.

Definition analyze_from_bdns_trace (code : pystr)
  : run_result * list string :=
  run_workflow
    (initial_state (JStr code)
       (JStr (lit "https://www.subvenciones.gob.es/bdnstrans/GE/es/convocatorias/"
              ++ code))
       []).

Definition analyze_from_data_trace (data : obj) : run_result * list string :=
  let code := Nodes.data_code data in
  let source := dict_get data (lit "source_url") in
  if negb (truthy code) && negb (truthy source)
  then (rejected
          (lit "Either bdns_code or source_url must be provided in subsidy_data"),
        [])
  else run_workflow (initial_state (py_or code (JStr [])) source data).

Definition analyze_from_url_trace (u : pystr) : run_result * list string :=
  match Utils.extract_bdns_from_url (unicode w) u with
  | Some code => analyze_from_bdns_trace code
  | None =>
      (rejected (lit "Could not extract BDNS code from URL: " ++ u), [])
  end.

Definition analyze_from_bdns (code : pystr) : run_result :=
  fst (analyze_from_bdns_trace code).
Definition analyze_from_data (data : obj) : run_result :=
  fst (analyze_from_data_trace data).
Definition analyze_from_url (u : pystr) : run_result :=
  fst (analyze_from_url_trace u).

End WithWorld.
End Graph.

(* ------------------------------------------------------------------ *)
(** * A decoder and worlds to run the model in *)

Module Sample.

(** A decoder for JSON texts made of objects, arrays, strings with the
    one-character escapes, integers and the three literals; any other text
    is refused.  It stands in for [json.loads] where the model is run. *)
Fixpoint skip_ws (s : pystr) : pystr :=
  match s with
  | c :: s' =>
      if (N.eqb c 32 || N.eqb c 9 || N.eqb c 10 || N.eqb c 13)%N
      then skip_ws s' else s
  | [] => []
  end.

Definition unescape (c : N) : option N :=
  (if N.eqb c 34 then Some 34
   else if N.eqb c 92 then Some 92
   else if N.eqb c 47 then Some 47
   else if N.eqb c 98 then Some 8
   else if N.eqb c 102 then Some 12
   else if N.eqb c 110 then Some 10
   else if N.eqb c 114 then Some 13
   else if N.eqb c 116 then Some 9
   else None)%N.

(** The characters of a string, after its opening quote. *)
Fixpoint parse_chars (s : pystr) : option (pystr * pystr) :=
  match s with
  | [] => None
  | c :: s' =>
      if N.eqb c c_dquote then Some ([], s')
      else if N.eqb c 92 then
        match s' with
        | e :: s'' =>
            match unescape e, parse_chars s'' with
            | Some x, Some (t, r) => Some (x :: t, r)
            | _, _ => None
            end
        | [] => None
        end
      else if (c <? 32)%N then None
      else match parse_chars s' with
           | Some (t, r) => Some (c :: t, r)
           | None => None
           end
  end.

Fixpoint digits_value (acc : Z) (s : pystr) : Z * pystr :=
  match s with
  | c :: s' =>
      if ascii_digit c
      then digits_value (10 * acc + Z.of_N (c - 48)) s'
      else (acc, s)
  | [] => (acc, [])
  end.

(** An integer without fraction or exponent, and without a leading zero. *)
Definition parse_digits (s : pystr) : option (Z * pystr) :=
  match s with
  | c :: s' =>
      if ascii_digit c then
        let '(v, r) := digits_value 0 s in
        let ok_head := negb (N.eqb c 48)
                       || match s' with
                          | d :: _ => negb (ascii_digit d)
                          | [] => true
                          end in
        let ok_tail := match r with
                       | d :: _ => negb (N.eqb d 46 || N.eqb d 101
                                         || N.eqb d 69)
                       | [] => true
                       end in
        if ok_head && ok_tail then Some (v, r) else None
      else None
  | [] => None
  end.

Definition parse_int (s : pystr) : option (Z * pystr) :=
  match s with
  | c :: s' =>
      if N.eqb c c_hyphen
      then match parse_digits s' with
           | Some (v, r) => Some ((- v)%Z, r)
           | None => None
           end
      else parse_digits s
  | [] => None
  end.

Definition after_literal (l : string) (v : json) (s : pystr)
  : option (json * pystr) :=
  if startswith s (lit l)
  then Some (v, skipn (List.length (lit l)) s) else None.

Fixpoint parse_value (fuel : nat) (s : pystr) : option (json * pystr) :=
  match fuel with
  | O => None
  | S f =>
      match s with
      | [] => None
      | c :: r =>
          if N.eqb c c_lbrace then
            match skip_ws r with
            | c' :: r' =>
                if N.eqb c' c_rbrace then Some (JObj [], r')
                else parse_members f (c' :: r') []
            | [] => None
            end
          else if N.eqb c 91 then
            match skip_ws r with
            | c' :: r' =>
                if N.eqb c' 93 then Some (JArr [], r')
                else parse_elements f (c' :: r') []
            | [] => None
            end
          else if N.eqb c c_dquote then
            match parse_chars r with
            | Some (t, r') => Some (JStr t, r')
            | None => None
            end
          else if N.eqb c 116 then after_literal "true" (JBool true) s
          else if N.eqb c 102 then after_literal "false" (JBool false) s
          else if N.eqb c 110 then after_literal "null" JNull s
          else match parse_int s with
               | Some (v, r') => Some (JInt v, r')
               | None => None
               end
      end
  end

with parse_members (fuel : nat) (s : pystr) (acc : obj)
  : option (json * pystr) :=
  match fuel with
  | O => None
  | S f =>
      match s with
      | q :: r =>
          if N.eqb q c_dquote then
            match parse_chars r with
            | Some (k, r1) =>
                match skip_ws r1 with
                | colon :: r2 =>
                    if N.eqb colon 58 then
                      match parse_value f (skip_ws r2) with
                      | Some (v, r3) =>
                          let acc' := dict_set acc k v in
                          match skip_ws r3 with
                          | d :: r4 =>
                              if N.eqb d c_rbrace then Some (JObj acc', r4)
                              else if N.eqb d 44
                              then parse_members f (skip_ws r4) acc'
                              else None
                          | [] => None
                          end
                      | None => None
                      end
                    else None
                | [] => None
                end
            | None => None
            end
          else None
      | [] => None
      end
  end

with parse_elements (fuel : nat) (s : pystr) (acc : list json)
  : option (json * pystr) :=
  match fuel with
  | O => None
  | S f =>
      match parse_value f s with
      | Some (v, r) =>
          match skip_ws r with
          | d :: r' =>
              if N.eqb d 93 then Some (JArr (acc ++ [v]), r')
              else if N.eqb d 44
              then parse_elements f (skip_ws r') (acc ++ [v])
              else None
          | [] => None
          end
      | None => None
      end
  end.

Definition loads (s : pystr) : option obj :=
  match parse_value (S (List.length s)) (skip_ws s) with
  | Some (JObj o, r) =>
      match skip_ws r with
      | [] => Some o
      | _ :: _ => None
      end
  | _ => None
  end.

End Sample.



Module Worlds.

(** A world where nothing outside answers: the registry and the document
    server cannot be reached and no language model is there, while the file
    system and the clock work. *)
Definition offline : world := {|
  unicode := latin1_db;
  str_of_error := fun e =>
    match e with
    | ExpectedString _ => lit "expected string or bytes-like object"
    | NoAttribute _ a => lit "object has no attribute " ++ lit a
    | NotSized _ => lit "object has no len()"
    | MissingKey k => lit k
    | GraphRecursion => lit "Recursion limit of 25 reached"
    end;
  py_repr := fun _ => lit "<repr>";
  update_non_dict := fun d _ => (d, Some (lit "cannot convert to dict"));
  registry_get := fun _ => Raise (lit "Connection refused");
  make_download_dir := Ok (lit "downloaded_files");
  doc_get := fun _ _ => Raise (lit "Connection refused");
  path_join := fun a b => a ++ lit "/" ++ b;
  write_bytes := fun _ _ => Ok tt;
  pdf_page_texts := fun _ => Raise (lit "EOF marker not found");
  llm_invoke := fun _ => Raise (lit "Connection error.");
  llm_model_name := lit "gpt-4o-mini";
  json_loads := fun sp => Ok (Sample.loads sp);
  now_isoformat := lit "2025-01-01T12:00:00";
  now_stamp := lit "20250101_120000";
  write_json := fun _ _ => Ok tt;
  elapsed := 1
|}.

(** The same world with other answers from the registry, the document
    server, the PDF reader or the language model. *)
Definition with_registry (f : pystr -> outcome api_response) (w : world)
  : world := {|
  unicode := unicode w; str_of_error := str_of_error w;
  py_repr := py_repr w; update_non_dict := update_non_dict w;
  registry_get := f;
  make_download_dir := make_download_dir w; doc_get := doc_get w;
  path_join := path_join w; write_bytes := write_bytes w;
  pdf_page_texts := pdf_page_texts w; llm_invoke := llm_invoke w;
  llm_model_name := llm_model_name w; json_loads := json_loads w;
  now_isoformat := now_isoformat w; now_stamp := now_stamp w;
  write_json := write_json w; elapsed := elapsed w
|}.

Definition with_documents (f : nat -> pystr -> outcome doc_response)
    (g : list N -> outcome (list pystr)) (w : world) : world := {|
  unicode := unicode w; str_of_error := str_of_error w;
  py_repr := py_repr w; update_non_dict := update_non_dict w;
  registry_get := registry_get w;
  make_download_dir := make_download_dir w; doc_get := f;
  path_join := path_join w; write_bytes := write_bytes w;
  pdf_page_texts := g; llm_invoke := llm_invoke w;
  llm_model_name := llm_model_name w; json_loads := json_loads w;
  now_isoformat := now_isoformat w; now_stamp := now_stamp w;
  write_json := write_json w; elapsed := elapsed w
|}.

Definition with_llm (f : prompt -> outcome (pystr * list obj)) (w : world)
  : world := {|
  unicode := unicode w; str_of_error := str_of_error w;
  py_repr := py_repr w; update_non_dict := update_non_dict w;
  registry_get := registry_get w;
  make_download_dir := make_download_dir w; doc_get := doc_get w;
  path_join := path_join w; write_bytes := write_bytes w;
  pdf_page_texts := pdf_page_texts w; llm_invoke := f;
  llm_model_name := llm_model_name w; json_loads := json_loads w;
  now_isoformat := now_isoformat w; now_stamp := now_stamp w;
  write_json := write_json w; elapsed := elapsed w
|}.

(** A language model that answers every prompt with the same text and
    reports its token usage. *)
Definition usage_record : obj :=
  [ (lit "model_name", JStr (lit "gpt-4o-mini"));
    (lit "input_tokens", JInt 900);
    (lit "output_tokens", JInt 120) ].

Definition answering (reply : pystr) : world :=
  with_llm (fun _ => Ok (reply, [usage_record])) offline.

(** The same, with a decoder that gives up on an integer of too many
    digits: [json.loads] raises a [ValueError] that is no decode error. *)
Definition overflowing (reply : pystr) : world :=
  let w := answering reply in {|
  unicode := unicode w; str_of_error := str_of_error w;
  py_repr := py_repr w; update_non_dict := update_non_dict w;
  registry_get := registry_get w;
  make_download_dir := make_download_dir w; doc_get := doc_get w;
  path_join := path_join w; write_bytes := write_bytes w;
  pdf_page_texts := pdf_page_texts w; llm_invoke := llm_invoke w;
  llm_model_name := llm_model_name w;
  json_loads := fun _ =>
    Raise (lit "Exceeds the limit (4300 digits) for integer string conversion");
  now_isoformat := now_isoformat w; now_stamp := now_stamp w;
  write_json := write_json w; elapsed := elapsed w
|}.

End Worlds.

(* ------------------------------------------------------------------ *)
(** * Runs of the model *)

Module Examples.
Import Worlds.

(** A state as [analyze_from_bdns] builds it for the code 845133. *)
Definition by_code : SubsidyState :=
  Graph.initial_state (JStr (lit "845133"))
    (JStr (lit "https://www.subvenciones.gob.es/bdnstrans/GE/es/convocatorias/845133"))
    [].

(** Three references: the first downloads as a PDF with text, the second
    answers 404, the third is a PDF whose pages give only blanks. *)
Definition three_refs : list pdf_ref :=
  [ {| url := lit "https://host/convocatoria/845133/document/1";
       name := JStr (lit "Bases.pdf"); id := JInt 1 |};
    {| url := lit "https://host/convocatoria/845133/document/2";
       name := JStr (lit "Anexo.pdf"); id := JInt 2 |};
    {| url := lit "https://host/convocatoria/845133/document/3";
       name := JStr (lit "Escaneado.pdf"); id := JInt 3 |} ].

Definition three_docs : world :=
  with_documents
    (fun i _ =>
       match i with
       | 0%nat => Ok {| doc_status := 200;
                        doc_content := Ok (lit "%PDF-1.4 bases") |}
       | 1%nat => Ok {| doc_status := 404;
                        doc_content := Ok (lit "<html>Not Found</html>") |}
       | _ => Ok {| doc_status := 200;
                    doc_content := Ok (lit "%PDF-1.4 scan") |}
       end)
    (fun content =>
       if PyStr.eqb content (lit "%PDF-1.4 bases")
       then Ok [lit "Bases reguladoras"; lit "Articulo 1"]
       else Ok [lit "  "])
    offline.

Definition with_three_refs : SubsidyState := set_pdf_urls three_refs by_code.

(** The same documents, and a download directory that cannot be written
    to. *)
Definition read_only_disk : world := {|
  unicode := unicode three_docs; str_of_error := str_of_error three_docs;
  py_repr := py_repr three_docs;
  update_non_dict := update_non_dict three_docs;
  registry_get := registry_get three_docs;
  make_download_dir := make_download_dir three_docs;
  doc_get := doc_get three_docs;
  path_join := path_join three_docs;
  write_bytes := fun _ _ => Raise (lit "[Errno 13] Permission denied");
  pdf_page_texts := pdf_page_texts three_docs;
  llm_invoke := llm_invoke three_docs;
  llm_model_name := llm_model_name three_docs;
  json_loads := json_loads three_docs;
  now_isoformat := now_isoformat three_docs;
  now_stamp := now_stamp three_docs;
  write_json := write_json three_docs; elapsed := elapsed three_docs
|}.


(** The descriptor of scenario B, and one whose id is the number zero. *)
Definition bases_doc : obj :=
  [ (lit "tipo", JStr (lit "PDF"));
    (lit "nombreFic", JStr (lit "Bases.pdf"));
    (lit "id", JStr (lit "7")) ].

Definition zero_id_doc : obj :=
  [ (lit "tipo", JStr (lit "PDF"));
    (lit "nombreFic", JStr (lit "Convocatoria.pdf"));
    (lit "id", JInt 0) ].

Definition with_documents_list (docs : list json) : SubsidyState :=
  set_subsidy_data [(lit "documentos", JArr docs)] by_code.

(** Replies of the language model.  JSON text is put together from
    quoted strings, fields and braces. *)
Definition quoted (t : string) : pystr := c_dquote :: lit t ++ [c_dquote].

Definition field (k : string) (v : pystr) : pystr :=
  quoted k ++ lit ": " ++ v.

Fixpoint commas (l : list pystr) : pystr :=
  match l with
  | [] => []
  | [x] => x
  | x :: rest => x ++ lit ", " ++ commas rest
  end.

Definition braces (l : list pystr) : pystr :=
  lit "{" ++ commas l ++ lit "}".

Definition full_result_json : pystr :=
  braces
    [ field "identificacion"
        (braces [ field "organismo_emisor" (quoted "Ministerio de Industria");
                  field "titulo_convocatoria" (quoted "Ayudas 2024");
                  field "base_reguladora" (quoted "Orden ICT/1/2024") ]);
      field "detalles"
        (braces [ field "beneficiarios" (lit "[" ++ quoted "PYMES" ++ lit "]");
                  field "finalidad_ayuda" (quoted "Digitalizacion") ]);
      field "condiciones_economicas"
        (braces [ field "presupuesto_total" (quoted "1000000 EUR");
                  field "distribucion_territorial" (lit "{}");
                  field "cuantia_por_solicitud" (quoted "10000 EUR") ]);
      field "plazos_procedimiento"
        (braces [ field "plazo_presentacion"
                    (quoted "Del 01/01/2024 al 31/01/2024");
                  field "plazo_resolucion" (quoted "Tres meses");
                  field "medio_presentacion" (quoted "Electronica");
                  field "enlace_tramite" (lit "null") ]) ].

(** What the full result decodes to. *)
Definition full_result_obj : obj :=
  Eval vm_compute in
    match Sample.loads full_result_json with
    | Some o => o
    | None => []
    end.

(** The reply of scenario D: a full result between two pieces of prose. *)
Definition full_reply : pystr :=
  lit "here is the result: " ++ full_result_json ++ lit " thanks".

(** A reply whose JSON lacks most of the result. *)
Definition partial_reply : pystr :=
  lit "Result: "
  ++ braces [ field "identificacion"
                (braces [ field "organismo_emisor" (quoted "Ministerio") ]) ].

(** A reply with braces around text that is not JSON. *)
Definition unquoted_reply : pystr :=
  lit "Result: {organismo: Ministerio de Industria}".

(** The reply of scenario E: no brace at all. *)
Definition plain_reply : pystr := lit "I cannot answer that.".

(** A registry that answers every request with 503. *)
Definition registry_down : world :=
  with_registry
    (fun _ => Ok {| api_status := 503;
                    api_json := Raise (lit "Expecting value") |})
    offline.

(** A registry that answers every request with a record holding the
    descriptor of scenario B. *)
Definition registry_record : obj :=
  [ (lit "descripcion", JStr (lit "Ayudas 2024"));
    (lit "documentos", JArr [JObj bases_doc]) ].

Definition registry_up : world :=
  with_registry
    (fun _ => Ok {| api_status := 200;
                    api_json := Ok (JObj registry_record) |})
    offline.

End Examples.

(* ------------------------------------------------------------------ *)
(** * What the specification says, in the terms of the model *)

(** [l1] is [l2] with some elements left out, the others in place. *)
Inductive sublist {A : Type} : list A -> list A -> Prop :=
| sublist_nil : sublist [] []
| sublist_skip x l1 l2 : sublist l1 l2 -> sublist l1 (x :: l2)
| sublist_keep x l1 l2 : sublist l1 l2 -> sublist (x :: l1) (x :: l2).

(** [sp] is the part of [text] from its first opening brace to its last
    closing brace, the latter after the former. *)
Definition greedy_span (text sp : pystr) : Prop :=
  exists pre mid post,
    text = pre ++ c_lbrace :: mid ++ c_rbrace :: post
    /\ ~ In c_lbrace pre
    /\ ~ In c_rbrace post
    /\ sp = c_lbrace :: mid ++ [c_rbrace].

Module Spec.
Section WithWorld.
Variable w : world.

(** The last segment of a URL: what follows its last slash; none when
    the URL has no slash. *)
Fixpoint last_segment (u : pystr) : option pystr :=
  match u with
  | [] => None
  | c :: u' =>
      match last_segment u' with
      | Some seg => Some seg
      | None => if N.eqb c c_slash then Some u' else None
      end
  end.

(** A segment is numeric when it is not empty and holds digits only. *)
Definition numeric (seg : pystr) : bool :=
  match seg with
  | [] => false
  | _ :: _ => forallb (is_digit (unicode w)) seg
  end.

(** The trailing numeric segment of a URL, as the claim words it: the
    last segment, when it is numeric. *)
Definition numeric_tail (u : pystr) : option pystr :=
  match last_segment u with
  | Some seg => if numeric seg then Some seg else None
  | None => None
  end.

(** A text without its final line feed, when it ends in one. *)
Definition drop_final_newline (u : pystr) : pystr :=
  match rev u with
  | c :: r => if N.eqb c c_newline then rev r else u
  | [] => u
  end.

(** The trailing numeric segment of a source, one final line feed apart:
    that of the URL without its final line feed; none for a source that is
    not a string. *)
Definition trailing_segment (source : json) : option pystr :=
  match source with
  | JStr u => numeric_tail (drop_final_newline u)
  | _ => None
  end.

(** The first source, in the order (a) explicit identifier, (b) segment
    found in the URL, (c) code field of the data bag under one of its two
    names, that gives a non-empty value. *)
Definition first_source (segment : json -> option pystr)
    (s : SubsidyState) : option json :=
  if truthy (bdns_code s) then Some (bdns_code s)
  else match segment (source_url s) with
       | Some d => Some (JStr d)
       | None =>
           if truthy (dict_get (subsidy_data s) (lit "codigo_bdns"))
           then Some (dict_get (subsidy_data s) (lit "codigo_bdns"))
           else if truthy (dict_get (subsidy_data s) (lit "bdns_code"))
           then Some (dict_get (subsidy_data s) (lit "bdns_code"))
           else None
       end.

(** The identifier as the claim has it, with the trailing numeric segment
    of the URL as it stands. *)
Definition claimed_identifier (s : SubsidyState) : option json :=
  first_source
    (fun source =>
       match source with
       | JStr u => numeric_tail u
       | _ => None
       end) s.

(** The identifier the resolver is to find, with the trailing numeric
    segment taken one final line feed apart. *)
Definition resolved_identifier (s : SubsidyState) : option json :=
  first_source trailing_segment s.


(** The declared type of a document descriptor is the token PDF. *)
Definition type_is_pdf (doc : obj) : bool :=
  eq_str (Nodes.doc_type_of doc) (lit "PDF").

(** Its display name contains "pdf", whatever the case of the letters. *)
Definition name_contains_pdf (doc : obj) : bool :=
  match Nodes.doc_name_of doc with
  | JStr n => contains (lower (unicode w) n) (lit "pdf")
  | _ => false
  end.

(** A PDF candidate as the claim words it: PDF by type or by name, and an
    id field that is present. *)
Definition claimed_candidate (doc : obj) : bool :=
  (type_is_pdf doc || name_contains_pdf doc) && dict_mem doc (lit "id").

(** A PDF candidate as the locator takes it: PDF by type or by name, and an
    id that counts as true (not [None], [False], zero or empty). *)
Definition pdf_candidate (doc : obj) : bool :=
  (type_is_pdf doc || name_contains_pdf doc)
  && truthy (dict_get doc (lit "id")).

(** A descriptor is a dict, and its display name is a string at least
    when its type does not already say PDF. *)
Definition well_formed_doc (j : json) : bool :=
  match j with
  | JObj doc =>
      type_is_pdf doc
      || match Nodes.doc_name_of doc with
         | JStr _ => true
         | _ => false
         end
  | _ => false
  end.

Definition as_objects (docs : list json) : list obj :=
  flat_map (fun j => match j with JObj o => [o] | _ => [] end) docs.

(** The references of [pdf_urls] with their positions. *)
Definition indexed_from {A} (i : nat) (l : list A) : list (nat * A) :=
  combine (seq i (List.length l)) l.

Definition opt_list {A} (o : option A) : list A :=
  match o with
  | Some a => [a]
  | None => []
  end.

(** The three conditions under which a reference is to contribute a
    text: the download answered 200, *)
Definition status_ok (i : nat) (r : pdf_ref) : bool :=
  match doc_get w i (url r) with
  | Ok resp => Z.eqb (doc_status resp) 200
  | Raise _ => false
  end.

(** its bytes begin with the PDF signature, *)
Definition signature_ok (i : nat) (r : pdf_ref) : bool :=
  match doc_get w i (url r) with
  | Ok resp =>
      match doc_content resp with
      | Ok content => startswith content (lit "%PDF")
      | Raise _ => false
      end
  | Raise _ => false
  end.

(** and the text extracted from them is not empty after trimming.  The
    text is what the PDF reader gives for the downloaded bytes, page after
    page; there is none when the reader fails. *)
Definition extracted_text (i : nat) (r : pdf_ref) : option pystr :=
  match doc_get w i (url r) with
  | Ok resp =>
      match doc_content resp with
      | Ok content =>
          match pdf_page_texts w content with
          | Ok pages => Some (Nodes.join_pages pages)
          | Raise _ => None
          end
      | Raise _ => None
      end
  | Raise _ => None
  end.

Definition text_ok (i : nat) (r : pdf_ref) : bool :=
  match extracted_text i r with
  | Some t => match strip (unicode w) t with [] => false | _ => true end
  | None => false
  end.

(** The condition the claim leaves out: the bytes were saved, to the file
    in the download directory that is named after the identifier and the
    display name of the reference, which has to be a string for that. *)
Definition saved (download_dir : pystr) (code : json) (i : nat)
    (r : pdf_ref) : bool :=
  match doc_get w i (url r), name r with
  | Ok resp, JStr n =>
      match doc_content resp with
      | Ok content =>
          let file := py_format w code ++ lit "_"
                      ++ Utils.clean_filename (unicode w) n ++ lit ".pdf" in
          match write_bytes w (path_join w download_dir file) content with
          | Ok _ => true
          | Raise _ => false
          end
      | Raise _ => false
      end
  | _, _ => false
  end.

End WithWorld.
End Spec.

Import Graph.

(** The state after the six stages. *)
Definition pipeline (w : world) (s : SubsidyState) : SubsidyState :=
  Nodes.save_results_node w
    (Nodes.analyze_subsidy_node w
       (Nodes.download_pdfs_node w
          (Nodes.find_pdf_urls_node w
             (Nodes.fetch_subsidy_info_node w
                (Nodes.extract_bdns_node w s))))).

(** The name of the example: "Orden Ministerial (2024) — Bases!", with the
    em dash U+2014. *)
Definition sanitizer_input : pystr :=
  lit "Orden Ministerial (2024) " ++ [8212%N] ++ lit " Bases!".

(** Does [s] start, or end, with a character that is no separator, or is
    it empty? *)
Definition starts_free (U : unicode_db) (s : pystr) : bool :=
  match s with
  | [] => true
  | c :: _ => negb (Utils.is_sep U c)
  end.

Definition ends_free (U : unicode_db) (s : pystr) : bool :=
  starts_free U (rev s).

(** The message and the payload of a reply without usable JSON. *)
Definition no_json_error : pystr :=
  lit "Could not extract valid JSON from LLM response".

Definition raw_response_of (text : pystr) : obj :=
  [(lit "raw_response", JStr text)].

(** What the loop body gives for a reference and its position. *)
Definition reference_outcome (w : world) (download_dir : pystr) (code : json)
    (ir : nat * pdf_ref) : option pdf_text * list Nodes.log_record :=
  Nodes.download_one w download_dir code (fst ir) (snd ir).

(* ------------------------------------------------------------------ *)
(** * utils.py: the helpers the nodes do not call *)

Module Helpers.

(** A [Dict[str, str]], in insertion order. *)
Definition str_dict := list (pystr * pystr).

(** [d.get(k, default)] on a [Dict[str, str]]. *)
Fixpoint get_default (d : str_dict) (k default : pystr) : pystr :=
  match d with
  | [] => default
  | (k', v) :: d' => if PyStr.eqb k' k then v else get_default d' k default
  end.

(** [validate_subsidy_data]: one of the three fields is a key of the
    data. *)
Definition required_fields : list pystr :=
  [lit "codigo_bdns"; lit "bdns_code"; lit "source_url"].

Definition validate_subsidy_data (data : obj) : bool :=
  existsb (dict_mem data) required_fields.

(** ["\n".join(lines)]. *)
Fixpoint join_lines (l : list pystr) : pystr :=
  match l with
  | [] => []
  | [x] => x
  | x :: rest => x ++ c_newline :: join_lines rest
  end.

(** The two texts of [format_territorial_distribution]; the accented o
    is U+00F3. *)
Definition no_distribution : pystr :=
  lit "No hay distribuci" ++ [243%N] ++ lit "n territorial especificada".

Definition distribution_header : pystr :=
  lit "Distribuci" ++ [243%N] ++ lit "n territorial:".

(** [f"  - {territory}: {amount}"]. *)
Definition distribution_line (kv : pystr * pystr) : pystr :=
  lit "  - " ++ fst kv ++ lit ": " ++ snd kv.

(** [format_territorial_distribution]; [None] and the empty dict both
    fail [if not distribution]. *)
Definition format_territorial_distribution (distribution : option str_dict)
  : pystr :=
  match distribution with
  | None | Some [] => no_distribution
  | Some (kv :: rest) =>
      join_lines (distribution_header :: map distribution_line (kv :: rest))
  end.

(** [text[:n]] for an [int] n: a negative n counts from the end. *)
Definition slice_to (text : pystr) (n : Z) : pystr :=
  if (0 <=? n)%Z then firstn (Z.to_nat n) text
  else firstn (List.length text - Z.to_nat (- n)) text.

(** [text[:max_chars] + "..." if len(text) > max_chars else text]. *)
Definition preview (text : pystr) (max_chars : Z) : pystr :=
  if (max_chars <? Z.of_nat (List.length text))%Z
  then slice_to text max_chars ++ lit "..."
  else text.

(** [f"[{filename}]: {preview}"] for one entry of [pdf_texts]. *)
Definition summary_part (max_chars : Z) (pdf : str_dict) : pystr :=
  lit "[" ++ get_default pdf (lit "filename") (lit "Unknown") ++ lit "]: "
  ++ preview (get_default pdf (lit "text") []) max_chars.

(** [f"... and {len(pdf_texts) - 3} more PDFs"]. *)
Definition more_line (n : nat) : pystr :=
  lit "... and " ++ str_of_Z (Z.of_nat n - 3) ++ lit " more PDFs".

Definition summary_parts (pdf_texts : list str_dict) (max_chars : Z)
  : list pystr :=
  map (summary_part max_chars) (firstn 3 pdf_texts)
  ++ (if (3 <? List.length pdf_texts)%nat
      then [more_line (List.length pdf_texts)] else []).

(** [summarize_pdf_content(pdf_texts, max_chars)]. *)
Definition summarize_pdf_content_n (pdf_texts : list str_dict)
    (max_chars : Z) : pystr :=
  match pdf_texts with
  | [] => lit "No PDF content available"
  | _ :: _ => Nodes.join_sections (summary_parts pdf_texts max_chars)
  end.

(** With the default [max_chars=1000]. *)
Definition summarize_pdf_content (pdf_texts : list str_dict) : pystr :=
  summarize_pdf_content_n pdf_texts 1000.

(** Equality of two values that can be keys of a dict: numbers and
    booleans by their value, strings by their characters, [None] with
    itself. *)
Definition number_of (v : json) : option Q :=
  match v with
  | JBool true => Some 1%Q
  | JBool false => Some 0%Q
  | JInt z => Some (inject_Z z)
  | JFloat q => Some q
  | _ => None
  end.

Definition key_eq (a b : json) : bool :=
  match number_of a, number_of b with
  | Some x, Some y => Qeq_bool x y
  | _, _ =>
      match a, b with
      | JNull, JNull => true
      | JStr s, JStr t => PyStr.eqb s t
      | _, _ => false
      end
  end.

Definition hashable (v : json) : bool :=
  match v with
  | JArr _ | JObj _ => false
  | _ => true
  end.

(** [list(dict.fromkeys(combined))]: the first occurrence of every value,
    in order; [None] stands for the [TypeError] of a list or dict among
    them. *)
Fixpoint fromkeys (seen combined : list json) : option (list json) :=
  match combined with
  | [] => Some seen
  | x :: rest =>
      if hashable x
      then if existsb (key_eq x) seen
           then fromkeys seen rest
           else fromkeys (seen ++ [x]) rest
      else None
  end.

(** The loop of [merge_analysis_results] over the items of [secondary];
    [merged] starts as a copy of [primary]. *)
Fixpoint merge_items (secondary : json) (merged : obj) {struct secondary}
  : option obj :=
  match secondary with
  | JObj items =>
      (fix loop (items : list (pystr * json)) (merged : obj)
           {struct items} : option obj :=
         match items with
         | [] => Some merged
         | (key, value) :: rest =>
             match dict_find merged key with
             | None | Some JNull => loop rest (dict_set merged key value)
             | Some current =>
                 if eq_str current (lit "No especificado")
                 then loop rest (dict_set merged key value)
                 else
                   match value, current with
                   | JObj _, JObj inner =>
                       match merge_items value inner with
                       | Some r => loop rest (dict_set merged key (JObj r))
                       | None => None
                       end
                   | JArr l, JArr m =>
                       match fromkeys [] (m ++ l) with
                       | Some r => loop rest (dict_set merged key (JArr r))
                       | None => None
                       end
                   | _, _ => loop rest merged
                   end
             end
         end) items merged
  | _ => Some merged
  end.

(** [merge_analysis_results(primary, secondary)]. *)
Definition merge_analysis_results (primary secondary : obj) : option obj :=
  merge_items (JObj secondary) primary.

End Helpers.

(* ------------------------------------------------------------------ *)
(** * schemas.py: a result as a plain mapping *)

Module Dump.

Definition dump_identification (r : SubsidyIdentification) : obj :=
  [ (lit "organismo_emisor", JStr (organismo_emisor r));
    (lit "titulo_convocatoria", JStr (titulo_convocatoria r));
    (lit "base_reguladora", JStr (base_reguladora r)) ].

Definition dump_details (r : SubsidyDetails) : obj :=
  [ (lit "beneficiarios", JArr (map JStr (beneficiarios r)));
    (lit "finalidad_ayuda", JStr (finalidad_ayuda r)) ].

Definition dump_str_dict (d : list (pystr * pystr)) : obj :=
  map (fun kv => (fst kv, JStr (snd kv))) d.

Definition dump_economic (r : EconomicConditions) : obj :=
  [ (lit "presupuesto_total", JStr (presupuesto_total r));
    (lit "distribucion_territorial",
     match distribucion_territorial r with
     | Some d => JObj (dump_str_dict d)
     | None => JNull
     end);
    (lit "cuantia_por_solicitud", JStr (cuantia_por_solicitud r)) ].

Definition dump_deadlines (r : DeadlinesAndProcedure) : obj :=
  [ (lit "plazo_presentacion", JStr (plazo_presentacion r));
    (lit "plazo_resolucion", JStr (plazo_resolucion r));
    (lit "medio_presentacion", JStr (medio_presentacion r));
    (lit "enlace_tramite",
     match enlace_tramite r with
     | Some u => JStr u
     | None => JNull
     end) ].

(** [analysis_result.model_dump()]: every field, in the order of the
    class, nested models as dicts. *)
Definition model_dump (r : SubsidyAnalysisResult) : obj :=
  [ (lit "identificacion", JObj (dump_identification (identificacion r)));
    (lit "detalles", JObj (dump_details (detalles r)));
    (lit "condiciones_economicas",
     JObj (dump_economic (condiciones_economicas r)));
    (lit "plazos_procedimiento",
     JObj (dump_deadlines (plazos_procedimiento r)));
    (lit "metadata", JObj (metadata r)) ].

End Dump.

(* ------------------------------------------------------------------ *)
(** * llms.py: the choice of a provider *)

Module Llms.

Inductive provider := OpenRouter | OpenAI | Gemini | HuggingFace | DeepSeek.

(** The tables of [LanguageModel].  In the first, two adjacent string
    literals have no comma between them and so make one name. *)
Definition openrouter_language_models : list pystr :=
  [ lit "mistral/ministral-8b";
    lit "meta-llama/llama-3.3-70b-instruct";
    lit "qwen/qwen-2.5-72b-instruct";
    lit "deepseek/deepseek-chat-v3-0324:free";
    lit "google/gemini-2.0-flash-001" ++ lit "anthropic/claude-3-haiku";
    lit "mistralai/mistral-medium" ].

Definition deepseek_language_models : list pystr :=
  [ lit "deepseek-chat" ].

Definition openai_language_models : list pystr :=
  [ lit "gpt-4o-mini"; lit "gpt-4o" ].

Definition gemini_language_models : list pystr :=
  [ lit "gemini-1.5-flash"; lit "gemini-1.5-pro";
    lit "gemini-1.5-flash-8b"; lit "gemini-2.0-flash-lite" ].

Definition huggingface_language_models : list pystr :=
  [ lit "deepseek-ai/DeepSeek-R1";
    lit "meta-llama/Llama-3.1-8B-Instruct";
    lit "deepseek-ai/DeepSeek-R1-0528-Qwen3-8B";
    lit "mistralai/Mixtral-8x7B-Instruct-v0.1";
    lit "Qwen/QwQ-32B";
    lit "nvidia/Llama-3.1-Nemotron-70B-Instruct-HF";
    lit "deepseek-ai/DeepSeek-R1-Distill-Qwen-32B" ].

(** [model_name in table]. *)
Definition listed (table : list pystr) (model_name : pystr) : bool :=
  existsb (PyStr.eqb model_name) table.

(** [LanguageModel.__init__]: the client built for a name, by the chain
    of [if ... elif ...]; [None] stands for the [ValueError] of a name in
    no table. *)
Definition provider_of (model_name : pystr) : option provider :=
  if listed openrouter_language_models model_name then Some OpenRouter
  else if listed openai_language_models model_name then Some OpenAI
  else if listed gemini_language_models model_name then Some Gemini
  else if listed huggingface_language_models model_name
  then Some HuggingFace
  else if listed deepseek_language_models model_name then Some DeepSeek
  else None.

(** [SimpleLLM.__init__]: the name it keeps, and the name it hands to the
    client. *)
Definition simple_reported_name (model_name : pystr) : pystr := model_name.

Definition simple_client_name (model_name : pystr) : pystr :=
  if listed [lit "gpt-4o-mini"; lit "gpt-4o"] model_name
  then model_name else lit "gpt-4o-mini".

End Llms.

(* ------------------------------------------------------------------ *)
(** * Notions used by the statements on the stages and the helpers *)

(** The file a reference is saved to, when it is saved at all. *)
Definition saved_path (w : world) (download_dir : pystr) (code : json)
    (doc_name : pystr) : pystr :=
  path_join w download_dir
    (py_format w code ++ lit "_"
     ++ Utils.clean_filename (unicode w) doc_name ++ lit ".pdf").

(** Each stage appends at most one line to [logs] and removes none. *)
Definition appends_at_most_one (f : SubsidyState -> SubsidyState) : Prop :=
  forall s, exists l,
    logs (f s) = logs s ++ l /\ (List.length l <= 1)%nat.

(** [error], once it holds a message, or no message at all, keeps doing
    so: no stage stores an empty message. *)
Definition error_sound (e : option pystr) : Prop :=
  e = None \/ error_set e = true.

(** The names of the five fields of [SubsidyAnalysisResult]. *)
Definition result_fields : list pystr :=
  [ lit "identificacion"; lit "detalles"; lit "condiciones_economicas";
    lit "plazos_procedimiento"; lit "metadata" ].

(** A value of the primary that a merge leaves alone: not [None], not
    the placeholder, not a dict and not a list. *)
Definition settled (v : json) : bool :=
  match v with
  | JNull | JArr _ | JObj _ => false
  | _ => negb (eq_str v (lit "No especificado"))
  end.

(** A value that is neither a dict nor a list. *)
Definition flat (v : json) : bool :=
  match v with
  | JArr _ | JObj _ => false
  | _ => true
  end.

(** The table that stands for a provider. *)
Definition table_of (p : Llms.provider) : list pystr :=
  match p with
  | Llms.OpenRouter => Llms.openrouter_language_models
  | Llms.OpenAI => Llms.openai_language_models
  | Llms.Gemini => Llms.gemini_language_models
  | Llms.HuggingFace => Llms.huggingface_language_models
  | Llms.DeepSeek => Llms.deepseek_language_models
  end.

(* ------------------------------------------------------------------ *)
(** * Proof tools *)

Ltac break_match :=
  match goal with
  | |- context [match ?x with _ => _ end] =>
      lazymatch x with
      | context [match _ with _ => _ end] => fail
      | _ => destruct x eqn:?; cbv beta iota zeta
      end
  end.

Ltac no_entry :=
  split; [intros H; exfalso; apply H; reflexivity | discriminate].

Lemma pystr_eqb_spec (a b : pystr) : PyStr.eqb a b = true <-> a = b.
Proof.
  revert b; induction a as [|x a IH]; intros [|y b]; simpl;
    try (split; [discriminate | discriminate]); try tauto.
  rewrite andb_true_iff, N.eqb_eq, IH.
  split; [intros [-> ->]; reflexivity | intros H; inversion H; auto].
Qed.

Lemma pystr_eqb_refl (a : pystr) : PyStr.eqb a a = true.
Proof. apply pystr_eqb_spec; reflexivity. Qed.

(** What the extraction of the JSON leaves in the state when it returns:
    a structured result, the decoded JSON, or the reply with an error. *)
Lemma store_analysis_ok (w : world) (t : pystr) (s s1 : SubsidyState) :
  Nodes.store_analysis w t s = Ok s1 ->
  (exists r, s1 = set_analysis_result (Some r) s)
  \/ (exists j, s1 = set_raw_analysis (Some j) s)
  \/ s1 = set_raw_analysis (Some (raw_response_of t))
            (set_error no_json_error s).
Proof.
  unfold Nodes.store_analysis.
  destruct (Utils.extract_json_from_text (json_loads w) t)
    as [[[|kv rest]|]|m]; try discriminate.
  - intros H. injection H as <-. right. right. reflexivity.
  - destruct (validate_result (kv :: rest)) as [r|];
      intros H; injection H as <-.
    + left. exists r. reflexivity.
    + right. left. eexists. reflexivity.
  - intros H. injection H as <-. right. right. reflexivity.
Qed.


(* ------------------------------------------------------------------ *)
(** * The pipeline driver runs every stage once, in order *)


Section Pipeline.
Variable St : Type.
Variables f1 f2 f3 f4 f5 f6 : St -> St.

(** Whatever the six node functions do to the state, the compiled workflow
    calls each of them once, in the order of the edges. *)
Lemma invoke_trace_build_workflow_of (s : St) :
  invoke_trace (build_workflow_of f1 f2 f3 f4 f5 f6) s
  = Some (f6 (f5 (f4 (f3 (f2 (f1 s))))), stage_names).
Proof. vm_compute. reflexivity. Qed.

End Pipeline.

Lemma invoke_trace_build_workflow (w : world) (s : SubsidyState) :
  invoke_trace (build_workflow w) s = Some (pipeline w s, stage_names).
Proof.
  exact (invoke_trace_build_workflow_of
           (Nodes.extract_bdns_node w) (Nodes.fetch_subsidy_info_node w)
           (Nodes.find_pdf_urls_node w) (Nodes.download_pdfs_node w)
           (Nodes.analyze_subsidy_node w) (Nodes.save_results_node w) s).
Qed.

(** C1. For every world and every state handed to the workflow, also one
    whose [error] is already set, the run ends within the step limit, the
    nodes that ran are the six stages, each once and in the fixed order, and
    the final state is the one the six node functions produce in turn. *)
Theorem C1_every_stage_runs_once_in_order (w : world) (s : SubsidyState) :
  invoke_trace (build_workflow w) s = Some (pipeline w s, stage_names)
  /\ NoDup stage_names
  /\ List.length stage_names = 6%nat
  /\ forall msg,
       invoke_trace (build_workflow w) (set_error msg s)
       = Some (pipeline w (set_error msg s), stage_names).
Proof.
  split; [apply invoke_trace_build_workflow|].
  split.
  - unfold stage_names.
    repeat (constructor; [simpl; intuition discriminate|]).
    constructor.
  - split; [reflexivity|].
    intros msg; apply invoke_trace_build_workflow.
Qed.

(* ------------------------------------------------------------------ *)
(** * Identifier resolution *)

Section Resolver.
Variable U : unicode_db.

Lemma take_digits_keeps_slash (a d : pystr) :
  exists x,
    snd (Utils.take_digits U (a ++ c_slash :: d)) = x ++ c_slash :: d.
Proof.
  induction a as [|c a IH]; simpl.
  - exists []. reflexivity.
  - destruct (is_digit U c).
    + destruct IH as [x Hx].
      destruct (Utils.take_digits U (a ++ c_slash :: d)) as [ds r].
      simpl in *. exists x. exact Hx.
    + exists (c :: a). reflexivity.
Qed.

Lemma take_digits_all (d : pystr) :
  forallb (is_digit U) d = true -> Utils.take_digits U d = (d, []).
Proof.
  induction d as [|c d IH]; simpl; [reflexivity|].
  intros H. apply andb_true_iff in H as [Hc Hd].
  rewrite Hc, (IH Hd). reflexivity.
Qed.

Lemma at_end_after_slash (x d : pystr) :
  d <> [] -> Utils.at_end (x ++ c_slash :: d) = false.
Proof.
  intros Hd. destruct d as [|e d]; [contradiction|].
  destruct x as [|a [|b x]]; simpl; try reflexivity.
Qed.

(** A URL that ends in a slash and a run of digits yields those digits,
    whatever precedes the slash. *)
Lemma extract_bdns_trailing_segment (p d : pystr) :
  d <> [] -> forallb (is_digit U) d = true ->
  Utils.extract_bdns_from_url U (p ++ c_slash :: d) = Some d.
Proof.
  intros Hd Hall.
  induction p as [|c p IH].
  - simpl. rewrite (take_digits_all _ Hall).
    destruct d; [contradiction|reflexivity].
  - change ((c :: p) ++ c_slash :: d) with (c :: (p ++ c_slash :: d)).
    cbn [Utils.extract_bdns_from_url].
    replace (Utils.match_bdns_here U (c :: p ++ c_slash :: d))
      with (@None pystr); [exact IH|].
    unfold Utils.match_bdns_here.
    destruct (N.eqb c c_slash); [|reflexivity].
    destruct (take_digits_keeps_slash p d) as [x Hx].
    destruct (Utils.take_digits U (p ++ c_slash :: d)) as [ds r].
    simpl in Hx. subst r.
    destruct ds; [reflexivity|].
    rewrite (at_end_after_slash x Hd). reflexivity.
Qed.

Lemma match_bdns_here_nonempty (u : pystr) :
  Utils.match_bdns_here U u <> Some [].
Proof.
  unfold Utils.match_bdns_here.
  destruct u as [|c u]; [discriminate|].
  destruct (N.eqb c c_slash); [|discriminate].
  destruct (Utils.take_digits U u) as [ds r].
  destruct ds; [discriminate|].
  destruct (Utils.at_end r); discriminate.
Qed.

(** The captured group is never empty. *)
Lemma extract_bdns_nonempty (u : pystr) :
  Utils.extract_bdns_from_url U u <> Some [].
Proof.
  induction u as [|c u IH].
  - simpl. discriminate.
  - cbn [Utils.extract_bdns_from_url].
    destruct (Utils.match_bdns_here U (c :: u)) as [d|] eqn:Hm.
    + intros H. rewrite H in Hm. exact (match_bdns_here_nonempty _ Hm).
    + exact IH.
Qed.

End Resolver.

Section UrlCode.
Variable U : unicode_db.

Lemma take_digits_split (s : pystr) :
  s = fst (Utils.take_digits U s) ++ snd (Utils.take_digits U s)
  /\ forallb (is_digit U) (fst (Utils.take_digits U s)) = true.
Proof.
  induction s as [|c s IH]; [split; reflexivity|].
  cbn [Utils.take_digits].
  destruct (is_digit U c) eqn:Hc.
  - destruct (Utils.take_digits U s) as [ds r]. cbn [fst snd] in *.
    destruct IH as [IH1 IH2]. split.
    + cbn [app]. rewrite <- IH1. reflexivity.
    + cbn [forallb]. rewrite Hc, IH2. reflexivity.
  - split; reflexivity.
Qed.

Lemma at_end_cases (r : pystr) :
  Utils.at_end r = true <-> r = [] \/ r = [c_newline].
Proof.
  unfold Utils.at_end. destruct r as [|c [|c' r]].
  - split; auto.
  - split.
    + intros H. apply N.eqb_eq in H. subst c. auto.
    + intros [H|H]; [discriminate|]. injection H as ->. reflexivity.
  - split; [discriminate|]. intros [H|H]; discriminate.
Qed.

Lemma match_bdns_here_inv (s d : pystr) :
  Utils.match_bdns_here U s = Some d ->
  d <> [] /\ forallb (is_digit U) d = true
  /\ exists r, s = c_slash :: d ++ r /\ Utils.at_end r = true.
Proof.
  unfold Utils.match_bdns_here. destruct s as [|c s]; [discriminate|].
  destruct (N.eqb_spec c c_slash) as [->|]; [|discriminate].
  destruct (take_digits_split s) as [Hsplit Hdig].
  destruct (Utils.take_digits U s) as [ds r]. cbn [fst snd] in *.
  destruct ds as [|x ds]; [discriminate|].
  destruct (Utils.at_end r) eqn:Hr; [|discriminate].
  intros H. injection H as <-.
  split; [discriminate|]. split; [exact Hdig|].
  exists r. split; [rewrite Hsplit; reflexivity|exact Hr].
Qed.

Lemma extract_bdns_inv (url d : pystr) :
  Utils.extract_bdns_from_url U url = Some d ->
  d <> [] /\ forallb (is_digit U) d = true
  /\ exists p r, url = p ++ c_slash :: d ++ r /\ Utils.at_end r = true.
Proof.
  induction url as [|c url IH]; [discriminate|].
  cbn [Utils.extract_bdns_from_url].
  destruct (Utils.match_bdns_here U (c :: url)) as [d'|] eqn:Hm.
  - intros H. injection H as ->.
    destruct (match_bdns_here_inv _ Hm) as (Hd & Hdig & r & Hs & Hr).
    split; [exact Hd|]. split; [exact Hdig|].
    exists [], r. split; [exact Hs|exact Hr].
  - intros H. destruct (IH H) as (Hd & Hdig & p & r & -> & Hr).
    split; [exact Hd|]. split; [exact Hdig|].
    exists (c :: p), r. split; [reflexivity|exact Hr].
Qed.

Lemma take_digits_stop (d r : pystr) :
  forallb (is_digit U) d = true ->
  match r with [] => True | c :: _ => is_digit U c = false end ->
  Utils.take_digits U (d ++ r) = (d, r).
Proof.
  intros Hd Hr. induction d as [|c d IH].
  - destruct r as [|c r]; [reflexivity|]. cbn. rewrite Hr. reflexivity.
  - cbn [forallb] in Hd. apply andb_true_iff in Hd as [Hc Hd].
    cbn [app Utils.take_digits]. rewrite Hc, (IH Hd). reflexivity.
Qed.

Lemma extract_bdns_tail (p d r : pystr) :
  d <> [] -> forallb (is_digit U) d = true -> Utils.at_end r = true ->
  Utils.extract_bdns_from_url U (p ++ c_slash :: d ++ r) = Some d.
Proof.
  intros Hd Hall Hr.
  assert (Hstop : match r with [] => True | c :: _ => is_digit U c = false end).
  { apply at_end_cases in Hr as [->| ->]; [exact I|reflexivity]. }
  induction p as [|c p IH].
  - cbn. rewrite (take_digits_stop _ _ Hall Hstop).
    destruct d; [contradiction|]. rewrite Hr. reflexivity.
  - change ((c :: p) ++ c_slash :: d ++ r)
      with (c :: (p ++ c_slash :: d ++ r)).
    cbn [Utils.extract_bdns_from_url].
    replace (Utils.match_bdns_here U (c :: p ++ c_slash :: d ++ r))
      with (@None pystr); [exact IH|].
    unfold Utils.match_bdns_here.
    destruct (N.eqb c c_slash); [|reflexivity].
    destruct (take_digits_keeps_slash U p (d ++ r)) as [x Hx].
    destruct (Utils.take_digits U (p ++ c_slash :: d ++ r)) as [ds t].
    cbn [snd] in Hx. subst t.
    destruct ds; [reflexivity|].
    rewrite at_end_after_slash; [reflexivity|].
    destruct d; [contradiction|discriminate].
Qed.

End UrlCode.

(** The segment of the specification and the regular expression of the
    code agree on every URL. *)
Section Segment.
Variable w : world.

Lemma last_segment_inv (u seg : pystr) :
  Spec.last_segment u = Some seg ->
  exists p, u = p ++ c_slash :: seg /\ ~ In c_slash seg.
Proof.
  revert seg. induction u as [|c u IH]; intros seg; [discriminate|].
  cbn [Spec.last_segment].
  destruct (Spec.last_segment u) as [seg'|] eqn:Hl.
  - intros H. injection H as <-.
    destruct (IH _ eq_refl) as (p & -> & Hn).
    exists (c :: p). split; [reflexivity|exact Hn].
  - destruct (N.eqb_spec c c_slash) as [->|]; [|discriminate].
    intros H. injection H as <-.
    exists []. split; [reflexivity|].
    clear IH. induction u as [|x u IHu]; [intros []|].
    cbn [Spec.last_segment] in Hl.
    destruct (Spec.last_segment u); [discriminate|].
    destruct (N.eqb_spec x c_slash) as [|Hx]; [discriminate|].
    intros [E|E]; [exact (Hx E)|exact (IHu eq_refl E)].
Qed.

Lemma last_segment_none (seg : pystr) :
  ~ In c_slash seg -> Spec.last_segment seg = None.
Proof.
  induction seg as [|x seg IH]; [reflexivity|].
  intros H. cbn [Spec.last_segment].
  rewrite IH by (intros E; apply H; right; exact E).
  destruct (N.eqb_spec x c_slash) as [E|]; [|reflexivity].
  exfalso. apply H. left. exact E.
Qed.

Lemma last_segment_app (p seg : pystr) :
  ~ In c_slash seg -> Spec.last_segment (p ++ c_slash :: seg) = Some seg.
Proof.
  intros H. induction p as [|c p IH].
  - cbn [app Spec.last_segment]. rewrite (last_segment_none _ H).
    rewrite N.eqb_refl. reflexivity.
  - cbn [app Spec.last_segment]. rewrite IH. reflexivity.
Qed.

Lemma digits_no_slash (d : pystr) :
  forallb (is_digit (unicode w)) d = true -> ~ In c_slash d.
Proof.
  intros H E. rewrite forallb_forall in H.
  specialize (H _ E). discriminate H.
Qed.

Lemma drop_final_newline_cases (u : pystr) :
  (Spec.drop_final_newline u = u
   /\ forall x, u <> x ++ [c_newline])
  \/ u = Spec.drop_final_newline u ++ [c_newline].
Proof.
  unfold Spec.drop_final_newline.
  destruct (rev u) as [|c r] eqn:Hr.
  - left. split; [reflexivity|]. intros x ->.
    rewrite rev_app_distr in Hr. discriminate Hr.
  - assert (Hu : u = rev r ++ [c]).
    { rewrite <- (rev_involutive u), Hr. reflexivity. }
    destruct (N.eqb_spec c c_newline) as [->|Hc].
    + right. exact Hu.
    + left. split; [reflexivity|]. intros x Hx.
      rewrite Hx in Hu. apply app_inj_tail in Hu as [_ E].
      apply Hc. symmetry. exact E.
Qed.

Lemma drop_final_newline_app (x : pystr) :
  Spec.drop_final_newline (x ++ [c_newline]) = x.
Proof.
  unfold Spec.drop_final_newline. rewrite rev_app_distr.
  cbn [rev app]. rewrite N.eqb_refl. apply rev_involutive.
Qed.

Lemma drop_final_newline_digits (p d : pystr) :
  d <> [] -> forallb (is_digit (unicode w)) d = true ->
  Spec.drop_final_newline (p ++ c_slash :: d) = p ++ c_slash :: d.
Proof.
  intros Hd Hall.
  destruct (drop_final_newline_cases (p ++ c_slash :: d)) as [[H _]|H];
    [exact H|].
  exfalso.
  destruct (exists_last Hd) as (d' & c & ->).
  rewrite forallb_app in Hall. apply andb_true_iff in Hall as [_ Hc].
  cbn [forallb] in Hc. rewrite andb_true_r in Hc.
  change (p ++ c_slash :: d' ++ [c]) with (p ++ (c_slash :: d') ++ [c]) in H.
  rewrite app_assoc in H. apply app_inj_tail in H as [_ ->].
  discriminate Hc.
Qed.

Lemma numeric_true (d : pystr) :
  Spec.numeric w d = true
  <-> d <> [] /\ forallb (is_digit (unicode w)) d = true.
Proof.
  unfold Spec.numeric. destruct d as [|c d].
  - split; [discriminate|]. intros [H _]. contradiction.
  - split; [intros H; split; [discriminate|exact H]|intros [_ H]; exact H].
Qed.

(** The digits after the last slash, one final line feed apart, are what
    [re.search(r'/(\d+)$', url)] captures. *)
Lemma trailing_segment_code (u : pystr) :
  Spec.trailing_segment w (JStr u)
  = Utils.extract_bdns_from_url (unicode w) u.
Proof.
  cbn [Spec.trailing_segment].
  destruct (Utils.extract_bdns_from_url (unicode w) u) as [d|] eqn:He.
  - destruct (extract_bdns_inv _ _ He) as (Hd & Hall & p & r & -> & Hr).
    assert (Hdrop : Spec.drop_final_newline (p ++ c_slash :: d ++ r)
                    = p ++ c_slash :: d).
    { apply at_end_cases in Hr as [->| ->].
      - rewrite app_nil_r. apply drop_final_newline_digits; assumption.
      - change (p ++ c_slash :: d ++ [c_newline])
          with (p ++ (c_slash :: d) ++ [c_newline]).
        rewrite app_assoc. apply drop_final_newline_app. }
    rewrite Hdrop. unfold Spec.numeric_tail.
    rewrite (@last_segment_app p d (@digits_no_slash d Hall)).
    rewrite (proj2 (numeric_true d) (conj Hd Hall)). reflexivity.
  - unfold Spec.numeric_tail.
    destruct (Spec.last_segment (Spec.drop_final_newline u)) as [seg|] eqn:Hl;
      [|reflexivity].
    destruct (Spec.numeric w seg) eqn:Hn; [|reflexivity].
    exfalso.
    apply numeric_true in Hn as [Hd Hall].
    destruct (last_segment_inv _ Hl) as (p & Hu & _).
    assert (Hsome : Utils.extract_bdns_from_url (unicode w) u = Some seg).
    { destruct (drop_final_newline_cases u) as [[H _]|H].
      - rewrite <- H, Hu.
        apply extract_bdns_trailing_segment; assumption.
      - rewrite H, Hu, <- app_assoc. cbn [app].
        apply extract_bdns_tail; [exact Hd|exact Hall|reflexivity]. }
    rewrite Hsome in He. discriminate He.
Qed.

End Segment.

Lemma truthy_py_or_left (a b : json) :
  truthy a = true -> py_or a b = a.
Proof. unfold py_or. intros ->. reflexivity. Qed.

Lemma truthy_py_or_right (a b : json) :
  truthy a = false -> py_or a b = b.
Proof. unfold py_or. intros ->. reflexivity. Qed.

(** The claim of C6 fails for a source URL that ends in a line feed: its
    last segment is not numeric, and the data bag holds no code, so no
    source of the claim gives an identifier; the resolver still takes the
    digits before the line feed and sets no error. *)
Lemma C6_final_line_feed_ignored :
  let u := lit "https://www.subvenciones.gob.es/bdnstrans/GE/es/convocatorias/845133"
           ++ [c_newline] in
  let s := Graph.initial_state (JStr []) (JStr u)
             [(lit "source_url", JStr u)] in
  let s' := Nodes.extract_bdns_node Worlds.offline s in
  Spec.last_segment u = Some (lit "845133" ++ [c_newline])
  /\ Spec.numeric_tail Worlds.offline u = None
  /\ Spec.claimed_identifier Worlds.offline s = None
  /\ bdns_code s' = JStr (lit "845133")
  /\ error s' = None.
Proof. vm_compute. repeat split; reflexivity. Qed.

(** C6, amended. The resolver takes the identifier from the first source,
    in the order explicit identifier, trailing numeric segment of the
    source URL, code field of the data bag, that gives a non-empty value;
    it stores it and logs it, and when no source gives one it sets
    [error].  The trailing numeric segment is the digits after the last
    slash of the URL, one final line feed apart; for a URL that does not
    end in a line feed it is the last segment as it stands.  An explicit
    identifier is kept whatever the URL and the data bag hold. *)
Theorem C6_identifier_priority_order (w : world) (s : SubsidyState) :
  (truthy (source_url s) = true -> exists u, source_url s = JStr u) ->
  let s' := Nodes.extract_bdns_node w s in
  match Spec.resolved_identifier w s with
  | Some c =>
      bdns_code s' = c /\ error s' = error s
      /\ logs s' = logs s ++ [lit "BDNS code: " ++ py_format w c]
  | None =>
      bdns_code s' = bdns_code s
      /\ error s' = Some (lit "No BDNS code could be extracted")
  end
  /\ (truthy (bdns_code s) = true -> bdns_code s' = bdns_code s)
  /\ (forall u,
        source_url s = JStr u -> (forall x, u <> x ++ [c_newline]) ->
        Spec.resolved_identifier w s = Spec.claimed_identifier w s).
Proof.
  intros Hurl s'. subst s'.
  split.
  - unfold Spec.resolved_identifier, Spec.first_source,
      Nodes.extract_bdns_node.
    destruct (truthy (bdns_code s)) eqn:Hc; cbn [negb andb].
    + rewrite Hc. cbn [negb]. rewrite Hc. cbn [negb].
      repeat split; reflexivity.
    + destruct (truthy (source_url s)) eqn:Hs.
      * destruct (Hurl eq_refl) as [u Hu]. rewrite Hu.
        rewrite trailing_segment_code. cbn [Nodes.url_code].
        destruct (Utils.extract_bdns_from_url (unicode w) u) as [d|] eqn:Hd.
        -- assert (Ht : truthy (JStr d) = true).
           { destruct d; [|reflexivity].
             exfalso. exact (extract_bdns_nonempty _ _ Hd). }
           unfold Nodes.store_code. rewrite Ht. cbn [negb].
           rewrite Ht. cbn [negb]. repeat split; reflexivity.
        -- unfold Nodes.store_code. cbn [truthy negb].
           unfold Nodes.data_code.
           destruct (truthy (dict_get (subsidy_data s) (lit "codigo_bdns")))
             eqn:H1.
           ++ rewrite (truthy_py_or_left _ _ H1). cbn [subsidy_data].
              rewrite H1. cbn [negb]. repeat split; reflexivity.
           ++ rewrite (truthy_py_or_right _ _ H1). cbn [subsidy_data].
              destruct (truthy (dict_get (subsidy_data s) (lit "bdns_code")))
                eqn:H2; cbn [negb]; repeat split; reflexivity.
      * assert (Ht : Spec.trailing_segment w (source_url s) = None).
        { destruct (source_url s) as [| | | |u| |]; try reflexivity.
          destruct u; [reflexivity|discriminate]. }
        rewrite Ht. rewrite Hc. cbn [negb].
        unfold Nodes.store_code, Nodes.data_code.
        destruct (truthy (dict_get (subsidy_data s) (lit "codigo_bdns")))
          eqn:H1.
        -- rewrite (truthy_py_or_left _ _ H1).
           rewrite H1. cbn [negb]. repeat split; reflexivity.
        -- rewrite (truthy_py_or_right _ _ H1).
           destruct (truthy (dict_get (subsidy_data s) (lit "bdns_code")))
             eqn:H2; cbn [negb]; repeat split; reflexivity.
  - split.
    + intros Hc. unfold Nodes.extract_bdns_node.
      rewrite Hc. cbn [negb andb]. rewrite Hc. cbn [negb].
      rewrite Hc. cbn [negb]. reflexivity.
    + intros u Hu Hnl.
      unfold Spec.resolved_identifier, Spec.claimed_identifier,
        Spec.first_source.
      rewrite Hu. cbn [Spec.trailing_segment].
      destruct (drop_final_newline_cases u) as [[-> _]|H]; [reflexivity|].
      exfalso. exact (Hnl _ H).
Qed.

Lemma C6_identifier_priority_order_witness :
  let s := Graph.initial_state (JStr [])
             (JStr (lit "https://host/GE/es/convocatorias/845133"))
             [(lit "codigo_bdns", JStr (lit "999"))] in
  (truthy (source_url s) = true -> exists u, source_url s = JStr u)
  /\ Spec.claimed_identifier Worlds.offline s = Some (JStr (lit "845133"))
  /\ bdns_code (Nodes.extract_bdns_node Worlds.offline s)
     = JStr (lit "845133").
Proof.
  intros s.
  assert (H : truthy (source_url s) = true -> exists u, source_url s = JStr u).
  { intros _. eexists. reflexivity. }
  split; [exact H|].
  split; [vm_compute; reflexivity|].
  pose proof (C6_identifier_priority_order Worlds.offline s H) as [X _].
  vm_compute in X. destruct X as [X _].
  vm_compute. exact X.
Defined.

(* ------------------------------------------------------------------ *)
(** * The file name sanitizer *)

Section Sanitizer.
Variable U : unicode_db.

Lemma is_word_underscore : is_word U c_underscore = true.
Proof. reflexivity. Qed.

Lemma is_sep_underscore : Utils.is_sep U c_underscore = false.
Proof. reflexivity. Qed.

Lemma kept_not_sep_is_word (c : N) :
  Utils.keep_char U c = true -> Utils.is_sep U c = false ->
  is_word U c = true.
Proof.
  unfold Utils.keep_char, Utils.is_sep. intros Hk Hs.
  apply orb_false_iff in Hs as [Hh Hsp].
  rewrite Hh, Hsp in Hk. rewrite !orb_false_r in Hk. exact Hk.
Qed.

Lemma collapse_from_word (s : pystr) (b : bool) :
  Forall (fun c => Utils.keep_char U c = true) s ->
  Forall (fun c => is_word U c = true) (Utils.collapse_from U b s).
Proof.
  intros H. revert b. induction H as [|c s Hc Hs IH]; intros b; simpl.
  - constructor.
  - destruct (Utils.is_sep U c) eqn:Hsep.
    + destruct b; [apply IH|].
      constructor; [apply is_word_underscore|apply IH].
    + constructor; [apply kept_not_sep_is_word; assumption|apply IH].
Qed.

Lemma collapse_from_no_sep (s : pystr) (b : bool) :
  Forall (fun c => Utils.is_sep U c = false) (Utils.collapse_from U b s).
Proof.
  revert b. induction s as [|c s IH]; intros b; simpl.
  - constructor.
  - destruct (Utils.is_sep U c) eqn:Hsep.
    + destruct b; [apply IH|].
      constructor; [apply is_sep_underscore|apply IH].
    + constructor; [exact Hsep|apply IH].
Qed.

Lemma remove_special_kept (s : pystr) :
  Forall (fun c => Utils.keep_char U c = true) (Utils.remove_special U s).
Proof.
  unfold Utils.remove_special. apply Forall_forall.
  intros c Hc. apply filter_In in Hc. tauto.
Qed.

Lemma Forall_firstn {A} (P : A -> Prop) (n : nat) (l : list A) :
  Forall P l -> Forall P (firstn n l).
Proof.
  intros H. revert n. induction H; intros [|n]; simpl; constructor; auto.
Qed.

(** A string without separators is left as it is. *)
Lemma collapse_from_free (s : pystr) (b : bool) :
  Forall (fun c => Utils.is_sep U c = false) s ->
  Utils.collapse_from U b s = s.
Proof.
  intros H. revert b. induction H as [|c s Hc Hs IH]; intros b; simpl.
  - reflexivity.
  - rewrite Hc, IH. reflexivity.
Qed.

Lemma collapse_from_starts_free (s : pystr) (b : bool) :
  starts_free U s = true ->
  Utils.collapse_from U b s = Utils.collapse_from U false s.
Proof.
  destruct s as [|c s]; simpl; [reflexivity|].
  intros H. apply negb_true_iff in H. rewrite H. reflexivity.
Qed.

(** A run of separators gives one underscore. *)
Lemma collapse_from_run (run rest : pystr) :
  Forall (fun c => Utils.is_sep U c = true) run ->
  starts_free U rest = true ->
  Utils.collapse_from U true (run ++ rest)
  = Utils.collapse_from U false rest.
Proof.
  intros H Hr. induction H as [|c run Hc Hs IH]; simpl.
  - apply collapse_from_starts_free. exact Hr.
  - rewrite Hc. exact IH.
Qed.

Lemma ends_free_cons (c : N) (a : pystr) :
  a <> [] -> ends_free U (c :: a) = ends_free U a.
Proof.
  intros Ha. unfold ends_free. simpl.
  destruct (rev a) as [|x r] eqn:Hrev.
  - apply (f_equal (@rev N)) in Hrev. rewrite rev_involutive in Hrev.
    contradiction.
  - reflexivity.
Qed.

Lemma collapse_from_app (a rest : pystr) (b : bool) :
  a <> [] -> ends_free U a = true ->
  Utils.collapse_from U b (a ++ rest)
  = Utils.collapse_from U b a ++ Utils.collapse_from U false rest.
Proof.
  revert b. induction a as [|c a IH]; intros b Ha He; [contradiction|].
  destruct a as [|c' a'].
  - unfold ends_free in He. simpl in He. apply negb_true_iff in He.
    simpl. rewrite He. reflexivity.
  - rewrite ends_free_cons in He by discriminate.
    change ((c :: c' :: a') ++ rest) with (c :: ((c' :: a') ++ rest)).
    cbn [Utils.collapse_from].
    destruct (Utils.is_sep U c); [destruct b|];
      rewrite IH by (try discriminate; assumption); reflexivity.
Qed.

(** Between two parts that do not touch it with a separator, a maximal run
    of white space and hyphens becomes a single underscore. *)
Lemma collapse_seps_run (a run rest : pystr) :
  ends_free U a = true -> run <> [] ->
  Forall (fun c => Utils.is_sep U c = true) run ->
  starts_free U rest = true ->
  Utils.collapse_seps U (a ++ run ++ rest)
  = Utils.collapse_seps U a ++ c_underscore :: Utils.collapse_seps U rest.
Proof.
  intros Ha Hn Hrun Hrest. unfold Utils.collapse_seps.
  assert (Hr : Utils.collapse_from U false (run ++ rest)
               = c_underscore :: Utils.collapse_from U false rest).
  { destruct run as [|c run]; [contradiction|].
    inversion Hrun as [|? ? Hc Hrun']; subst. simpl. rewrite Hc.
    rewrite collapse_from_run by assumption. reflexivity. }
  destruct a as [|c a].
  - simpl app at 1. exact Hr.
  - rewrite collapse_from_app by (try discriminate; assumption).
    rewrite Hr. reflexivity.
Qed.

End Sanitizer.

(** C9. On the name of the example the sanitizer gives
    "Orden_Ministerial_2024_Bases": letters, digits and underscores only, at
    most 50 characters, no underscore at either end.  On every name it
    keeps the word characters, white space and hyphens only, turns every
    run of white space and hyphens into one underscore, and cuts the result
    after 50 characters; what it returns holds word characters only. *)
Theorem C9_clean_filename (U : unicode_db) :
  uni_alnum U 8212 = false -> uni_space U 8212 = false ->
  (let out := Utils.clean_filename U sanitizer_input in
   out = lit "Orden_Ministerial_2024_Bases"
   /\ forallb (fun c => ascii_alnum c || N.eqb c c_underscore) out = true
   /\ (List.length out <= 50)%nat
   /\ hd_error out <> Some c_underscore
   /\ hd_error (rev out) <> Some c_underscore)
  /\ forall s : pystr,
       (forall c, In c (Utils.remove_special U s) <->
                  In c s /\ (is_word U c || is_space U c
                             || N.eqb c c_hyphen) = true)
       /\ Utils.clean_filename U s
          = firstn 50 (Utils.collapse_seps U (Utils.remove_special U s))
       /\ (List.length (Utils.clean_filename U s) <= 50)%nat
       /\ Forall (fun c => is_word U c = true) (Utils.clean_filename U s)
       /\ Forall (fun c => Utils.is_sep U c = false)
                 (Utils.clean_filename U s)
       /\ (forall a run rest,
             ends_free U a = true -> run <> [] ->
             Forall (fun c => Utils.is_sep U c = true) run ->
             starts_free U rest = true ->
             Utils.collapse_seps U (a ++ run ++ rest)
             = Utils.collapse_seps U a
               ++ c_underscore :: Utils.collapse_seps U rest)
       /\ (Forall (fun c => Utils.is_sep U c = false) s ->
           Utils.collapse_seps U s = s).
Proof.
  intros Halnum Hspace.
  assert (Hout : Utils.clean_filename U sanitizer_input
                 = lit "Orden_Ministerial_2024_Bases").
  { cbv -[uni_alnum uni_space].
    rewrite Halnum, Hspace. reflexivity. }
  split.
  - cbv zeta. rewrite Hout.
    split; [reflexivity|].
    split; [vm_compute; reflexivity|].
    split; [vm_compute; repeat constructor|].
    split; intros H; vm_compute in H; discriminate H.
  - intros s.
    split.
    { intros c. unfold Utils.remove_special. rewrite filter_In.
      unfold Utils.keep_char. tauto. }
    split; [reflexivity|].
    split.
    { unfold Utils.clean_filename, Utils.clean_filename_n.
      apply firstn_le_length. }
    split.
    { apply Forall_firstn. apply collapse_from_word.
      apply remove_special_kept. }
    split.
    { apply Forall_firstn. apply collapse_from_no_sep. }
    split.
    { intros a run rest. apply collapse_seps_run. }
    apply collapse_from_free.
Qed.

Lemma C9_clean_filename_witness :
  uni_alnum latin1_db 8212 = false /\ uni_space latin1_db 8212 = false
  /\ Utils.clean_filename latin1_db sanitizer_input
     = lit "Orden_Ministerial_2024_Bases".
Proof.
  split; [reflexivity|]. split; [reflexivity|].
  exact (proj1 (proj1 (C9_clean_filename latin1_db eq_refl eq_refl))).
Defined.

(* ------------------------------------------------------------------ *)
(** * Document acquisition *)

Section Acquirer.
Variable w : world.
Variable download_dir : pystr.
Variable code : json.

(** The loop adds to its three locals what each reference gives, in the
    order of the references. *)
Lemma download_loop_spec (refs : list pdf_ref) :
  forall (i : nat) (a : Nodes.loop_state),
    let items := Spec.indexed_from i refs in
    let es := flat_map (fun ir => Spec.opt_list (fst (reference_outcome w download_dir code ir))) items in
    Nodes.download_loop w download_dir code i refs a
    = {| Nodes.l_texts := Nodes.l_texts a ++ es;
         Nodes.l_successful :=
           Nodes.l_successful a + Z.of_nat (List.length es);
         Nodes.l_logger :=
           Nodes.l_logger a ++ flat_map (fun ir => snd (reference_outcome w download_dir code ir)) items |}.
Proof.
  induction refs as [|r refs IH]; intros i a.
  - destruct a as [t c l]. cbn. rewrite !app_nil_r, Z.add_0_r. reflexivity.
  - cbn zeta. cbn [Nodes.download_loop].
    rewrite IH. clear IH.
    unfold Spec.indexed_from. cbn [List.length seq combine flat_map].
    unfold reference_outcome. cbn [fst snd].
    unfold Nodes.loop_step.
    destruct (Nodes.download_one w download_dir code i r) as [[e|] l];
      cbn [Nodes.l_texts Nodes.l_successful Nodes.l_logger
           Spec.opt_list fst snd].
    + f_equal.
      * rewrite <- app_assoc. reflexivity.
      * cbn [app List.length]. rewrite Nat2Z.inj_succ. lia.
      * rewrite <- app_assoc. reflexivity.
    + f_equal. rewrite <- app_assoc. reflexivity.
Qed.

(** A reference gives an entry exactly under the three conditions of the
    claim and a fourth: its bytes were saved. *)
Lemma download_one_entry_iff (i : nat) (r : pdf_ref) :
  fst (Nodes.download_one w download_dir code i r) <> None
  <-> Spec.status_ok w i r && Spec.signature_ok w i r
      && Spec.saved w download_dir code i r
      && Spec.text_ok w i r = true.
Proof.
  unfold Nodes.download_one, Spec.status_ok, Spec.signature_ok,
    Spec.saved, Spec.text_ok, Spec.extracted_text, Nodes.save_and_extract,
    Nodes.extract_entry, Utils.validate_pdf_content, Utils.pdf_magic.
  destruct (doc_get w i (url r)) as [resp|m]; cbn [fst snd andb filename text path]; [|no_entry].
  destruct (Z.eqb (doc_status resp) 200); cbn [fst snd andb filename text path].
  2:{ no_entry. }
  destruct (doc_content resp) as [content|m]; cbn [fst snd andb filename text path].
  2:{ no_entry. }
  destruct (startswith content (lit "%PDF")); cbn [fst snd andb filename text path].
  2:{ no_entry. }
  destruct (name r) as [| | | |n| |]; cbn [fst snd andb filename text path];
    try no_entry.
  destruct (write_bytes w _ content) as [u|m]; cbn [fst snd andb filename text path].
  2:{ no_entry. }
  destruct (pdf_page_texts w content) as [pages|m]; cbn [fst snd andb filename text path].
  2:{ no_entry. }
  destruct (strip (unicode w) (Nodes.join_pages pages)); cbn [fst snd andb filename text path].
  - no_entry.
  - split; [reflexivity | discriminate].
Qed.

(** An entry carries the name of its reference and the text extracted
    from its bytes, which is not blank: there are no placeholders. *)
Lemma download_one_entry_shape (i : nat) (r : pdf_ref) (e : pdf_text) :
  fst (Nodes.download_one w download_dir code i r) = Some e ->
  name r = JStr (filename e)
  /\ Spec.extracted_text w i r = Some (text e)
  /\ strip (unicode w) (text e) <> [].
Proof.
  unfold Nodes.download_one, Spec.extracted_text, Nodes.save_and_extract,
    Nodes.extract_entry.
  destruct (doc_get w i (url r)) as [resp|m]; cbn [fst snd andb filename text path]; [|discriminate].
  destruct (Z.eqb (doc_status resp) 200); cbn [fst snd andb filename text path]; [|discriminate].
  destruct (doc_content resp) as [content|m]; cbn [fst snd andb filename text path]; [|discriminate].
  destruct (Utils.validate_pdf_content content); cbn [fst snd andb filename text path]; [|discriminate].
  destruct (name r) as [| | | |n| |]; cbn [fst snd andb filename text path]; try discriminate.
  destruct (write_bytes w _ content) as [u|m]; cbn [fst snd andb filename text path]; [|discriminate].
  destruct (pdf_page_texts w content) as [pages|m]; cbn [fst snd andb filename text path]; [|discriminate].
  destruct (strip (unicode w) (Nodes.join_pages pages)) eqn:Hs; cbn [fst snd andb filename text path];
    [discriminate|].
  intros H. injection H as <-. cbn [fst snd andb filename text path].
  split; [reflexivity|]. split; [reflexivity|].
  rewrite Hs. discriminate.
Qed.

(** A reference that gives no entry leaves a warning or an error in the
    log. *)
Lemma download_one_skip_logged (i : nat) (r : pdf_ref) :
  fst (Nodes.download_one w download_dir code i r) = None ->
  exists rec,
    In rec (snd (Nodes.download_one w download_dir code i r))
    /\ (fst rec = Nodes.WARNING \/ fst rec = Nodes.ERROR).
Proof.
  unfold Nodes.download_one, Nodes.save_and_extract, Nodes.extract_entry,
    Nodes.download_error.
  destruct (doc_get w i (url r)) as [resp|m]; cbn [fst snd andb filename text path].
  2:{ intros _. eexists. split; [right; left; reflexivity|auto]. }
  destruct (Z.eqb (doc_status resp) 200); cbn [fst snd andb filename text path].
  2:{ intros _. eexists. split; [right; left; reflexivity|auto]. }
  destruct (doc_content resp) as [content|m]; cbn [fst snd andb filename text path].
  2:{ intros _. eexists. split; [right; left; reflexivity|auto]. }
  destruct (Utils.validate_pdf_content content); cbn [fst snd andb filename text path].
  2:{ intros _. eexists. split; [right; left; reflexivity|auto]. }
  destruct (name r) as [| | | |n| |]; cbn [fst snd andb filename text path];
    try (intros _; eexists; split; [right; left; reflexivity|auto]).
  destruct (write_bytes w _ content) as [u|m]; cbn [fst snd andb filename text path].
  2:{ intros _. eexists. split; [right; left; reflexivity|auto]. }
  destruct (pdf_page_texts w content) as [pages|m]; cbn [fst snd andb filename text path].
  2:{ intros _. eexists. split; [right; right; left; reflexivity|auto]. }
  destruct (strip (unicode w) (Nodes.join_pages pages)); cbn [fst snd andb filename text path].
  - intros _. eexists. split; [right; right; left; reflexivity|auto].
  - discriminate.
Qed.

(** Every pass of the loop starts by announcing its reference. *)
Lemma download_one_announced (i : nat) (r : pdf_ref) :
  hd_error (snd (Nodes.download_one w download_dir code i r))
  = Some (Nodes.INFO,
          lit "Downloading: " ++ py_format w (name r) ++ lit " from "
          ++ url r).
Proof.
  unfold Nodes.download_one.
  destruct (match doc_get w i (url r) with Ok _ => _ | Raise _ => _ end).
  reflexivity.
Qed.

(** The names of the entries are the names of some of the references, in
    the order of the references. *)
Lemma entries_sublist (refs : list pdf_ref) (i : nat) :
  sublist
    (map (fun e => JStr (filename e))
       (flat_map (fun ir => Spec.opt_list (fst (reference_outcome w download_dir code ir)))
          (Spec.indexed_from i refs)))
    (map name refs).
Proof.
  revert i. induction refs as [|r refs IH]; intros i.
  - constructor.
  - unfold Spec.indexed_from. cbn [List.length seq combine flat_map map].
    unfold reference_outcome at 1. cbn [fst snd].
    destruct (fst (Nodes.download_one w download_dir code i r)) as [e|]
      eqn:He; cbn [Spec.opt_list app map].
    + apply download_one_entry_shape in He as [Hn _]. rewrite Hn.
      apply sublist_keep. apply IH.
    + apply sublist_skip. apply IH.
Qed.

End Acquirer.

(** With the download directory in place, the node stores what the loop
    collected. *)
Lemma download_pdfs_node_texts (w : world) (s : SubsidyState) (dir : pystr) :
  make_download_dir w = Ok dir ->
  pdf_texts (Nodes.download_pdfs_node w s)
  = flat_map
      (fun ir => Spec.opt_list
         (fst (Nodes.download_one w dir (bdns_code s) (fst ir) (snd ir))))
      (Spec.indexed_from 0 (pdf_urls s)).
Proof.
  intros Hdir. unfold Nodes.download_pdfs_node.
  destruct (pdf_urls s) as [|r refs] eqn:Hrefs; [reflexivity|].
  rewrite Hdir, download_loop_spec. reflexivity.
Qed.

Lemma download_logger_spec (w : world) (s : SubsidyState) (dir : pystr) :
  make_download_dir w = Ok dir ->
  Nodes.download_logger w s
  = flat_map
      (fun ir => snd (Nodes.download_one w dir (bdns_code s)
                        (fst ir) (snd ir)))
      (Spec.indexed_from 0 (pdf_urls s)).
Proof.
  intros Hdir. unfold Nodes.download_logger.
  destruct (pdf_urls s) as [|r refs] eqn:Hrefs; [reflexivity|].
  rewrite Hdir, download_loop_spec. reflexivity.
Qed.

(** The count the node stores is the length of the list it stores. *)
Lemma download_pdfs_node_count (w : world) (s : SubsidyState) :
  pdf_count s = Z.of_nat (List.length (pdf_texts s)) ->
  pdf_count (Nodes.download_pdfs_node w s)
  = Z.of_nat (List.length (pdf_texts (Nodes.download_pdfs_node w s))).
Proof.
  intros Hs. unfold Nodes.download_pdfs_node.
  destruct (pdf_urls s) as [|r refs]; [reflexivity|].
  destruct (make_download_dir w) as [dir|m]; [|exact Hs].
  rewrite download_loop_spec. reflexivity.
Qed.

(* ------------------------------------------------------------------ *)
(** * What each stage leaves alone *)

Section Frames.
Variable w : world.

Lemma extract_keeps_documents (s : SubsidyState) :
  pdf_count (Nodes.extract_bdns_node w s) = pdf_count s
  /\ pdf_texts (Nodes.extract_bdns_node w s) = pdf_texts s.
Proof.
  unfold Nodes.extract_bdns_node, Nodes.store_code.
  repeat break_match; split; reflexivity.
Qed.

Lemma fetch_keeps_documents (s : SubsidyState) :
  pdf_count (Nodes.fetch_subsidy_info_node w s) = pdf_count s
  /\ pdf_texts (Nodes.fetch_subsidy_info_node w s) = pdf_texts s.
Proof.
  unfold Nodes.fetch_subsidy_info_node.
  repeat break_match; split; reflexivity.
Qed.

Lemma find_keeps_documents (s : SubsidyState) :
  pdf_count (Nodes.find_pdf_urls_node w s) = pdf_count s
  /\ pdf_texts (Nodes.find_pdf_urls_node w s) = pdf_texts s.
Proof.
  unfold Nodes.find_pdf_urls_node.
  repeat break_match; split; reflexivity.
Qed.

Lemma attach_metadata_keeps_documents (m : obj) (s : SubsidyState) :
  pdf_count (Nodes.attach_metadata m s) = pdf_count s
  /\ pdf_texts (Nodes.attach_metadata m s) = pdf_texts s.
Proof.
  unfold Nodes.attach_metadata. repeat break_match; split; reflexivity.
Qed.

Lemma store_analysis_keeps_documents (t : pystr) (s s1 : SubsidyState) :
  Nodes.store_analysis w t s = Ok s1 ->
  pdf_count s1 = pdf_count s /\ pdf_texts s1 = pdf_texts s.
Proof.
  intros H.
  destruct (store_analysis_ok _ _ _ H) as [[r ->]|[[j ->]| ->]];
    split; reflexivity.
Qed.

Lemma analyze_keeps_documents (s : SubsidyState) :
  pdf_count (Nodes.analyze_subsidy_node w s) = pdf_count s
  /\ pdf_texts (Nodes.analyze_subsidy_node w s) = pdf_texts s.
Proof.
  unfold Nodes.analyze_subsidy_node.
  destruct (llm_invoke w _) as [[t u]|m]; [|split; reflexivity].
  destruct (Nodes.check_usage w u); [|split; reflexivity].
  destruct (Nodes.store_analysis w t s) as [s1|m] eqn:Hst;
    [|split; reflexivity].
  cbn [add_log pdf_count pdf_texts].
  destruct (attach_metadata_keeps_documents
              (Nodes.make_metadata w s1 u) s1) as [-> ->].
  exact (store_analysis_keeps_documents _ _ Hst).
Qed.

Lemma save_keeps_documents (s : SubsidyState) :
  pdf_count (Nodes.save_results_node w s) = pdf_count s
  /\ pdf_texts (Nodes.save_results_node w s) = pdf_texts s.
Proof.
  unfold Nodes.save_results_node.
  repeat break_match; split; reflexivity.
Qed.

End Frames.

(** C5. In every run, when the Document Acquirer is done [pdf_count] is the
    length of [pdf_texts]; the two stages after it change neither, so the
    count the run reports is still that length. *)
Theorem C5_document_count_invariant (w : world) (code source : json)
    (data : obj) :
  let s0 := initial_state code source data in
  let s4 := Nodes.download_pdfs_node w
              (Nodes.find_pdf_urls_node w
                 (Nodes.fetch_subsidy_info_node w
                    (Nodes.extract_bdns_node w s0))) in
  pdf_count s4 = Z.of_nat (List.length (pdf_texts s4))
  /\ (forall s, pdf_count (Nodes.analyze_subsidy_node w s) = pdf_count s)
  /\ (forall s, pdf_count (Nodes.save_results_node w s) = pdf_count s)
  /\ pdf_count (pipeline w s0) = pdf_count s4
  /\ r_pdf_count (fst (run_workflow w s0))
     = Z.of_nat (List.length (pdf_texts s4)).
Proof.
  intros s0 s4.
  assert (H4 : pdf_count s4 = Z.of_nat (List.length (pdf_texts s4))).
  { apply download_pdfs_node_count.
    rewrite (proj1 (find_keeps_documents w _)),
            (proj2 (find_keeps_documents w _)),
            (proj1 (fetch_keeps_documents w _)),
            (proj2 (fetch_keeps_documents w _)),
            (proj1 (extract_keeps_documents w _)),
            (proj2 (extract_keeps_documents w _)).
    reflexivity. }
  assert (Hp : pdf_count (pipeline w s0) = pdf_count s4).
  { unfold pipeline.
    rewrite (proj1 (save_keeps_documents w _)),
            (proj1 (analyze_keeps_documents w _)).
    reflexivity. }
  split; [exact H4|].
  split; [intros s; apply analyze_keeps_documents|].
  split; [intros s; apply save_keeps_documents|].
  split; [exact Hp|].
  unfold run_workflow. rewrite invoke_trace_build_workflow.
  cbn [fst r_pdf_count set_processing_time pdf_count].
  rewrite Hp. exact H4.
Qed.

(** The claim of C7 fails for a document that cannot be saved: the
    download answered 200, the bytes begin with the PDF signature and the
    text extracted from them is not blank, and still the reference gives
    no entry, since the file could not be written. *)
Lemma C7_unsaved_document_left_out :
  let w := Examples.read_only_disk in
  let s := Examples.with_three_refs in
  let r := {| url := lit "https://host/convocatoria/845133/document/1";
              name := JStr (lit "Bases.pdf"); id := JInt 1 |} in
  nth_error (pdf_urls s) 0 = Some r
  /\ make_download_dir w = Ok (lit "downloaded_files")
  /\ Spec.status_ok w 0 r = true
  /\ Spec.signature_ok w 0 r = true
  /\ Spec.extracted_text w 0 r
     = Some (lit "Bases reguladoras" ++ [c_newline] ++ lit "Articulo 1"
             ++ [c_newline])
  /\ Spec.text_ok w 0 r = true
  /\ fst (Nodes.download_one w (lit "downloaded_files") (bdns_code s) 0 r)
     = None
  /\ pdf_texts (Nodes.download_pdfs_node w s) = [].
Proof. vm_compute. repeat split; reflexivity. Qed.

(** C7, amended. With the download directory in place, the Document
    Acquirer goes through the references one by one: a reference gives an
    entry exactly when its download answered 200, its bytes begin with the
    PDF signature, the bytes were saved to their file in the download
    directory and the text extracted from them is not blank; an entry
    holds that text and the name of its reference; a reference without an
    entry leaves a warning or an error in the log; every reference is
    announced in the log, whatever happened to the ones before it; and the
    entries stand in the order of the references they come from. *)
Theorem C7_per_reference_acquisition (w : world) (s : SubsidyState)
    (dir : pystr) :
  make_download_dir w = Ok dir ->
  let one := fun ir : nat * pdf_ref =>
    Nodes.download_one w dir (bdns_code s) (fst ir) (snd ir) in
  let items := Spec.indexed_from 0 (pdf_urls s) in
  let s' := Nodes.download_pdfs_node w s in
  pdf_texts s' = flat_map (fun ir => Spec.opt_list (fst (one ir))) items
  /\ (forall ir,
        fst (one ir) <> None
        <-> Spec.status_ok w (fst ir) (snd ir)
            && Spec.signature_ok w (fst ir) (snd ir)
            && Spec.saved w dir (bdns_code s) (fst ir) (snd ir)
            && Spec.text_ok w (fst ir) (snd ir) = true)
  /\ (forall ir e,
        fst (one ir) = Some e ->
        name (snd ir) = JStr (filename e)
        /\ Spec.extracted_text w (fst ir) (snd ir) = Some (text e)
        /\ strip (unicode w) (text e) <> [])
  /\ (forall ir,
        fst (one ir) = None ->
        exists rec, In rec (snd (one ir))
                    /\ (fst rec = Nodes.WARNING \/ fst rec = Nodes.ERROR))
  /\ Nodes.download_logger w s = flat_map (fun ir => snd (one ir)) items
  /\ (forall ir,
        hd_error (snd (one ir))
        = Some (Nodes.INFO,
                lit "Downloading: " ++ py_format w (name (snd ir))
                ++ lit " from " ++ url (snd ir)))
  /\ sublist (map (fun e => JStr (filename e)) (pdf_texts s'))
             (map name (pdf_urls s))
  /\ error s' = error s.
Proof.
  intros Hdir one items s'.
  assert (Ht : pdf_texts s'
               = flat_map (fun ir => Spec.opt_list (fst (one ir))) items).
  { apply download_pdfs_node_texts. exact Hdir. }
  split; [exact Ht|].
  split; [intros [i r]; apply download_one_entry_iff|].
  split; [intros [i r] e; apply download_one_entry_shape|].
  split; [intros [i r]; apply download_one_skip_logged|].
  split; [apply download_logger_spec; exact Hdir|].
  split; [intros [i r]; apply download_one_announced|].
  split.
  - rewrite Ht. apply entries_sublist.
  - subst s'. unfold Nodes.download_pdfs_node.
    destruct (pdf_urls s); [reflexivity|].
    rewrite Hdir. reflexivity.
Qed.

Lemma C7_per_reference_acquisition_witness :
  make_download_dir Examples.three_docs = Ok (lit "downloaded_files")
  /\ map filename
       (pdf_texts (Nodes.download_pdfs_node Examples.three_docs
                     Examples.with_three_refs))
     = [lit "Bases.pdf"].
Proof.
  split; [reflexivity|].
  destruct (C7_per_reference_acquisition Examples.three_docs
              Examples.with_three_refs eq_refl) as [X _].
  rewrite X. vm_compute. reflexivity.
Defined.

(* ------------------------------------------------------------------ *)
(** * The registry client *)

(** The claim of C2 fails when the registry cannot be reached: the node
    sets [error] and appends nothing to [logs]. *)
Lemma C2_network_failure_sets_error :
  let w := Worlds.offline in
  let s := Examples.by_code in
  truthy (bdns_code s) = true
  /\ registry_get w (Nodes.api_url w (bdns_code s))
     = Raise (lit "Connection refused")
  /\ error s = None
  /\ error (Nodes.fetch_subsidy_info_node w s)
     = Some (lit "Error fetching subsidy info: Connection refused")
  /\ logs (Nodes.fetch_subsidy_info_node w s) = logs s.
Proof. vm_compute. repeat split; reflexivity. Qed.

(** C2, amended. With a resolved identifier, a response other than 200
    only appends an entry with the status to [logs]; a failure of the GET
    itself sets [error] to a message with the text of the exception and
    appends nothing to [logs].  In both cases every other field, the data
    among them, stays as it was. *)
Theorem C2_registry_soft_failure (w : world) (s : SubsidyState) :
  truthy (bdns_code s) = true ->
  let s' := Nodes.fetch_subsidy_info_node w s in
  match registry_get w (Nodes.api_url w (bdns_code s)) with
  | Ok r =>
      api_status r <> 200%Z ->
      s' = add_log (lit "API call failed with status: "
                    ++ str_of_Z (api_status r)) s
      /\ error s' = error s
      /\ subsidy_data s' = subsidy_data s
  | Raise m =>
      s' = set_error (lit "Error fetching subsidy info: " ++ m) s
      /\ logs s' = logs s
      /\ subsidy_data s' = subsidy_data s
  end.
Proof.
  intros Hc s'. subst s'. unfold Nodes.fetch_subsidy_info_node.
  rewrite Hc. cbn [negb].
  destruct (registry_get w (Nodes.api_url w (bdns_code s))) as [r|m].
  - intros Hst. apply Z.eqb_neq in Hst. rewrite Hst.
    repeat split; reflexivity.
  - repeat split; reflexivity.
Qed.

Lemma C2_registry_soft_failure_witness :
  truthy (bdns_code Examples.by_code) = true
  /\ logs (Nodes.fetch_subsidy_info_node Examples.registry_down
             Examples.by_code)
     = [lit "API call failed with status: 503"]
  /\ error (Nodes.fetch_subsidy_info_node Examples.registry_down
              Examples.by_code) = None.
Proof.
  split; [reflexivity|].
  pose proof (C2_registry_soft_failure Examples.registry_down
                Examples.by_code eq_refl) as X.
  cbv zeta in X.
  change (registry_get Examples.registry_down
            (Nodes.api_url Examples.registry_down
               (bdns_code Examples.by_code)))
    with (@Ok api_response
            {| api_status := 503;
               api_json := Raise (lit "Expecting value") |}) in X.
  cbv beta iota in X.
  destruct X as [X _]; [discriminate|].
  rewrite X. split; reflexivity.
Defined.

(* ------------------------------------------------------------------ *)
(** * The entry points *)

Section ErrorStays.
Variable w : world.








Lemma run_workflow_result (s : SubsidyState) :
  success (fst (run_workflow w s)) = negb (error_set (error (pipeline w s)))
  /\ r_error (fst (run_workflow w s)) = error (pipeline w s)
  /\ r_processing_time (fst (run_workflow w s)) = elapsed w.
Proof.
  unfold run_workflow. rewrite invoke_trace_build_workflow.
  repeat split; reflexivity.
Qed.


End ErrorStays.




(* ------------------------------------------------------------------ *)
(** * The document locator *)

Section Locator.
Variable w : world.

Lemma is_pdf_candidate_spec (doc : obj) :
  Spec.well_formed_doc (JObj doc) = true ->
  Nodes.is_pdf_candidate w doc = Ok (Spec.pdf_candidate w doc).
Proof.
  unfold Spec.well_formed_doc, Nodes.is_pdf_candidate, Spec.pdf_candidate,
    Spec.type_is_pdf, Spec.name_contains_pdf, Nodes.name_has_pdf.
  destruct (eq_str (Nodes.doc_type_of doc) (lit "PDF")); cbn [orb andb].
  - reflexivity.
  - destruct (Nodes.doc_name_of doc) as [| | | |n| |]; try discriminate.
    intros _.
    destruct (contains (lower (unicode w) n) (lit "pdf")); reflexivity.
Qed.

Lemma collect_pdf_urls_spec (code : json) (docs : list json) :
  forallb Spec.well_formed_doc docs = true ->
  forall acc,
    Nodes.collect_pdf_urls w code docs acc
    = Ok (acc ++ map (Nodes.make_ref w code)
                   (filter (Spec.pdf_candidate w) (Spec.as_objects docs))).
Proof.
  induction docs as [|j docs IH]; intros Hwf acc.
  - cbn. rewrite app_nil_r. reflexivity.
  - cbn [forallb] in Hwf. apply andb_true_iff in Hwf as [Hj Hdocs].
    destruct j as [| | | | | |doc]; try discriminate.
    cbn [Nodes.collect_pdf_urls Spec.as_objects flat_map app filter].
    rewrite (is_pdf_candidate_spec _ Hj).
    fold (Spec.as_objects docs).
    destruct (Spec.pdf_candidate w doc); rewrite (IH Hdocs).
    + rewrite <- app_assoc. reflexivity.
    + reflexivity.
Qed.

Lemma dict_get_mem (d : obj) (k : pystr) :
  dict_get d k <> JNull -> dict_mem d k = true.
Proof.
  induction d as [|[k' v] d IH]; simpl.
  - intros H. contradiction H. reflexivity.
  - destruct (PyStr.eqb k' k); [reflexivity|exact IH].
Qed.

Lemma locate_documents_spec (s : SubsidyState) (docs : list json) :
  dict_get (subsidy_data s) (lit "documentos") = JArr docs ->
  forallb Spec.well_formed_doc docs = true ->
  Nodes.locate_documents w s
  = Ok (map (Nodes.make_ref w (bdns_code s))
          (filter (Spec.pdf_candidate w) (Spec.as_objects docs))).
Proof.
  intros Hdocs Hwf. unfold Nodes.locate_documents.
  rewrite dict_get_mem by (rewrite Hdocs; discriminate).
  rewrite Hdocs. cbn [andb].
  destruct docs as [|j docs]; [reflexivity|].
  cbn [truthy Nodes.iter_documents].
  apply (collect_pdf_urls_spec _ _ Hwf []).
Qed.

End Locator.

(** The claim of C8 fails for a descriptor whose id is the number zero: the
    id field is there and the type says PDF, yet the locator leaves the
    document out. *)
Lemma C8_present_id_zero_left_out :
  let w := Worlds.offline in
  let s := Examples.with_documents_list [JObj Examples.zero_id_doc] in
  Spec.claimed_candidate w Examples.zero_id_doc = true
  /\ dict_mem Examples.zero_id_doc (lit "id") = true
  /\ pdf_urls (Nodes.find_pdf_urls_node w s) = []
  /\ error (Nodes.find_pdf_urls_node w s) = None.
Proof. vm_compute. repeat split; reflexivity. Qed.

(** C8, amended. The locator classifies a descriptor as a PDF candidate
    exactly when its type is the token PDF or its display name contains
    "pdf" in any case, and its id counts as true (present, and not null,
    false, zero or empty).  For a documents collection whose entries are
    descriptors with a string for a display name, [pdf_urls] holds the
    references of exactly these candidates, in the order of the collection.
    For the descriptor of scenario B under the identifier 845133 it holds
    one reference, whose URL ends in /845133/document/7 and whose display
    name is Bases.pdf. *)
Theorem C8_document_locator (w : world) :
  (forall doc,
     Nodes.is_pdf_candidate w doc = Ok true
     <-> Spec.pdf_candidate w doc = true)
  /\ (forall s docs,
     dict_get (subsidy_data s) (lit "documentos") = JArr docs ->
     forallb Spec.well_formed_doc docs = true ->
     pdf_urls (Nodes.find_pdf_urls_node w s)
     = map (Nodes.make_ref w (bdns_code s))
         (filter (Spec.pdf_candidate w) (Spec.as_objects docs))
     /\ error (Nodes.find_pdf_urls_node w s) = error s)
  /\ (forall s,
        bdns_code s = JStr (lit "845133") ->
        subsidy_data s
        = [(lit "documentos", JArr [JObj Examples.bases_doc])] ->
        exists r,
          pdf_urls (Nodes.find_pdf_urls_node w s) = [r]
          /\ endswith (url r) (lit "/845133/document/7") = true
          /\ name r = JStr (lit "Bases.pdf")
          /\ id r = JStr (lit "7")).
Proof.
  assert (H : forall s docs,
     dict_get (subsidy_data s) (lit "documentos") = JArr docs ->
     forallb Spec.well_formed_doc docs = true ->
     pdf_urls (Nodes.find_pdf_urls_node w s)
     = map (Nodes.make_ref w (bdns_code s))
         (filter (Spec.pdf_candidate w) (Spec.as_objects docs))
     /\ error (Nodes.find_pdf_urls_node w s) = error s).
  { intros s docs Hdocs Hwf. unfold Nodes.find_pdf_urls_node.
    rewrite (locate_documents_spec w s Hdocs Hwf).
    split; reflexivity. }
  split.
  { intros doc.
    unfold Nodes.is_pdf_candidate, Spec.pdf_candidate, Spec.type_is_pdf,
      Spec.name_contains_pdf, Nodes.name_has_pdf.
    destruct (eq_str (Nodes.doc_type_of doc) (lit "PDF")); cbn [orb andb].
    - split; [intros E; injection E as ->; reflexivity|intros ->; reflexivity].
    - destruct (Nodes.doc_name_of doc) as [| | | |n| |];
        try (split; discriminate).
      destruct (contains (lower (unicode w) n) (lit "pdf")); cbn [andb].
      + split; [intros E; injection E as ->; reflexivity
               |intros ->; reflexivity].
      + split; discriminate. }
  split; [exact H|].
  intros s Hcode Hdata.
  destruct (H s [JObj Examples.bases_doc]) as [Hrefs _].
  { rewrite Hdata. reflexivity. }
  { reflexivity. }
  rewrite Hrefs, Hcode.
  eexists. split; [reflexivity|].
  split; [vm_compute; reflexivity|].
  split; reflexivity.
Qed.

Lemma C8_document_locator_witness :
  let s := Examples.with_documents_list
             [JObj Examples.zero_id_doc; JObj Examples.bases_doc] in
  dict_get (subsidy_data s) (lit "documentos")
  = JArr [JObj Examples.zero_id_doc; JObj Examples.bases_doc]
  /\ forallb Spec.well_formed_doc
       [JObj Examples.zero_id_doc; JObj Examples.bases_doc] = true
  /\ map name (pdf_urls (Nodes.find_pdf_urls_node Worlds.offline s))
     = [JStr (lit "Bases.pdf")].
Proof.
  intros s.
  split; [reflexivity|]. split; [reflexivity|].
  destruct (proj1 (proj2 (C8_document_locator Worlds.offline)) s
              [JObj Examples.zero_id_doc; JObj Examples.bases_doc]
              eq_refl eq_refl) as [X _].
  rewrite X. vm_compute. reflexivity.
Defined.

(* ------------------------------------------------------------------ *)
(** * The brace-delimited span of a response *)

Lemma from_first_lbrace_app (pre t : pystr) :
  ~ In c_lbrace pre ->
  Utils.from_first_lbrace (pre ++ c_lbrace :: t) = Some (c_lbrace :: t).
Proof.
  induction pre as [|c pre IH]; intros Hpre.
  - reflexivity.
  - cbn [app Utils.from_first_lbrace].
    destruct (N.eqb_spec c c_lbrace) as [->|Hne].
    + exfalso. apply Hpre. left. reflexivity.
    + apply IH. intros Hin. apply Hpre. right. exact Hin.
Qed.

Lemma from_first_lbrace_inv (s t : pystr) :
  Utils.from_first_lbrace s = Some t ->
  exists pre t',
    s = pre ++ c_lbrace :: t' /\ t = c_lbrace :: t' /\ ~ In c_lbrace pre.
Proof.
  induction s as [|c s IH]; [discriminate|].
  cbn [Utils.from_first_lbrace].
  destruct (N.eqb_spec c c_lbrace) as [->|Hne].
  - intros H. injection H as <-.
    exists [], s. repeat split. intros [].
  - intros H. destruct (IH H) as (pre & t' & -> & -> & Hpre).
    exists (c :: pre), t'. repeat split.
    intros [Heq|Hin]; [exact (Hne Heq)|exact (Hpre Hin)].
Qed.

Lemma upto_last_rbrace_none (s : pystr) :
  Utils.upto_last_rbrace s = None <-> ~ In c_rbrace s.
Proof.
  induction s as [|c s IH]; cbn [Utils.upto_last_rbrace].
  - split; [intros _ []|reflexivity].
  - destruct (Utils.upto_last_rbrace s) as [p|].
    + split; [discriminate|].
      intros Hn. exfalso.
      assert (Hs : ~ In c_rbrace s) by (intros Hin; apply Hn; right; exact Hin).
      apply IH in Hs. discriminate.
    + destruct (N.eqb_spec c c_rbrace) as [->|Hne].
      * split; [discriminate|]. intros Hn. exfalso. apply Hn. left.
        reflexivity.
      * split; [|reflexivity]. intros _ [Heq|Hin].
        -- exact (Hne Heq).
        -- revert Hin. apply IH. reflexivity.
Qed.

Lemma upto_last_rbrace_app (a post : pystr) :
  ~ In c_rbrace post ->
  Utils.upto_last_rbrace (a ++ c_rbrace :: post) = Some (a ++ [c_rbrace]).
Proof.
  intros Hpost. induction a as [|c a IH].
  - cbn [app Utils.upto_last_rbrace].
    rewrite (proj2 (upto_last_rbrace_none post) Hpost).
    rewrite N.eqb_refl. reflexivity.
  - cbn [app Utils.upto_last_rbrace]. rewrite IH. reflexivity.
Qed.

Lemma upto_last_rbrace_inv (s p : pystr) :
  Utils.upto_last_rbrace s = Some p ->
  exists a post,
    p = a ++ [c_rbrace] /\ s = a ++ c_rbrace :: post
    /\ ~ In c_rbrace post.
Proof.
  revert p. induction s as [|c s IH]; intros p; [discriminate|].
  cbn [Utils.upto_last_rbrace].
  destruct (Utils.upto_last_rbrace s) as [q|] eqn:Hq.
  - intros H. injection H as <-.
    destruct (IH q eq_refl) as (a & post & -> & -> & Hpost).
    exists (c :: a), post. repeat split. exact Hpost.
  - destruct (N.eqb_spec c c_rbrace) as [->|Hne]; [|discriminate].
    intros H. injection H as <-.
    exists [], s. repeat split.
    apply upto_last_rbrace_none. exact Hq.
Qed.

(** [json_span] is the greedy span. *)
Lemma json_span_iff (text sp : pystr) :
  Utils.json_span text = Some sp <-> greedy_span text sp.
Proof.
  unfold Utils.json_span, greedy_span. split.
  - destruct (Utils.from_first_lbrace text) as [t|] eqn:Ht; [|discriminate].
    intros Hsp.
    destruct (from_first_lbrace_inv _ Ht) as (pre & t' & -> & -> & Hpre).
    destruct (upto_last_rbrace_inv _ Hsp) as (a & post & -> & Heq & Hpost).
    destruct a as [|c mid].
    + cbn in Heq. injection Heq as Heq _. discriminate Heq.
    + cbn [app] in Heq. injection Heq as <- ->.
      exists pre, mid, post. repeat split; assumption.
  - intros (pre & mid & post & -> & Hpre & Hpost & ->).
    rewrite from_first_lbrace_app by exact Hpre.
    apply (upto_last_rbrace_app (c_lbrace :: mid)). exact Hpost.
Qed.

(** There is no span exactly when no closing brace follows the first
    opening brace. *)
Lemma json_span_none (text : pystr) :
  Utils.json_span text = None <-> forall sp, ~ greedy_span text sp.
Proof.
  split.
  - intros H sp Hsp. apply json_span_iff in Hsp. congruence.
  - intros H. destruct (Utils.json_span text) as [sp|] eqn:Hsp;
      [|reflexivity].
    exfalso. apply (H sp). apply json_span_iff. exact Hsp.
Qed.


(* ------------------------------------------------------------------ *)
(** * The analysis stage *)

(** The claim of C4 fails for a reply with braces around text that is not
    JSON: the span is there, nothing decodes from it, and the stage sets
    [error] and keeps the whole reply as for a reply without braces. *)
Lemma C4_undecodable_span_sets_error :
  let w := Worlds.answering Examples.unquoted_reply in
  Utils.json_span Examples.unquoted_reply
  = Some (lit "{organismo: Ministerio de Industria}")
  /\ json_loads w (lit "{organismo: Ministerio de Industria}") = Ok None
  /\ exists s',
       Nodes.store_analysis w Examples.unquoted_reply Examples.by_code
       = Ok s'
       /\ analysis_result s' = None
       /\ raw_analysis s' = Some (raw_response_of Examples.unquoted_reply)
       /\ error s' = Some no_json_error.
Proof.
  cbv zeta. split; [vm_compute; reflexivity|].
  split; [vm_compute; reflexivity|].
  eexists. split; [vm_compute; reflexivity|].
  repeat split; reflexivity.
Qed.

(** C4, amended. The span taken from a reply is the greedy one, from the
    first opening brace to the last closing brace.  When it is there and
    decodes to a JSON object that is not empty, the object is validated
    against the result shape: on success it becomes [analysis_result], on
    failure the decoded object becomes [raw_analysis], and [error] is left
    alone.  When there is no span, or the span does not decode as JSON,
    [error] is set and [raw_analysis] holds the reply under the key
    raw_response.  When the decoder raises anything but its decode error,
    nothing is stored and the exception goes to the handler of the node,
    which sets [error] and writes neither field.  Otherwise the node
    attaches the metadata and logs its completion. *)
Theorem C4_response_handling (w : world) (text : pystr) (s : SubsidyState) :
  let stored := Nodes.store_analysis w text s in
  (forall sp, Utils.json_span text = Some sp <-> greedy_span text sp)
  /\ (forall sp kv rest r,
        greedy_span text sp ->
        json_loads w sp = Ok (Some (kv :: rest)) ->
        validate_result (kv :: rest) = Some r ->
        exists s',
          stored = Ok s'
          /\ analysis_result s' = Some r
          /\ raw_analysis s' = raw_analysis s /\ error s' = error s)
  /\ (forall sp kv rest,
        greedy_span text sp ->
        json_loads w sp = Ok (Some (kv :: rest)) ->
        validate_result (kv :: rest) = None ->
        exists s',
          stored = Ok s'
          /\ raw_analysis s' = Some (kv :: rest)
          /\ analysis_result s' = analysis_result s /\ error s' = error s)
  /\ (forall sp,
        greedy_span text sp ->
        json_loads w sp = Ok None ->
        exists s',
          stored = Ok s'
          /\ error s' = Some no_json_error
          /\ raw_analysis s' = Some (raw_response_of text)
          /\ analysis_result s' = analysis_result s)
  /\ ((forall sp, ~ greedy_span text sp) ->
      exists s',
        stored = Ok s'
        /\ error s' = Some no_json_error
        /\ raw_analysis s' = Some (raw_response_of text)
        /\ analysis_result s' = analysis_result s)
  /\ (forall sp m,
        greedy_span text sp ->
        json_loads w sp = Raise m ->
        stored = Raise m)
  /\ (forall usage,
        llm_invoke w (Nodes.build_prompt (subsidy_data s) (pdf_texts s))
        = Ok (text, usage) ->
        Nodes.check_usage w usage = Ok tt ->
        Nodes.analyze_subsidy_node w s
        = match stored with
          | Ok s' =>
              add_log (lit "LLM analysis completed")
                (Nodes.attach_metadata (Nodes.make_metadata w s' usage) s')
          | Raise m => set_error (lit "Error in LLM analysis: " ++ m) s
          end).
Proof.
  intros stored. subst stored.
  split; [intros sp; apply json_span_iff|].
  split.
  { intros sp kv rest r Hsp Hl Hv. apply json_span_iff in Hsp.
    unfold Nodes.store_analysis, Utils.extract_json_from_text.
    rewrite Hsp, Hl, Hv. eexists. repeat split; reflexivity. }
  split.
  { intros sp kv rest Hsp Hl Hv. apply json_span_iff in Hsp.
    unfold Nodes.store_analysis, Utils.extract_json_from_text.
    rewrite Hsp, Hl, Hv. eexists. repeat split; reflexivity. }
  split.
  { intros sp Hsp Hl. apply json_span_iff in Hsp.
    unfold Nodes.store_analysis, Utils.extract_json_from_text.
    rewrite Hsp, Hl. eexists. repeat split; reflexivity. }
  split.
  { intros Hno. apply json_span_none in Hno.
    unfold Nodes.store_analysis, Utils.extract_json_from_text.
    rewrite Hno. eexists. repeat split; reflexivity. }
  split.
  { intros sp m Hsp Hl. apply json_span_iff in Hsp.
    unfold Nodes.store_analysis, Utils.extract_json_from_text.
    rewrite Hsp, Hl. reflexivity. }
  intros usage Hllm Hu. unfold Nodes.analyze_subsidy_node.
  rewrite Hllm, Hu. reflexivity.
Qed.

Lemma C4_response_handling_witness :
  let w := Worlds.answering Examples.full_reply in
  greedy_span Examples.full_reply Examples.full_result_json
  /\ json_loads w Examples.full_result_json
     = Ok (Some Examples.full_result_obj)
  /\ exists s' r,
       Nodes.store_analysis w Examples.full_reply Examples.by_code = Ok s'
       /\ analysis_result s' = Some r
       /\ raw_analysis s' = None
       /\ error s' = None.
Proof.
  intros w.
  assert (Hsp : greedy_span Examples.full_reply Examples.full_result_json).
  { apply json_span_iff. vm_compute. reflexivity. }
  assert (Hl : json_loads w Examples.full_result_json
               = Ok (Some Examples.full_result_obj))
    by (vm_compute; reflexivity).
  split; [exact Hsp|]. split; [exact Hl|].
  destruct Examples.full_result_obj as [|kv rest] eqn:Ho;
    [vm_compute in Ho; discriminate Ho|].
  destruct (validate_result (kv :: rest)) as [r|] eqn:Hv.
  - destruct (C4_response_handling w Examples.full_reply Examples.by_code)
      as (_ & H & _).
    destruct (H _ kv rest r Hsp Hl Hv) as (s' & Hs & Ha & Hr & He).
    exists s', r. repeat split; assumption.
  - exfalso. vm_compute in Ho. injection Ho as <- <-.
    vm_compute in Hv. discriminate Hv.
Defined.

Lemma dict_get_set_same (d : obj) (k : pystr) (v : json) :
  dict_get (dict_set d k v) k = v.
Proof.
  induction d as [|[k' v'] d IH]; simpl.
  - rewrite pystr_eqb_refl. reflexivity.
  - destruct (PyStr.eqb k' k) eqn:Hk; simpl; rewrite Hk; auto.
Qed.

Lemma make_metadata_store_analysis (w : world) (text : pystr)
    (s s1 : SubsidyState) (usage : list obj) :
  Nodes.store_analysis w text s = Ok s1 ->
  Nodes.make_metadata w s1 usage = Nodes.make_metadata w s usage.
Proof.
  intros H.
  destruct (store_analysis_ok _ _ _ H) as [[r ->]|[[j ->]| ->]];
    reflexivity.
Qed.

(** In every run the state that reaches the Analysis Stage holds no result
    yet: the driver starts with none and the four stages before write
    none. *)
Lemma results_empty_before_analysis (w : world) (code source : json)
    (data : obj) :
  let s4 := Nodes.download_pdfs_node w
              (Nodes.find_pdf_urls_node w
                 (Nodes.fetch_subsidy_info_node w
                    (Nodes.extract_bdns_node w
                       (initial_state code source data)))) in
  analysis_result s4 = None /\ raw_analysis s4 = None.
Proof.
  assert (H1 : forall s,
             analysis_result (Nodes.extract_bdns_node w s) = analysis_result s
             /\ raw_analysis (Nodes.extract_bdns_node w s) = raw_analysis s).
  { intros s. unfold Nodes.extract_bdns_node, Nodes.store_code.
    repeat break_match; split; reflexivity. }
  assert (H2 : forall s,
             analysis_result (Nodes.fetch_subsidy_info_node w s)
             = analysis_result s
             /\ raw_analysis (Nodes.fetch_subsidy_info_node w s)
                = raw_analysis s).
  { intros s. unfold Nodes.fetch_subsidy_info_node.
    repeat break_match; split; reflexivity. }
  assert (H3 : forall s,
             analysis_result (Nodes.find_pdf_urls_node w s)
             = analysis_result s
             /\ raw_analysis (Nodes.find_pdf_urls_node w s) = raw_analysis s).
  { intros s. unfold Nodes.find_pdf_urls_node.
    repeat break_match; split; reflexivity. }
  assert (H4 : forall s,
             analysis_result (Nodes.download_pdfs_node w s)
             = analysis_result s
             /\ raw_analysis (Nodes.download_pdfs_node w s) = raw_analysis s).
  { intros s. unfold Nodes.download_pdfs_node.
    repeat break_match; split; reflexivity. }
  cbv zeta.
  rewrite (proj1 (H4 _)), (proj2 (H4 _)), (proj1 (H3 _)), (proj2 (H3 _)),
    (proj1 (H2 _)), (proj2 (H2 _)), (proj1 (H1 _)), (proj2 (H1 _)).
  split; reflexivity.
Qed.

(** The claim of C10 fails when the call of the language model raises:
    the handler of the stage takes the exception, so the stage returns and
    nothing escapes, and neither [analysis_result] nor [raw_analysis] is
    set; [error] holds the message instead. *)
Lemma C10_failed_call_leaves_no_result :
  let w := Worlds.offline in
  let s := Examples.by_code in
  let s' := Nodes.analyze_subsidy_node w s in
  analysis_result s = None /\ raw_analysis s = None
  /\ llm_invoke w (Nodes.build_prompt (subsidy_data s) (pdf_texts s))
     = Raise (lit "Connection error.")
  /\ analysis_result s' = None /\ raw_analysis s' = None
  /\ error s' = Some (lit "Error in LLM analysis: Connection error.").
Proof. vm_compute. repeat split; reflexivity. Qed.

(** C10, amended. When the body of the Analysis Stage ran to its end (the
    call of the language model returned, its usage record could be read
    and the extraction of the JSON raised nothing), on a state that held
    no result yet, exactly one of [analysis_result] and [raw_analysis] is
    set afterwards: [analysis_result] when the JSON taken from the reply
    validated, [raw_analysis] otherwise, holding the decoded JSON or else
    the reply under raw_response.  The metadata record, with its time
    stamp, identifier, PDF flag, document count, model name and token
    usage, sits on the one that is set.  When the body raised, the stage
    returns all the same, with [error] set and neither result. *)
Theorem C10_one_result_with_metadata (w : world) (s : SubsidyState) :
  analysis_result s = None -> raw_analysis s = None ->
  let s' := Nodes.analyze_subsidy_node w s in
  (Nodes.analysis_completed w s = true
   <-> exists text usage j,
         llm_invoke w (Nodes.build_prompt (subsidy_data s) (pdf_texts s))
         = Ok (text, usage)
         /\ Nodes.check_usage w usage = Ok tt
         /\ Utils.extract_json_from_text (json_loads w) text = Ok j)
  /\ (forall text usage j,
        llm_invoke w (Nodes.build_prompt (subsidy_data s) (pdf_texts s))
        = Ok (text, usage) ->
        Nodes.check_usage w usage = Ok tt ->
        Utils.extract_json_from_text (json_loads w) text = Ok j ->
        let m := Nodes.make_metadata w s usage in
        match j with
        | Some (kv :: rest) =>
            match validate_result (kv :: rest) with
            | Some r =>
                analysis_result s' = Some (Nodes.with_metadata m r)
                /\ raw_analysis s' = None
            | None =>
                analysis_result s' = None
                /\ raw_analysis s'
                   = Some (dict_set (kv :: rest) (lit "metadata") (JObj m))
            end
        | _ =>
            analysis_result s' = None
            /\ raw_analysis s'
               = Some (dict_set (raw_response_of text) (lit "metadata")
                         (JObj m))
        end
        /\ ((analysis_result s' <> None /\ raw_analysis s' = None)
            \/ (analysis_result s' = None /\ raw_analysis s' <> None))
        /\ (forall r, analysis_result s' = Some r -> metadata r = m)
        /\ (forall raw, raw_analysis s' = Some raw ->
                        dict_get raw (lit "metadata") = JObj m)
        /\ dict_get m (lit "analysis_date") = JStr (now_isoformat w)
        /\ dict_get m (lit "subsidy_code") = bdns_code s
        /\ dict_get m (lit "used_pdf")
           = JBool (negb (Nat.eqb (List.length (pdf_texts s)) 0))
        /\ dict_get m (lit "pdf_count")
           = JInt (Z.of_nat (List.length (pdf_texts s)))
        /\ dict_get m (lit "model_used") = JStr (llm_model_name w)
        /\ dict_get m (lit "token_usage")
           = match usage with [] => JNull | u :: _ => JObj u end)
  /\ (Nodes.analysis_completed w s = false ->
      analysis_result s' = None /\ raw_analysis s' = None
      /\ logs s' = logs s
      /\ exists msg, error s' = Some (lit "Error in LLM analysis: " ++ msg)).
Proof.
  intros Ha Hr s'.
  split.
  { unfold Nodes.analysis_completed. split.
    - destruct (llm_invoke w _) as [[text usage]|?]; [|discriminate].
      destruct (Nodes.check_usage w usage) as [[]|?] eqn:Hu; [|discriminate].
      destruct (Utils.extract_json_from_text (json_loads w) text) as [j|?]
        eqn:Hj; [|discriminate].
      intros _. exists text, usage, j. repeat split; assumption.
    - intros (text & usage & j & -> & -> & ->). reflexivity. }
  split.
  { intros text usage j Hllm Hu Hj m.
    assert (Hmain :
      match j with
      | Some (kv :: rest) =>
          match validate_result (kv :: rest) with
          | Some r =>
              analysis_result s' = Some (Nodes.with_metadata m r)
              /\ raw_analysis s' = None
          | None =>
              analysis_result s' = None
              /\ raw_analysis s'
                 = Some (dict_set (kv :: rest) (lit "metadata") (JObj m))
          end
      | _ =>
          analysis_result s' = None
          /\ raw_analysis s'
             = Some (dict_set (raw_response_of text) (lit "metadata")
                       (JObj m))
      end).
    { subst s' m. unfold Nodes.analyze_subsidy_node.
      rewrite Hllm, Hu. unfold Nodes.store_analysis. rewrite Hj.
      unfold Nodes.attach_metadata.
      destruct j as [[|kv rest]|].
      - cbn. rewrite Ha. cbn. rewrite Ha. split; reflexivity.
      - destruct (validate_result (kv :: rest)) as [r|].
        + cbn. rewrite Hr. split; reflexivity.
        + cbn. rewrite Ha. cbn. rewrite Ha. split; reflexivity.
      - cbn. rewrite Ha. cbn. rewrite Ha. split; reflexivity. }
    split; [exact Hmain|].
    split.
    { destruct j as [[|kv rest]|];
        [| destruct (validate_result (kv :: rest)) |];
        destruct Hmain as [H1 H2]; rewrite H1, H2;
        [right|left|right|right]; split; try reflexivity; discriminate. }
    split.
    { intros r Hres.
      destruct j as [[|kv rest]|];
        [| destruct (validate_result (kv :: rest)) |];
        destruct Hmain as [H1 H2]; rewrite H1 in Hres;
        try discriminate Hres.
      injection Hres as <-. reflexivity. }
    split.
    { intros raw Hraw.
      destruct j as [[|kv rest]|];
        [| destruct (validate_result (kv :: rest)) |];
        destruct Hmain as [H1 H2]; rewrite H2 in Hraw;
        try discriminate Hraw;
        match type of Hraw with
        | Some ?x = Some _ => replace raw with x by congruence
        end;
        apply dict_get_set_same. }
    subst m. unfold Nodes.make_metadata.
    repeat (split; [reflexivity|]).
    split; [destruct (pdf_texts s); reflexivity|].
    repeat (split; [reflexivity|]).
    reflexivity. }
  intros Hc. subst s'.
  unfold Nodes.analysis_completed in Hc.
  unfold Nodes.analyze_subsidy_node, Nodes.store_analysis.
  destruct (llm_invoke w _) as [[text usage]|msg].
  2:{ cbn. repeat split; try assumption. exists msg. reflexivity. }
  destruct (Nodes.check_usage w usage) as [[]|msg].
  2:{ cbn. repeat split; try assumption. exists msg. reflexivity. }
  destruct (Utils.extract_json_from_text (json_loads w) text) as [j|msg];
    [discriminate|].
  cbn. repeat split; try assumption. exists msg. reflexivity.
Qed.

Lemma C10_one_result_with_metadata_witness :
  let w := Worlds.answering Examples.partial_reply in
  let s := Examples.by_code in
  let s' := Nodes.analyze_subsidy_node w s in
  analysis_result s = None /\ raw_analysis s = None
  /\ llm_invoke w (Nodes.build_prompt (subsidy_data s) (pdf_texts s))
     = Ok (Examples.partial_reply, [Worlds.usage_record])
  /\ Nodes.check_usage w [Worlds.usage_record] = Ok tt
  /\ (exists j,
        Utils.extract_json_from_text (json_loads w) Examples.partial_reply
        = Ok j)
  /\ ((analysis_result s' <> None /\ raw_analysis s' = None)
      \/ (analysis_result s' = None /\ raw_analysis s' <> None)).
Proof.
  intros w s s'.
  split; [reflexivity|]. split; [reflexivity|].
  split; [reflexivity|]. split; [reflexivity|].
  destruct (Utils.extract_json_from_text (json_loads w)
              Examples.partial_reply) as [j|msg] eqn:Hj;
    [|vm_compute in Hj; discriminate Hj].
  split; [exists j; reflexivity|].
  exact (proj1 (proj2 (proj1 (proj2
           (C10_one_result_with_metadata w s eq_refl eq_refl))
           _ _ _ eq_refl eq_refl Hj))).
Defined.

(** An exception of the decoder that is no decode error ends the stage
    in its handler: no result, no log line, and [error] set. *)
Lemma decoder_exception_reaches_handler :
  let w := Worlds.overflowing Examples.full_reply in
  let s := Examples.by_code in
  let s' := Nodes.analyze_subsidy_node w s in
  Nodes.analysis_completed w s = false
  /\ analysis_result s' = None /\ raw_analysis s' = None
  /\ logs s' = logs s
  /\ error s'
     = Some (lit "Error in LLM analysis: Exceeds the limit (4300 digits) for integer string conversion").
Proof. vm_compute. repeat split; reflexivity. Qed.

(* ------------------------------------------------------------------ *)
(** * The registry record merged into the data *)

Lemma dict_get_set_diff (d : obj) (k k' : pystr) (v : json) :
  PyStr.eqb k k' = false ->
  dict_get (dict_set d k v) k' = dict_get d k'.
Proof.
  intros Hkk'. induction d as [|[k0 v0] d IH]; simpl.
  - rewrite Hkk'. reflexivity.
  - destruct (PyStr.eqb k0 k) eqn:Hk; simpl.
    + apply pystr_eqb_spec in Hk. subst k0. rewrite Hkk'. reflexivity.
    + destruct (PyStr.eqb k0 k'); auto.
Qed.

Lemma pystr_eqb_sym (a b : pystr) : PyStr.eqb a b = PyStr.eqb b a.
Proof.
  destruct (PyStr.eqb a b) eqn:Hab; destruct (PyStr.eqb b a) eqn:Hba;
    try reflexivity.
  - apply pystr_eqb_spec in Hab. subst b.
    rewrite pystr_eqb_refl in Hba. discriminate.
  - apply pystr_eqb_spec in Hba. subst b.
    rewrite pystr_eqb_refl in Hab. discriminate.
Qed.

Lemma dict_mem_set (d : obj) (k k' : pystr) (v : json) :
  dict_mem (dict_set d k v) k' = dict_mem d k' || PyStr.eqb k k'.
Proof.
  induction d as [|[k0 v0] d IH]; simpl.
  - rewrite orb_false_r. reflexivity.
  - destruct (PyStr.eqb k0 k) eqn:Hk; simpl.
    + apply pystr_eqb_spec in Hk. subst k0.
      destruct (PyStr.eqb k k'); simpl; [reflexivity|].
      rewrite orb_false_r. reflexivity.
    + rewrite IH. rewrite orb_assoc. reflexivity.
Qed.

Lemma dict_update_cons (d : obj) (kv : pystr * json) (e : obj) :
  dict_update d (kv :: e) = dict_update (dict_set d (fst kv) (snd kv)) e.
Proof. reflexivity. Qed.

Lemma dict_update_get_other (e d : obj) (k : pystr) :
  dict_mem e k = false ->
  dict_get (dict_update d e) k = dict_get d k.
Proof.
  revert d. induction e as [|[k0 v0] e IH]; intros d Hk; [reflexivity|].
  simpl in Hk. apply orb_false_iff in Hk as [Hk0 Hk].
  rewrite dict_update_cons, (IH _ Hk). cbn [fst snd].
  apply dict_get_set_diff. exact Hk0.
Qed.

Lemma dict_update_mem (e d : obj) (k : pystr) :
  dict_mem (dict_update d e) k = dict_mem d k || dict_mem e k.
Proof.
  revert d. induction e as [|[k0 v0] e IH]; intros d.
  - simpl. rewrite orb_false_r. reflexivity.
  - rewrite dict_update_cons, IH, dict_mem_set. cbn [fst snd dict_mem].
    rewrite <- orb_assoc. reflexivity.
Qed.

Lemma dict_mem_false_not_in (e : obj) (k : pystr) :
  ~ In k (map fst e) -> dict_mem e k = false.
Proof.
  induction e as [|[k0 v0] e IH]; intros Hk; [reflexivity|].
  simpl. apply orb_false_iff. split.
  - destruct (PyStr.eqb k0 k) eqn:H0; [|reflexivity].
    apply pystr_eqb_spec in H0. exfalso. apply Hk. left. exact H0.
  - apply IH. intros Hin. apply Hk. right. exact Hin.
Qed.

Lemma dict_update_get_new (e d : obj) (k : pystr) (v : json) :
  NoDup (map fst e) -> In (k, v) e ->
  dict_get (dict_update d e) k = v.
Proof.
  revert d. induction e as [|[k0 v0] e IH]; intros d Hnd Hin; [destruct Hin|].
  inversion Hnd as [|? ? Hk0 Hnd']; subst.
  rewrite dict_update_cons. cbn [fst snd].
  destruct Hin as [Heq|Hin].
  - injection Heq as -> ->.
    rewrite dict_update_get_other by (apply dict_mem_false_not_in; exact Hk0).
    apply dict_get_set_same.
  - apply IH; assumption.
Qed.

(** X1. A 200 answer whose body is a JSON object is merged into the data
    key by key: the node stores the merged dict and logs the fetch without
    touching [error]; every key of the body then reads as the body has it,
    every other key reads as before, and no key of the data is lost. *)
Theorem fetch_merges_registry_record (w : world) (s : SubsidyState)
    (r : api_response) (body : obj) :
  truthy (bdns_code s) = true ->
  registry_get w (Nodes.api_url w (bdns_code s)) = Ok r ->
  api_status r = 200%Z ->
  api_json r = Ok (JObj body) ->
  NoDup (map fst body) ->
  let s' := Nodes.fetch_subsidy_info_node w s in
  s' = add_log (lit "API data fetched successfully")
         (set_subsidy_data (dict_update (subsidy_data s) body) s)
  /\ error s' = error s
  /\ (forall k v, In (k, v) body -> dict_get (subsidy_data s') k = v)
  /\ (forall k, dict_mem body k = false ->
                dict_get (subsidy_data s') k = dict_get (subsidy_data s) k)
  /\ (forall k, dict_mem (subsidy_data s') k
                = dict_mem (subsidy_data s) k || dict_mem body k).
Proof.
  intros Hc Hget Hst Hjson Hnd s'.
  assert (Hs : s' = add_log (lit "API data fetched successfully")
                      (set_subsidy_data
                         (dict_update (subsidy_data s) body) s)).
  { subst s'. unfold Nodes.fetch_subsidy_info_node.
    rewrite Hc, Hget, Hst, Hjson. reflexivity. }
  split; [exact Hs|]. rewrite Hs. cbn [add_log set_subsidy_data
    subsidy_data error].
  split; [reflexivity|].
  split; [intros k v Hin; apply dict_update_get_new; assumption|].
  split; [intros k Hk; apply dict_update_get_other; exact Hk|].
  intros k. apply dict_update_mem.
Qed.

Lemma fetch_merges_registry_record_witness :
  truthy (bdns_code Examples.by_code) = true
  /\ NoDup (map fst Examples.registry_record)
  /\ dict_get
       (subsidy_data
          (Nodes.fetch_subsidy_info_node Examples.registry_up
             Examples.by_code))
       (lit "descripcion")
     = JStr (lit "Ayudas 2024").
Proof.
  assert (Hnd : NoDup (map fst Examples.registry_record)).
  { repeat constructor; simpl; intuition discriminate. }
  split; [reflexivity|]. split; [exact Hnd|].
  destruct (fetch_merges_registry_record Examples.registry_up
              Examples.by_code (body := Examples.registry_record)
              eq_refl eq_refl eq_refl eq_refl Hnd) as (_ & _ & H & _).
  apply H. left. reflexivity.
Defined.

(* ------------------------------------------------------------------ *)
(** * More on the document locator *)

Section LocatorMore.
Variable w : world.

Lemma is_pdf_candidate_value (doc : obj) (b : bool) :
  Nodes.is_pdf_candidate w doc = Ok b -> b = Spec.pdf_candidate w doc.
Proof.
  unfold Nodes.is_pdf_candidate, Spec.pdf_candidate, Spec.type_is_pdf,
    Spec.name_contains_pdf, Nodes.name_has_pdf.
  destruct (eq_str (Nodes.doc_type_of doc) (lit "PDF")); cbn [orb andb].
  - intros H. injection H as <-. reflexivity.
  - destruct (Nodes.doc_name_of doc) as [| | | |n| |]; try discriminate.
    destruct (contains (lower (unicode w) n) (lit "pdf")); cbn [andb];
      intros H; injection H as <-; reflexivity.
Qed.

Lemma is_pdf_candidate_malformed (doc : obj) :
  Spec.well_formed_doc (JObj doc) = false ->
  exists m, Nodes.is_pdf_candidate w doc = Raise m.
Proof.
  unfold Spec.well_formed_doc, Nodes.is_pdf_candidate, Spec.type_is_pdf,
    Nodes.name_has_pdf.
  destruct (eq_str (Nodes.doc_type_of doc) (lit "PDF")); cbn [orb];
    [discriminate|].
  destruct (Nodes.doc_name_of doc) as [| | | |n| |]; try discriminate;
    intros _; eexists; reflexivity.
Qed.

(** One entry that is no descriptor ends the loop with an exception,
    whatever was collected before it. *)
Lemma collect_pdf_urls_malformed (code : json) (docs : list json) :
  forallb Spec.well_formed_doc docs = false ->
  forall acc, exists m, Nodes.collect_pdf_urls w code docs acc = Raise m.
Proof.
  induction docs as [|j docs IH]; intros Hwf acc; [discriminate|].
  cbn [forallb] in Hwf.
  destruct (Spec.well_formed_doc j) eqn:Hj.
  - cbn [andb] in Hwf.
    destruct j as [| | | | | |doc]; try discriminate.
    cbn [Nodes.collect_pdf_urls].
    rewrite (is_pdf_candidate_spec w _ Hj).
    destruct (Spec.pdf_candidate w doc); apply IH; exact Hwf.
  - destruct j as [| | | | | |doc];
      try (eexists; reflexivity).
    cbn [Nodes.collect_pdf_urls].
    destruct (is_pdf_candidate_malformed _ Hj) as [m ->].
    eexists. reflexivity.
Qed.

(** What the loop adds holds a true id and the URL made of the code and
    that id, and is no longer than the collection. *)
Lemma collect_pdf_urls_refs (code : json) (docs : list json) :
  forall acc refs,
    Nodes.collect_pdf_urls w code docs acc = Ok refs ->
    exists new,
      refs = acc ++ new
      /\ Forall (fun r => truthy (id r) = true
                          /\ url r = Nodes.doc_url w code (id r)) new
      /\ (List.length new <= List.length docs)%nat.
Proof.
  induction docs as [|j docs IH]; intros acc refs H.
  - cbn in H. injection H as <-. exists []. rewrite app_nil_r.
    repeat split; constructor.
  - destruct j as [| | | | | |doc]; try discriminate H.
    cbn [Nodes.collect_pdf_urls] in H.
    destruct (Nodes.is_pdf_candidate w doc) as [[|]|m] eqn:Hc;
      try discriminate H.
    + destruct (IH _ _ H) as (new & -> & Hall & Hlen).
      exists (Nodes.make_ref w code doc :: new).
      rewrite <- app_assoc. split; [reflexivity|]. split.
      * constructor; [|exact Hall]. cbn [Nodes.make_ref id url].
        split; [|reflexivity].
        apply is_pdf_candidate_value in Hc.
        unfold Spec.pdf_candidate in Hc. symmetry in Hc.
        apply andb_true_iff in Hc. apply Hc.
      * cbn [List.length]. lia.
    + destruct (IH _ _ H) as (new & -> & Hall & Hlen).
      exists new. repeat split; try assumption.
      cbn [List.length]. lia.
Qed.

Lemma locate_documents_after_find (s : SubsidyState) :
  Nodes.locate_documents w (Nodes.find_pdf_urls_node w s)
  = Nodes.locate_documents w s.
Proof.
  unfold Nodes.find_pdf_urls_node.
  destruct (Nodes.locate_documents w s) eqn:H; rewrite <- H; reflexivity.
Qed.

End LocatorMore.

(** X2. One malformed entry makes the locator fail as a whole: when the
    documents collection holds an entry that is not a dict, or whose
    display name is not a string while its type is not PDF, the stage sets
    [error], leaves [pdf_urls] and [logs] as they were, and the candidates
    before and after that entry are not recorded. *)
Theorem find_pdf_urls_all_or_nothing (w : world) (s : SubsidyState)
    (docs : list json) :
  dict_get (subsidy_data s) (lit "documentos") = JArr docs ->
  forallb Spec.well_formed_doc docs = false ->
  let s' := Nodes.find_pdf_urls_node w s in
  pdf_urls s' = pdf_urls s
  /\ logs s' = logs s
  /\ exists m, error s' = Some (lit "Error finding PDFs: " ++ m).
Proof.
  intros Hdocs Hwf s'. subst s'.
  unfold Nodes.find_pdf_urls_node, Nodes.locate_documents.
  rewrite dict_get_mem by (rewrite Hdocs; discriminate).
  rewrite Hdocs. cbn [andb].
  destruct docs as [|j docs]; [discriminate|].
  cbn [truthy Nodes.iter_documents].
  destruct (collect_pdf_urls_malformed w (bdns_code s) _ Hwf []) as [m ->].
  repeat split. exists m. reflexivity.
Qed.

Lemma find_pdf_urls_all_or_nothing_witness :
  let docs := [JObj Examples.bases_doc; JStr (lit "Anexo.pdf")] in
  let s := Examples.with_documents_list docs in
  dict_get (subsidy_data s) (lit "documentos") = JArr docs
  /\ forallb Spec.well_formed_doc docs = false
  /\ pdf_urls (Nodes.find_pdf_urls_node Worlds.offline s) = [].
Proof.
  intros docs s.
  split; [reflexivity|]. split; [reflexivity|].
  exact (proj1 (find_pdf_urls_all_or_nothing Worlds.offline s
                  (docs := docs) eq_refl eq_refl)).
Defined.

(** X3. The locator is idempotent on everything but the log: run a second
    time on its own output it finds the same references and leaves the
    same error, data and identifier; only [logs] grows. *)
Theorem find_pdf_urls_idempotent (w : world) (s : SubsidyState) :
  let s1 := Nodes.find_pdf_urls_node w s in
  let s2 := Nodes.find_pdf_urls_node w s1 in
  pdf_urls s2 = pdf_urls s1
  /\ error s2 = error s1
  /\ subsidy_data s2 = subsidy_data s1
  /\ bdns_code s2 = bdns_code s1
  /\ pdf_texts s2 = pdf_texts s1
  /\ pdf_count s2 = pdf_count s1.
Proof.
  intros s1 s2.
  assert (H1 : Nodes.locate_documents w s1 = Nodes.locate_documents w s)
    by apply locate_documents_after_find.
  assert (Hs1 : s1 = Nodes.find_pdf_urls_node w s) by reflexivity.
  clearbody s1. subst s2. unfold Nodes.find_pdf_urls_node at 1 2 3 4 5 6.
  rewrite H1. subst s1. unfold Nodes.find_pdf_urls_node.
  destruct (Nodes.locate_documents w s); repeat split; reflexivity.
Qed.

(** X4. When the locator's loop ends without an exception, every
    reference it stores holds an id that counts as true and the URL made
    of the identifier and that id; there are no more references than
    entries, and none when the documents key is absent or empty. *)
Theorem find_pdf_urls_refs_sound (w : world) (s : SubsidyState)
    (refs : list pdf_ref) :
  Nodes.locate_documents w s = Ok refs ->
  pdf_urls (Nodes.find_pdf_urls_node w s) = refs
  /\ Forall (fun r => truthy (id r) = true
                      /\ url r = Nodes.doc_url w (bdns_code s) (id r)) refs
  /\ (forall docs,
        dict_get (subsidy_data s) (lit "documentos") = JArr docs ->
        (List.length refs <= List.length docs)%nat)
  /\ (truthy (dict_get (subsidy_data s) (lit "documentos")) = false ->
      refs = []).
Proof.
  intros Hloc.
  split. { unfold Nodes.find_pdf_urls_node. rewrite Hloc. reflexivity. }
  unfold Nodes.locate_documents in Hloc.
  destruct (dict_mem (subsidy_data s) (lit "documentos")
            && truthy (dict_get (subsidy_data s) (lit "documentos")))
    eqn:Hcond.
  - apply andb_true_iff in Hcond as [_ Ht].
    destruct (Nodes.iter_documents w
                (dict_get (subsidy_data s) (lit "documentos")))
      as [items|m] eqn:Hit; [|discriminate].
    destruct (collect_pdf_urls_refs w _ _ _ Hloc) as (new & -> & Hall & Hlen).
    cbn [app].
    split; [exact Hall|]. split.
    + intros docs Hdocs. rewrite Hdocs in Hit. cbn in Hit.
      injection Hit as <-. exact Hlen.
    + intros Hf. rewrite Hf in Ht. discriminate.
  - injection Hloc as <-.
    split; [constructor|]. split; [intros; cbn; lia|reflexivity].
Qed.

Lemma find_pdf_urls_refs_sound_witness :
  let s := Examples.with_documents_list
             [JObj Examples.zero_id_doc; JObj Examples.bases_doc] in
  Nodes.locate_documents Worlds.offline s
  = Ok [Nodes.make_ref Worlds.offline (bdns_code s) Examples.bases_doc]
  /\ Forall (fun r => truthy (id r) = true
                      /\ url r = Nodes.doc_url Worlds.offline (bdns_code s)
                                   (id r))
       [Nodes.make_ref Worlds.offline (bdns_code s) Examples.bases_doc].
Proof.
  intros s.
  assert (H : Nodes.locate_documents Worlds.offline s
              = Ok [Nodes.make_ref Worlds.offline (bdns_code s)
                      Examples.bases_doc]) by reflexivity.
  split; [exact H|].
  exact (proj1 (proj2 (find_pdf_urls_refs_sound Worlds.offline s H))).
Defined.

(* ------------------------------------------------------------------ *)
(** * More on the document acquirer *)

Lemma flat_map_opt_list_length {A B} (f : A -> option B) (l : list A) :
  (List.length (flat_map (fun a => Spec.opt_list (f a)) l)
   <= List.length l)%nat.
Proof.
  induction l as [|a l IH]; [apply le_n|].
  cbn [flat_map]. rewrite length_app.
  destruct (f a); cbn [Spec.opt_list List.length]; lia.
Qed.

Lemma indexed_from_length {A} (i : nat) (l : list A) :
  List.length (Spec.indexed_from i l) = List.length l.
Proof.
  unfold Spec.indexed_from. rewrite length_combine, length_seq.
  apply Nat.min_id.
Qed.

(** X5. The acquirer never counts more documents than it was given.
    With no reference to fetch, or with the download directory in place,
    [pdf_count] ends between zero and the number of references, and
    [pdf_texts] is no longer than [pdf_urls].  When the directory cannot be
    made, the stage only sets [error]: no reference is fetched and the
    texts and the count stay as they were. *)
Theorem download_count_bounds (w : world) (s : SubsidyState) :
  let s' := Nodes.download_pdfs_node w s in
  ((pdf_urls s = [] \/ exists dir, make_download_dir w = Ok dir) ->
   (0 <= pdf_count s' <= Z.of_nat (List.length (pdf_urls s)))%Z
   /\ (List.length (pdf_texts s') <= List.length (pdf_urls s))%nat
   /\ error s' = error s)
  /\ (forall m,
        pdf_urls s <> [] -> make_download_dir w = Raise m ->
        s' = set_error (lit "Error in download process: " ++ m) s).
Proof.
  intros s'. subst s'. split.
  - intros H. unfold Nodes.download_pdfs_node.
    destruct (pdf_urls s) as [|r refs] eqn:Hrefs.
    + cbn. repeat split; lia.
    + destruct H as [H|[dir Hdir]]; [discriminate|].
      rewrite Hdir, download_loop_spec.
      cbn [add_log set_pdf_count set_pdf_texts pdf_count pdf_texts error
           Nodes.l_texts Nodes.l_successful Nodes.loop_start app Z.add].
      pose proof (flat_map_opt_list_length
                    (fun ir => fst (reference_outcome w dir (bdns_code s) ir))
                    (Spec.indexed_from 0 (r :: refs))) as Hlen.
      rewrite indexed_from_length in Hlen.
      repeat split; try lia; exact Hlen.
  - intros m Hrefs Hdir. unfold Nodes.download_pdfs_node.
    destruct (pdf_urls s); [contradiction|].
    rewrite Hdir. reflexivity.
Qed.

Lemma download_count_bounds_witness :
  (pdf_urls Examples.with_three_refs = []
   \/ exists dir, make_download_dir Examples.three_docs = Ok dir)
  /\ (0 <= pdf_count (Nodes.download_pdfs_node Examples.three_docs
                        Examples.with_three_refs)
      <= 3)%Z.
Proof.
  assert (H : pdf_urls Examples.with_three_refs = []
              \/ exists dir, make_download_dir Examples.three_docs = Ok dir).
  { right. eexists. reflexivity. }
  split; [exact H|].
  exact (proj1 (proj1 (download_count_bounds Examples.three_docs
                         Examples.with_three_refs) H)).
Defined.

(** X6. The file of a document is named after the identifier and the
    sanitized display name only, whatever its position and its id: every
    entry of [pdf_texts] records that path, so two references with the same
    display name that both give an entry were written to the same file. *)
Theorem download_paths_by_name (w : world) (dir : pystr) (code : json)
    (i j : nat) (r1 r2 : pdf_ref) (e1 e2 : pdf_text) :
  fst (Nodes.download_one w dir code i r1) = Some e1 ->
  fst (Nodes.download_one w dir code j r2) = Some e2 ->
  path e1 = saved_path w dir code (filename e1)
  /\ path e2 = saved_path w dir code (filename e2)
  /\ (name r1 = name r2 -> path e1 = path e2).
Proof.
  assert (Hpath : forall k r e,
            fst (Nodes.download_one w dir code k r) = Some e ->
            name r = JStr (filename e)
            /\ path e = saved_path w dir code (filename e)).
  { intros k r e. unfold Nodes.download_one, Nodes.save_and_extract,
      Nodes.extract_entry, saved_path.
    destruct (doc_get w k (url r)) as [resp|m];
      cbn [fst snd]; [|discriminate].
    destruct (Z.eqb (doc_status resp) 200); cbn [fst snd]; [|discriminate].
    destruct (doc_content resp) as [content|m];
      cbn [fst snd]; [|discriminate].
    destruct (Utils.validate_pdf_content content);
      cbn [fst snd]; [|discriminate].
    destruct (name r) as [| | | |n| |]; cbn [fst snd]; try discriminate.
    destruct (write_bytes w _ content) as [u|m];
      cbn [fst snd]; [|discriminate].
    destruct (pdf_page_texts w content) as [pages|m];
      cbn [fst snd]; [|discriminate].
    destruct (strip (unicode w) (Nodes.join_pages pages));
      cbn [fst snd]; [discriminate|].
    intros H. injection H as <-. cbn [filename path].
    split; reflexivity. }
  intros H1 H2.
  destruct (Hpath _ _ _ H1) as [Hn1 Hp1].
  destruct (Hpath _ _ _ H2) as [Hn2 Hp2].
  split; [exact Hp1|]. split; [exact Hp2|].
  intros Heq. rewrite Hp1, Hp2.
  rewrite Hn1, Hn2 in Heq. injection Heq as ->. reflexivity.
Qed.

Lemma download_paths_by_name_witness :
  let w := Examples.three_docs in
  let r := {| url := lit "https://host/convocatoria/845133/document/1";
              name := JStr (lit "Bases.pdf"); id := JInt 1 |} in
  let e := {| filename := lit "Bases.pdf";
              text := Nodes.join_pages
                        [lit "Bases reguladoras"; lit "Articulo 1"];
              path := lit "downloaded_files/845133_Basespdf.pdf" |} in
  fst (Nodes.download_one w (lit "downloaded_files")
         (JStr (lit "845133")) 0 r) = Some e
  /\ path e = saved_path w (lit "downloaded_files") (JStr (lit "845133"))
                (filename e).
Proof.
  intros w r e.
  assert (H : fst (Nodes.download_one w (lit "downloaded_files")
                     (JStr (lit "845133")) 0 r) = Some e)
    by (vm_compute; reflexivity).
  split; [exact H|].
  exact (proj1 (download_paths_by_name w (lit "downloaded_files")
                  (JStr (lit "845133")) 0 0 r r H H)).
Defined.

(* ------------------------------------------------------------------ *)
(** * More on the analysis and the persistence stages *)

Lemma startswith_app (p x : pystr) : startswith (p ++ x) p = true.
Proof.
  induction p as [|c p IH]; [destruct x; reflexivity|].
  cbn [app startswith]. rewrite N.eqb_refl, IH. reflexivity.
Qed.

Lemma endswith_app (a b : pystr) : endswith (a ++ b) b = true.
Proof. unfold endswith. rewrite rev_app_distr. apply startswith_app. Qed.

Lemma combined_pdf_text_nonempty (t : pdf_text) (ts : list pdf_text) :
  Nodes.combined_pdf_text (t :: ts) <> [].
Proof.
  unfold Nodes.combined_pdf_text. cbn [map Nodes.join_sections].
  destruct (map Nodes.pdf_section ts); cbn; discriminate.
Qed.

(** X7. The analysis uses the prompt without documents exactly when
    [pdf_texts] is empty, never because the texts it has are blank; the
    [used_pdf] flag of the metadata says the same. *)
Theorem prompt_variant_by_documents (w : world) (s : SubsidyState)
    (usage : list obj) :
  (Nodes.build_prompt (subsidy_data s) (pdf_texts s)
   = PromptWithoutPdf (subsidy_data s) <-> pdf_texts s = [])
  /\ (pdf_texts s <> [] ->
      Nodes.build_prompt (subsidy_data s) (pdf_texts s)
      = PromptWithPdf (subsidy_data s)
          (Nodes.combined_pdf_text (pdf_texts s)))
  /\ (dict_get (Nodes.make_metadata w s usage) (lit "used_pdf")
      = JBool false <-> pdf_texts s = []).
Proof.
  unfold Nodes.build_prompt.
  destruct (pdf_texts s) as [|t ts] eqn:Ht.
  - cbn. repeat split; try reflexivity; try (intros H; contradiction).
    unfold Nodes.make_metadata. rewrite Ht. reflexivity.
  - pose proof (combined_pdf_text_nonempty t ts) as Hne.
    destruct (Nodes.combined_pdf_text (t :: ts)) as [|c cs] eqn:Hc;
      [contradiction|].
    split; [split; discriminate|].
    split; [reflexivity|].
    unfold Nodes.make_metadata. rewrite Ht. cbn. split; discriminate.
Qed.

(** X8. The persistence stage either leaves the state as it is (nothing
    to save, or no identifier), or appends one log line that names the
    file it wrote, or sets [error] when the directory or the file could
    not be written.  A structured result is saved in preference to a raw
    one, and the file name ends in _JSON_only.json when no document
    counted and in _with_N_PDFs.json otherwise. *)
Theorem save_results_outcomes (w : world) (s : SubsidyState) :
  let s' := Nodes.save_results_node w s in
  ((Nodes.save_data s = None \/ truthy (bdns_code s) = false) -> s' = s)
  /\ (forall d dir,
        Nodes.save_data s = Some d -> truthy (bdns_code s) = true ->
        make_download_dir w = Ok dir ->
        let file := path_join w dir (Nodes.result_filename w s) in
        match write_json w file d with
        | Ok _ => s' = add_log (lit "Results saved to " ++ file) s
        | Raise m => s' = set_error (lit "Error saving results: " ++ m) s
        end)
  /\ (forall d m,
        Nodes.save_data s = Some d -> truthy (bdns_code s) = true ->
        make_download_dir w = Raise m ->
        s' = set_error (lit "Error saving results: " ++ m) s)
  /\ (forall r, analysis_result s = Some r -> Nodes.save_data s = Some (inr r))
  /\ ((pdf_count s <= 0)%Z ->
      endswith (Nodes.result_filename w s) (lit "_JSON_only.json") = true)
  /\ ((0 < pdf_count s)%Z ->
      exists stem,
        Nodes.result_filename w s
        = stem ++ lit "_with_" ++ str_of_Z (pdf_count s)
          ++ lit "_PDFs.json").
Proof.
  intros s'. subst s'.
  split.
  { intros [H|H]; unfold Nodes.save_results_node.
    - rewrite H. reflexivity.
    - destruct (Nodes.save_data s); [|reflexivity].
      rewrite H. reflexivity. }
  split.
  { intros d dir Hd Hc Hdir file. subst file.
    unfold Nodes.save_results_node. rewrite Hd, Hc, Hdir. cbn [negb].
    destruct (write_json w _ d); reflexivity. }
  split.
  { intros d m Hd Hc Hdir.
    unfold Nodes.save_results_node. rewrite Hd, Hc, Hdir. reflexivity. }
  split.
  { intros r Hr. unfold Nodes.save_data. rewrite Hr. reflexivity. }
  split.
  { intros Hle. unfold Nodes.result_filename, Nodes.pdf_indicator.
    replace (0 <? pdf_count s)%Z with false
      by (symmetry; apply Z.ltb_ge; exact Hle).
    change (lit "_JSON_only.json") with (lit "_JSON_only" ++ lit ".json").
    rewrite !app_assoc. rewrite <- (app_assoc _ (lit "_JSON_only")).
    apply endswith_app. }
  intros Hlt. unfold Nodes.result_filename, Nodes.pdf_indicator.
  replace (0 <? pdf_count s)%Z with true
    by (symmetry; apply Z.ltb_lt; exact Hlt).
  exists (lit "LangGraph_Analysis_" ++ py_format w (bdns_code s)
          ++ lit "_" ++ now_stamp w).
  rewrite <- !app_assoc. reflexivity.
Qed.

Lemma prompt_variant_by_documents_witness :
  let e := {| filename := lit "Bases.pdf"; text := lit "  ";
              path := lit "downloaded_files/845133_Basespdf.pdf" |} in
  let s := set_pdf_texts [e] Examples.by_code in
  pdf_texts s <> []
  /\ Nodes.build_prompt (subsidy_data s) (pdf_texts s)
     = PromptWithPdf (subsidy_data s) (Nodes.combined_pdf_text (pdf_texts s)).
Proof.
  intros e s.
  assert (H : pdf_texts s <> []) by discriminate.
  split; [exact H|].
  exact (proj1 (proj2 (prompt_variant_by_documents Worlds.offline s [])) H).
Defined.

Lemma save_results_outcomes_witness :
  let s := set_raw_analysis
             (Some (raw_response_of Examples.plain_reply))
             Examples.by_code in
  Nodes.save_data s = Some (inl (raw_response_of Examples.plain_reply))
  /\ truthy (bdns_code s) = true
  /\ make_download_dir Worlds.offline = Ok (lit "downloaded_files")
  /\ logs (Nodes.save_results_node Worlds.offline s)
     = [lit "Results saved to downloaded_files/LangGraph_Analysis_845133_20250101_120000_JSON_only.json"].
Proof.
  intros s.
  split; [reflexivity|]. split; [reflexivity|]. split; [reflexivity|].
  pose proof (proj1 (proj2 (save_results_outcomes Worlds.offline s))
                (inl (raw_response_of Examples.plain_reply))
                (lit "downloaded_files") eq_refl eq_refl eq_refl) as H.
  cbv zeta in H.
  change (write_json Worlds.offline
            (path_join Worlds.offline (lit "downloaded_files")
               (Nodes.result_filename Worlds.offline s))
            (inl (raw_response_of Examples.plain_reply)))
    with (@Ok unit tt) in H.
  cbv beta iota in H. rewrite H. vm_compute. reflexivity.
Defined.

(* ------------------------------------------------------------------ *)
(** * What the whole pipeline keeps *)

Section PipelineInvariants.
Variable w : world.

(** The stages after the resolver never write the identifier, and no
    stage writes the source URL. *)
Lemma later_stages_keep_identifier (s : SubsidyState) :
  bdns_code (Nodes.fetch_subsidy_info_node w s) = bdns_code s
  /\ bdns_code (Nodes.find_pdf_urls_node w s) = bdns_code s
  /\ bdns_code (Nodes.download_pdfs_node w s) = bdns_code s
  /\ bdns_code (Nodes.analyze_subsidy_node w s) = bdns_code s
  /\ bdns_code (Nodes.save_results_node w s) = bdns_code s.
Proof.
  split; [unfold Nodes.fetch_subsidy_info_node, Nodes.fetch_error;
          repeat break_match; reflexivity|].
  split; [unfold Nodes.find_pdf_urls_node; repeat break_match; reflexivity|].
  split; [unfold Nodes.download_pdfs_node; repeat break_match; reflexivity|].
  split; [unfold Nodes.analyze_subsidy_node, Nodes.attach_metadata,
            Nodes.store_analysis; repeat break_match; reflexivity|].
  unfold Nodes.save_results_node; repeat break_match; reflexivity.
Qed.

Lemma pipeline_identifier (s : SubsidyState) :
  bdns_code (pipeline w s) = bdns_code (Nodes.extract_bdns_node w s).
Proof.
  unfold pipeline.
  destruct (later_stages_keep_identifier
              (Nodes.analyze_subsidy_node w
                 (Nodes.download_pdfs_node w
                    (Nodes.find_pdf_urls_node w
                       (Nodes.fetch_subsidy_info_node w
                          (Nodes.extract_bdns_node w s))))))
    as (_ & _ & _ & _ & ->).
  destruct (later_stages_keep_identifier
              (Nodes.download_pdfs_node w
                 (Nodes.find_pdf_urls_node w
                    (Nodes.fetch_subsidy_info_node w
                       (Nodes.extract_bdns_node w s)))))
    as (_ & _ & _ & -> & _).
  destruct (later_stages_keep_identifier
              (Nodes.find_pdf_urls_node w
                 (Nodes.fetch_subsidy_info_node w
                    (Nodes.extract_bdns_node w s))))
    as (_ & _ & -> & _ & _).
  destruct (later_stages_keep_identifier
              (Nodes.fetch_subsidy_info_node w
                 (Nodes.extract_bdns_node w s)))
    as (_ & -> & _ & _ & _).
  destruct (later_stages_keep_identifier (Nodes.extract_bdns_node w s))
    as (-> & _ & _ & _ & _).
  reflexivity.
Qed.

Lemma no_line (s s' : SubsidyState) :
  logs s' = logs s ->
  exists l, logs s' = logs s ++ l /\ (List.length l <= 1)%nat.
Proof. intros H. exists []. rewrite app_nil_r. split; [exact H|cbn; lia]. Qed.

Lemma one_line (s s' : SubsidyState) (x : pystr) :
  logs s' = logs s ++ [x] ->
  exists l, logs s' = logs s ++ l /\ (List.length l <= 1)%nat.
Proof. intros H. exists [x]. split; [exact H|cbn; lia]. Qed.

Ltac line_or_none :=
  first [ apply no_line; reflexivity | eapply one_line; reflexivity ].

Lemma stages_append_at_most_one :
  appends_at_most_one (Nodes.extract_bdns_node w)
  /\ appends_at_most_one (Nodes.fetch_subsidy_info_node w)
  /\ appends_at_most_one (Nodes.find_pdf_urls_node w)
  /\ appends_at_most_one (Nodes.download_pdfs_node w)
  /\ appends_at_most_one (Nodes.analyze_subsidy_node w)
  /\ appends_at_most_one (Nodes.save_results_node w).
Proof.
  unfold appends_at_most_one.
  split; [intros s; unfold Nodes.extract_bdns_node, Nodes.store_code;
          repeat break_match; line_or_none|].
  split; [intros s; unfold Nodes.fetch_subsidy_info_node, Nodes.fetch_error;
          repeat break_match; line_or_none|].
  split; [intros s; unfold Nodes.find_pdf_urls_node;
          repeat break_match; line_or_none|].
  split; [intros s; unfold Nodes.download_pdfs_node;
          repeat break_match; line_or_none|].
  split; [intros s; unfold Nodes.analyze_subsidy_node,
            Nodes.attach_metadata, Nodes.store_analysis;
          repeat break_match; line_or_none|].
  intros s; unfold Nodes.save_results_node;
    repeat break_match; line_or_none.
Qed.

Lemma appends_compose (f g : SubsidyState -> SubsidyState) (n : nat) :
  (forall s, exists l, logs (f s) = logs s ++ l /\ (List.length l <= n)%nat) ->
  appends_at_most_one g ->
  forall s, exists l,
    logs (g (f s)) = logs s ++ l /\ (List.length l <= S n)%nat.
Proof.
  intros Hf Hg s.
  destruct (Hf s) as (l1 & H1 & Hl1).
  destruct (Hg (f s)) as (l2 & H2 & Hl2).
  exists (l1 ++ l2). rewrite H2, H1, <- app_assoc.
  split; [reflexivity|]. rewrite length_app. lia.
Qed.

Lemma stages_keep_error_sound (s : SubsidyState) :
  error_sound (error s) ->
  error_sound (error (Nodes.extract_bdns_node w s))
  /\ error_sound (error (Nodes.fetch_subsidy_info_node w s))
  /\ error_sound (error (Nodes.find_pdf_urls_node w s))
  /\ error_sound (error (Nodes.download_pdfs_node w s))
  /\ error_sound (error (Nodes.analyze_subsidy_node w s))
  /\ error_sound (error (Nodes.save_results_node w s)).
Proof.
  intros H. unfold error_sound in *.
  split; [unfold Nodes.extract_bdns_node, Nodes.store_code;
          repeat break_match; first [exact H | right; reflexivity]|].
  split; [unfold Nodes.fetch_subsidy_info_node, Nodes.fetch_error;
          repeat break_match; first [exact H | right; reflexivity]|].
  split; [unfold Nodes.find_pdf_urls_node;
          repeat break_match; first [exact H | right; reflexivity]|].
  split; [unfold Nodes.download_pdfs_node;
          repeat break_match; first [exact H | right; reflexivity]|].
  split; [unfold Nodes.analyze_subsidy_node, Nodes.attach_metadata,
            Nodes.store_analysis;
          repeat break_match; first [exact H | right; reflexivity]|].
  unfold Nodes.save_results_node;
    repeat break_match; first [exact H | right; reflexivity].
Qed.

Lemma pipeline_error_sound (s : SubsidyState) :
  error_sound (error s) -> error_sound (error (pipeline w s)).
Proof.
  intros H. unfold pipeline.
  apply stages_keep_error_sound, stages_keep_error_sound,
    stages_keep_error_sound, stages_keep_error_sound,
    stages_keep_error_sound, stages_keep_error_sound, H.
Qed.

End PipelineInvariants.

Lemma pipeline_keeps_source_url (w : world) (s : SubsidyState) :
  source_url (pipeline w s) = source_url s.
Proof.
  assert (H1 : forall t, source_url (Nodes.extract_bdns_node w t)
                         = source_url t).
  { intros t. unfold Nodes.extract_bdns_node, Nodes.store_code.
    repeat break_match; reflexivity. }
  assert (H2 : forall t, source_url (Nodes.fetch_subsidy_info_node w t)
                         = source_url t).
  { intros t. unfold Nodes.fetch_subsidy_info_node, Nodes.fetch_error.
    repeat break_match; reflexivity. }
  assert (H3 : forall t, source_url (Nodes.find_pdf_urls_node w t)
                         = source_url t).
  { intros t. unfold Nodes.find_pdf_urls_node.
    repeat break_match; reflexivity. }
  assert (H4 : forall t, source_url (Nodes.download_pdfs_node w t)
                         = source_url t).
  { intros t. unfold Nodes.download_pdfs_node.
    repeat break_match; reflexivity. }
  assert (H5 : forall t, source_url (Nodes.analyze_subsidy_node w t)
                         = source_url t).
  { intros t. unfold Nodes.analyze_subsidy_node, Nodes.attach_metadata,
      Nodes.store_analysis. repeat break_match; reflexivity. }
  assert (H6 : forall t, source_url (Nodes.save_results_node w t)
                         = source_url t).
  { intros t. unfold Nodes.save_results_node.
    repeat break_match; reflexivity. }
  unfold pipeline. rewrite H6, H5, H4, H3, H2, H1. reflexivity.
Qed.

(** X9. The identifier is fixed by the resolver: the five stages after it
    never write [bdns_code], so the pipeline ends with the identifier the
    resolver left; an identifier that was there at the start is the one at
    the end, and [source_url] is never written at all. *)
Theorem identifier_fixed_after_resolver (w : world) (s : SubsidyState) :
  bdns_code (Nodes.fetch_subsidy_info_node w s) = bdns_code s
  /\ bdns_code (Nodes.find_pdf_urls_node w s) = bdns_code s
  /\ bdns_code (Nodes.download_pdfs_node w s) = bdns_code s
  /\ bdns_code (Nodes.analyze_subsidy_node w s) = bdns_code s
  /\ bdns_code (Nodes.save_results_node w s) = bdns_code s
  /\ bdns_code (pipeline w s) = bdns_code (Nodes.extract_bdns_node w s)
  /\ (truthy (bdns_code s) = true -> bdns_code (pipeline w s) = bdns_code s)
  /\ source_url (pipeline w s) = source_url s.
Proof.
  destruct (later_stages_keep_identifier w s) as (H1 & H2 & H3 & H4 & H5).
  repeat (split; [assumption|]).
  split; [apply pipeline_identifier|].
  split; [|apply pipeline_keeps_source_url].
  intros Hc. rewrite pipeline_identifier.
  unfold Nodes.extract_bdns_node. rewrite Hc. cbn [negb andb].
  rewrite Hc. cbn [negb]. rewrite Hc. reflexivity.
Qed.

Lemma identifier_fixed_after_resolver_witness :
  truthy (bdns_code Examples.by_code) = true
  /\ bdns_code (pipeline Examples.registry_up Examples.by_code)
     = JStr (lit "845133").
Proof.
  split; [reflexivity|].
  exact (proj1 (proj2 (proj2 (proj2 (proj2 (proj2 (proj2
           (identifier_fixed_after_resolver Examples.registry_up
              Examples.by_code))))))) eq_refl).
Defined.

(** X10. [logs] is append-only: every stage keeps the lines it finds and
    adds at most one, so a run adds at most six lines to the log it
    started with, and a run started by an entry point reports at most six
    lines. *)
Theorem logs_append_only (w : world) (s : SubsidyState) :
  (forall f,
     In f [Nodes.extract_bdns_node w; Nodes.fetch_subsidy_info_node w;
           Nodes.find_pdf_urls_node w; Nodes.download_pdfs_node w;
           Nodes.analyze_subsidy_node w; Nodes.save_results_node w] ->
     exists l, logs (f s) = logs s ++ l /\ (List.length l <= 1)%nat)
  /\ (exists l,
        logs (pipeline w s) = logs s ++ l /\ (List.length l <= 6)%nat)
  /\ (logs s = [] ->
      (List.length (r_logs (fst (run_workflow w s))) <= 6)%nat).
Proof.
  destruct (stages_append_at_most_one w) as (A1 & A2 & A3 & A4 & A5 & A6).
  assert (Hp : exists l,
             logs (pipeline w s) = logs s ++ l /\ (List.length l <= 6)%nat).
  { unfold pipeline.
    apply (appends_compose
             (fun s =>Nodes.analyze_subsidy_node w
                      (Nodes.download_pdfs_node w
                         (Nodes.find_pdf_urls_node w
                            (Nodes.fetch_subsidy_info_node w
                               (Nodes.extract_bdns_node w s)))))
             (g := Nodes.save_results_node w) (n := 5)); [|exact A6].
    apply (appends_compose
             (fun s =>Nodes.download_pdfs_node w
                      (Nodes.find_pdf_urls_node w
                         (Nodes.fetch_subsidy_info_node w
                            (Nodes.extract_bdns_node w s))))
             (g := Nodes.analyze_subsidy_node w) (n := 4)); [|exact A5].
    apply (appends_compose
             (fun s =>Nodes.find_pdf_urls_node w
                      (Nodes.fetch_subsidy_info_node w
                         (Nodes.extract_bdns_node w s)))
             (g := Nodes.download_pdfs_node w) (n := 3)); [|exact A4].
    apply (appends_compose
             (fun s =>Nodes.fetch_subsidy_info_node w
                      (Nodes.extract_bdns_node w s))
             (g := Nodes.find_pdf_urls_node w) (n := 2)); [|exact A3].
    apply (appends_compose
             (Nodes.extract_bdns_node w)
             (g := Nodes.fetch_subsidy_info_node w) (n := 1));
      [exact A1|exact A2]. }
  split.
  { intros f Hf. cbn [In] in Hf.
    destruct Hf as [<-|[<-|[<-|[<-|[<-|[<-|[]]]]]]]; auto. }
  split; [exact Hp|].
  intros Hs. unfold run_workflow. rewrite invoke_trace_build_workflow.
  cbn [fst r_logs set_processing_time logs].
  destruct Hp as (l & -> & Hl). rewrite Hs. exact Hl.
Qed.

Lemma logs_append_only_witness :
  logs Examples.by_code = []
  /\ (List.length
        (r_logs (fst (run_workflow Examples.registry_up Examples.by_code)))
      <= 6)%nat.
Proof.
  split; [reflexivity|].
  exact (proj2 (proj2 (logs_append_only Examples.registry_up
                         Examples.by_code)) eq_refl).
Defined.

Lemma error_sound_success (e : option pystr) :
  error_sound e -> (negb (error_set e) = true <-> e = None).
Proof.
  intros [->|H].
  - split; reflexivity.
  - rewrite H. split; [discriminate|]. intros ->. discriminate.
Qed.

(** X11. A run reports success exactly when it reports no error: no stage
    stores an empty message, so for each of the three entry points
    [success] is true if and only if [error] is [None]. *)
Theorem success_iff_no_error (w : world) :
  (forall code source data,
     let r := fst (run_workflow w (initial_state code source data)) in
     success r = true <-> r_error r = None)
  /\ (forall code,
        success (analyze_from_bdns w code) = true
        <-> r_error (analyze_from_bdns w code) = None)
  /\ (forall data,
        success (analyze_from_data w data) = true
        <-> r_error (analyze_from_data w data) = None)
  /\ (forall u,
        success (analyze_from_url w u) = true
        <-> r_error (analyze_from_url w u) = None).
Proof.
  assert (Hrun : forall code source data,
            let r := fst (run_workflow w (initial_state code source data)) in
            success r = true <-> r_error r = None).
  { intros code source data r. subst r.
    destruct (run_workflow_result w (initial_state code source data))
      as (-> & -> & _).
    apply error_sound_success. apply pipeline_error_sound.
    left. reflexivity. }
  split; [exact Hrun|].
  split; [intros code; apply Hrun|].
  split.
  - intros data. unfold analyze_from_data, analyze_from_data_trace.
    destruct (negb (truthy (Nodes.data_code data))
              && negb (truthy (dict_get data (lit "source_url")))).
    + cbn. split; discriminate.
    + apply Hrun.
  - intros u. unfold analyze_from_url, analyze_from_url_trace.
    destruct (Utils.extract_bdns_from_url (unicode w) u).
    + apply Hrun.
    + cbn. split; discriminate.
Qed.

(* ------------------------------------------------------------------ *)
(** * The result shape *)

Lemma all_str_map (l : list pystr) : all_str (map JStr l) = Some l.
Proof.
  induction l as [|x l IH]; [reflexivity|].
  cbn [map all_str as_str Schemas.bind]. rewrite IH. reflexivity.
Qed.

Lemma all_str_values_dump (d : list (pystr * pystr)) :
  all_str_values (Dump.dump_str_dict d) = Some d.
Proof.
  induction d as [|[k v] d IH]; [reflexivity|].
  cbn [Dump.dump_str_dict map all_str_values as_str Schemas.bind fst snd].
  fold (Dump.dump_str_dict d). rewrite IH. reflexivity.
Qed.

(** X12. A structured result survives the dump: validating the plain
    mapping that [model_dump] gives for a result yields that very result,
    field for field, metadata included. *)
Theorem model_dump_round_trip (r : SubsidyAnalysisResult) :
  validate_result (Dump.model_dump r) = Some r.
Proof.
  destruct r as [[a1 a2 a3] [b1 b2] [c1 c2 c3] [d1 d2 d3 d4] m].
  unfold validate_result, req_model, validate_identification,
    validate_details, validate_economic, validate_deadlines,
    validate_metadata, req_str, opt_str, req_str_list, opt_str_dict,
    Dump.model_dump, Dump.dump_identification, Dump.dump_details,
    Dump.dump_economic, Dump.dump_deadlines.
  cbn -[all_str all_str_values Dump.dump_str_dict].
  rewrite all_str_map.
  cbn -[all_str all_str_values Dump.dump_str_dict].
  destruct c2 as [dist|].
  - rewrite all_str_values_dump.
    destruct d4; reflexivity.
  - destruct d4; reflexivity.
Qed.

(** X13. Nothing validates without its four sections: when a mapping is
    accepted as a structured result, each of the four section names is a
    key of it whose value is a dict. *)
Theorem validate_result_needs_sections (d : obj) (r : SubsidyAnalysisResult) :
  validate_result d = Some r ->
  (exists o, dict_find d (lit "identificacion") = Some (JObj o)
             /\ validate_identification o = Some (identificacion r))
  /\ (exists o, dict_find d (lit "detalles") = Some (JObj o)
                /\ validate_details o = Some (detalles r))
  /\ (exists o, dict_find d (lit "condiciones_economicas") = Some (JObj o)
                /\ validate_economic o = Some (condiciones_economicas r))
  /\ (exists o, dict_find d (lit "plazos_procedimiento") = Some (JObj o)
                /\ validate_deadlines o = Some (plazos_procedimiento r)).
Proof.
  unfold validate_result, req_model, Schemas.bind, as_dict.
  destruct (dict_find d (lit "identificacion")) as [[| | | | | |o1]|];
    try discriminate.
  destruct (validate_identification o1) as [a|] eqn:H1; [|discriminate].
  destruct (dict_find d (lit "detalles")) as [[| | | | | |o2]|];
    try discriminate.
  destruct (validate_details o2) as [b|] eqn:H2; [|discriminate].
  destruct (dict_find d (lit "condiciones_economicas"))
    as [[| | | | | |o3]|]; try discriminate.
  destruct (validate_economic o3) as [c|] eqn:H3; [|discriminate].
  destruct (dict_find d (lit "plazos_procedimiento"))
    as [[| | | | | |o4]|]; try discriminate.
  destruct (validate_deadlines o4) as [e|] eqn:H4; [|discriminate].
  destruct (validate_metadata d) as [m|]; [|discriminate].
  intros H. injection H as <-. cbn.
  repeat split; eexists; split; try reflexivity; assumption.
Qed.

Lemma validate_result_needs_sections_witness :
  exists r,
    validate_result Examples.full_result_obj = Some r
    /\ exists i,
         dict_find Examples.full_result_obj (lit "identificacion")
         = Some (JObj i).
Proof.
  destruct (validate_result Examples.full_result_obj) as [r|] eqn:Hv;
    [|vm_compute in Hv; discriminate Hv].
  exists r. split; [reflexivity|].
  destruct (validate_result_needs_sections _ Hv) as [[i [Hi _]] _].
  exists i. exact Hi.
Defined.

(** X14. Validation reads the five declared fields only: two mappings
    that agree on them are accepted or refused alike, with the same
    result, so any other key of the model's answer is ignored. *)
Theorem validate_result_ignores_other_keys (d d' : obj) :
  (forall k, In k result_fields -> dict_find d' k = dict_find d k) ->
  validate_result d' = validate_result d.
Proof.
  intros H. unfold validate_result, req_model, validate_metadata.
  rewrite !H by (cbn; auto 10). reflexivity.
Qed.

Lemma dict_find_app_other (d : obj) (k k' : pystr) (v : json) :
  PyStr.eqb k k' = false ->
  dict_find (d ++ [(k, v)]) k' = dict_find d k'.
Proof.
  intros Hk. induction d as [|[k0 v0] d IH]; cbn.
  - rewrite Hk. reflexivity.
  - destruct (PyStr.eqb k0 k'); [reflexivity|exact IH].
Qed.

Lemma validate_result_ignores_other_keys_witness :
  let d := Examples.full_result_obj in
  let d' := d ++ [(lit "comentario", JStr (lit "sin revisar"))] in
  (forall k, In k result_fields -> dict_find d' k = dict_find d k)
  /\ validate_result d' = validate_result d.
Proof.
  intros d d'.
  assert (H : forall k, In k result_fields ->
                        dict_find d' k = dict_find d k).
  { intros k Hk. apply dict_find_app_other.
    cbn in Hk. intuition (subst; reflexivity). }
  split; [exact H|].
  exact (validate_result_ignores_other_keys d d' H).
Defined.

Lemma dict_get_not_mem (d : obj) (k : pystr) :
  dict_mem d k = false -> dict_get d k = JNull.
Proof.
  induction d as [|[k0 v0] d IH]; [reflexivity|].
  cbn. destruct (PyStr.eqb k0 k); [discriminate|exact IH].
Qed.

(** X15. [validate_subsidy_data] is weaker than the guard of the data
    entry point: a data bag it refuses is turned down by
    [analyze_from_data] before any stage runs, but a data bag it accepts
    may still be turned down, as one whose source URL is null. *)
Theorem validate_subsidy_data_and_entry_guard (w : world) :
  (forall data,
     Helpers.validate_subsidy_data data = false ->
     snd (analyze_from_data_trace w data) = []
     /\ success (analyze_from_data w data) = false)
  /\ (forall data,
        snd (analyze_from_data_trace w data) = stage_names ->
        Helpers.validate_subsidy_data data = true)
  /\ Helpers.validate_subsidy_data [(lit "source_url", JNull)] = true
  /\ snd (analyze_from_data_trace w [(lit "source_url", JNull)]) = [].
Proof.
  assert (H : forall data,
            Helpers.validate_subsidy_data data = false ->
            snd (analyze_from_data_trace w data) = []
            /\ success (analyze_from_data w data) = false).
  { intros data Hv. unfold Helpers.validate_subsidy_data in Hv.
    cbn [existsb Helpers.required_fields] in Hv.
    apply orb_false_iff in Hv as [H1 Hv].
    apply orb_false_iff in Hv as [H2 Hv].
    apply orb_false_iff in Hv as [H3 _].
    unfold analyze_from_data, analyze_from_data_trace, Nodes.data_code,
      py_or.
    rewrite (dict_get_not_mem _ _ H1), (dict_get_not_mem _ _ H2),
      (dict_get_not_mem _ _ H3).
    cbn. split; reflexivity. }
  split; [exact H|].
  split.
  - intros data Ht.
    destruct (Helpers.validate_subsidy_data data) eqn:Hv; [reflexivity|].
    destruct (H data Hv) as [Hn _]. rewrite Hn in Ht. discriminate.
  - split; reflexivity.
Qed.

Lemma validate_subsidy_data_and_entry_guard_witness :
  Helpers.validate_subsidy_data [(lit "title", JStr (lit "Ayudas"))] = false
  /\ snd (analyze_from_data_trace Worlds.offline
            [(lit "title", JStr (lit "Ayudas"))]) = [].
Proof.
  split; [reflexivity|].
  exact (proj1 (proj1 (validate_subsidy_data_and_entry_guard Worlds.offline)
                  [(lit "title", JStr (lit "Ayudas"))] eq_refl)).
Defined.

(* ------------------------------------------------------------------ *)
(** * More on the helpers of utils.py *)

(** X16. [extract_bdns_from_url] gives a code exactly for a URL that ends
    in a slash and one or more digits, or in these and one line feed; the
    code is that run of digits, and no part of the URL before the last
    slash matters. *)
Theorem extract_bdns_from_url_iff (U : unicode_db) (url d : pystr) :
  Utils.extract_bdns_from_url U url = Some d
  <-> d <> [] /\ forallb (is_digit U) d = true
      /\ exists p, url = p ++ c_slash :: d
                   \/ url = p ++ c_slash :: d ++ [c_newline].
Proof.
  split.
  - intros H. destruct (extract_bdns_inv U _ H) as (Hd & Hdig & p & r & -> & Hr).
    split; [exact Hd|]. split; [exact Hdig|]. exists p.
    apply at_end_cases in Hr as [->| ->]; [left|right]; try reflexivity.
    rewrite app_nil_r. reflexivity.
  - intros (Hd & Hdig & p & [->| ->]).
    + rewrite <- (app_nil_r d) at 1.
      apply extract_bdns_tail; auto.
    + apply extract_bdns_tail; auto.
Qed.

Lemma extract_bdns_from_url_iff_witness :
  lit "845133" <> []
  /\ forallb (is_digit latin1_db) (lit "845133") = true
  /\ Utils.extract_bdns_from_url latin1_db
       (lit "https://host/GE/es/convocatorias" ++ c_slash :: lit "845133")
     = Some (lit "845133").
Proof.
  split; [discriminate|]. split; [reflexivity|].
  apply extract_bdns_from_url_iff.
  split; [discriminate|]. split; [reflexivity|].
  exists (lit "https://host/GE/es/convocatorias"). left. reflexivity.
Defined.

Lemma filter_all_true {A} (f : A -> bool) (l : list A) :
  Forall (fun a => f a = true) l -> filter f l = l.
Proof.
  induction 1 as [|a l Ha Hl IH]; [reflexivity|].
  cbn. rewrite Ha, IH. reflexivity.
Qed.

(** X17. The sanitizer is idempotent: a name it has cleaned is left as it
    is when cleaned again, so cleaning cannot be overdone. *)
Theorem clean_filename_idempotent (U : unicode_db) (s : pystr) :
  Utils.clean_filename U (Utils.clean_filename U s)
  = Utils.clean_filename U s.
Proof.
  set (t := Utils.clean_filename U s).
  assert (Hw : Forall (fun c => is_word U c = true) t).
  { apply Forall_firstn. apply collapse_from_word.
    apply remove_special_kept. }
  assert (Hs : Forall (fun c => Utils.is_sep U c = false) t).
  { apply Forall_firstn. apply collapse_from_no_sep. }
  assert (Hl : (List.length t <= 50)%nat).
  { unfold t, Utils.clean_filename, Utils.clean_filename_n.
    apply firstn_le_length. }
  unfold Utils.clean_filename, Utils.clean_filename_n.
  fold (Utils.clean_filename_n U s 50). fold (Utils.clean_filename U s).
  fold t.
  assert (Hf : Utils.remove_special U t = t).
  { unfold Utils.remove_special. apply filter_all_true.
    eapply Forall_impl; [|exact Hw].
    intros c Hc. unfold Utils.keep_char. rewrite Hc. reflexivity. }
  rewrite Hf. unfold Utils.collapse_seps.
  rewrite collapse_from_free by exact Hs.
  apply firstn_all2. exact Hl.
Qed.

Lemma from_first_lbrace_skip (pre x : pystr) :
  ~ In c_lbrace pre ->
  Utils.from_first_lbrace (pre ++ x) = Utils.from_first_lbrace x.
Proof.
  induction pre as [|c pre IH]; intros Hpre; [reflexivity|].
  cbn [app Utils.from_first_lbrace].
  destruct (N.eqb_spec c c_lbrace) as [->|Hne].
  - exfalso. apply Hpre. left. reflexivity.
  - apply IH. intros Hin. apply Hpre. right. exact Hin.
Qed.

Lemma upto_last_rbrace_skip (t post : pystr) :
  ~ In c_rbrace post ->
  Utils.upto_last_rbrace (t ++ post) = Utils.upto_last_rbrace t.
Proof.
  intros Hpost. induction t as [|c t IH].
  - cbn. apply upto_last_rbrace_none. exact Hpost.
  - cbn [app Utils.upto_last_rbrace]. rewrite IH. reflexivity.
Qed.

Lemma from_first_lbrace_suffix (s t : pystr) :
  Utils.from_first_lbrace s = Some t -> exists pre, s = pre ++ t.
Proof.
  intros H. destruct (from_first_lbrace_inv _ H) as (pre & t' & -> & -> & _).
  exists pre. reflexivity.
Qed.

Lemma from_first_lbrace_app_some (text post t : pystr) :
  Utils.from_first_lbrace text = Some t ->
  Utils.from_first_lbrace (text ++ post) = Some (t ++ post).
Proof.
  induction text as [|c text IH]; [discriminate|].
  cbn [app Utils.from_first_lbrace].
  destruct (N.eqb c c_lbrace).
  - intros H. injection H as <-. reflexivity.
  - exact IH.
Qed.

Lemma from_first_lbrace_app_none (text post : pystr) :
  Utils.from_first_lbrace text = None ->
  Utils.from_first_lbrace (text ++ post) = Utils.from_first_lbrace post.
Proof.
  induction text as [|c text IH]; [reflexivity|].
  cbn [app Utils.from_first_lbrace].
  destruct (N.eqb c c_lbrace); [discriminate|exact IH].
Qed.

(** X18. Prose around the JSON does not change what is taken from a
    reply: text put before it that holds no opening brace, and text put
    after it that holds no closing brace, leave the span, and so the
    decoded object, as they are. *)
Theorem json_span_ignores_prose (loads : pystr -> outcome (option obj))
    (pre text post : pystr) :
  ~ In c_lbrace pre -> ~ In c_rbrace post ->
  Utils.json_span (pre ++ text ++ post) = Utils.json_span text
  /\ Utils.extract_json_from_text loads (pre ++ text ++ post)
     = Utils.extract_json_from_text loads text.
Proof.
  intros Hpre Hpost.
  assert (H : Utils.json_span (pre ++ text ++ post) = Utils.json_span text).
  { unfold Utils.json_span. rewrite (from_first_lbrace_skip _ _ Hpre).
    destruct (Utils.from_first_lbrace text) as [t|] eqn:Ht.
    - rewrite (from_first_lbrace_app_some _ post Ht).
      apply upto_last_rbrace_skip. exact Hpost.
    - rewrite (from_first_lbrace_app_none _ post Ht).
      destruct (Utils.from_first_lbrace post) as [t'|] eqn:Hp;
        [|reflexivity].
      apply upto_last_rbrace_none.
      destruct (from_first_lbrace_suffix _ Hp) as [q ->].
      intros Hin. apply Hpost. apply in_or_app. right. exact Hin. }
  split; [exact H|].
  unfold Utils.extract_json_from_text. rewrite H. reflexivity.
Qed.

Lemma json_span_ignores_prose_witness :
  ~ In c_lbrace (lit "here is the result: ")
  /\ ~ In c_rbrace (lit " thanks")
  /\ Utils.json_span Examples.full_reply
     = Utils.json_span Examples.full_result_json.
Proof.
  assert (H1 : ~ In c_lbrace (lit "here is the result: ")).
  { cbn. intuition discriminate. }
  assert (H2 : ~ In c_rbrace (lit " thanks")).
  { cbn. intuition discriminate. }
  split; [exact H1|]. split; [exact H2|].
  exact (proj1 (@json_span_ignores_prose (json_loads Worlds.offline) _
                  Examples.full_result_json _ H1 H2)).
Defined.

(** X19. The summary shows at most three documents and at most
    [max_chars] characters of each text, followed by three dots when the
    text was cut; a text within the limit is shown whole.  A fourth part
    counts the documents left out exactly when there are more than three,
    and what those documents hold does not change the summary.  The parts
    stand in the order of the documents, each made of the file name in
    brackets, or Unknown, and the preview of the text, with an empty line
    between two parts; the fourth part gives the number of documents
    after the third. *)
Theorem summarize_pdf_content_bounds (pdfs : list Helpers.str_dict)
    (max_chars : Z) :
  let part := fun pdf : Helpers.str_dict =>
    lit "[" ++ Helpers.get_default pdf (lit "filename") (lit "Unknown")
    ++ lit "]: "
    ++ Helpers.preview (Helpers.get_default pdf (lit "text") []) max_chars in
  let gap := [c_newline; c_newline] in
  List.length (Helpers.summary_parts pdfs max_chars)
  = (Nat.min 3 (List.length pdfs)
     + (if (3 <? List.length pdfs)%nat then 1 else 0))%nat
  /\ (List.length (Helpers.summary_parts pdfs max_chars) <= 4)%nat
  /\ (forall text,
        (0 <= max_chars)%Z ->
        (List.length (Helpers.preview text max_chars)
         <= Nat.max (List.length text) (Z.to_nat max_chars + 3))%nat
        /\ ((Z.of_nat (List.length text) <= max_chars)%Z ->
            Helpers.preview text max_chars = text)
        /\ ((max_chars < Z.of_nat (List.length text))%Z ->
            Helpers.preview text max_chars
            = firstn (Z.to_nat max_chars) text ++ lit "..."
            /\ List.length (Helpers.preview text max_chars)
               = (Z.to_nat max_chars + 3)%nat))
  /\ (forall a b c rest rest',
        List.length rest = List.length rest' ->
        Helpers.summarize_pdf_content_n (a :: b :: c :: rest) max_chars
        = Helpers.summarize_pdf_content_n (a :: b :: c :: rest') max_chars)
  /\ Helpers.summarize_pdf_content_n [] max_chars
     = lit "No PDF content available"
  /\ (forall a, Helpers.summarize_pdf_content_n [a] max_chars = part a)
  /\ (forall a b,
        Helpers.summarize_pdf_content_n [a; b] max_chars
        = part a ++ gap ++ part b)
  /\ (forall a b c,
        Helpers.summarize_pdf_content_n [a; b; c] max_chars
        = part a ++ gap ++ part b ++ gap ++ part c)
  /\ (forall a b c d rest,
        Helpers.summarize_pdf_content_n (a :: b :: c :: d :: rest) max_chars
        = part a ++ gap ++ part b ++ gap ++ part c ++ gap
          ++ lit "... and "
          ++ str_of_Z (Z.of_nat (List.length (d :: rest)))
          ++ lit " more PDFs").
Proof.
  intros part gap.
  assert (Hlen : List.length (Helpers.summary_parts pdfs max_chars)
                 = (Nat.min 3 (List.length pdfs)
                    + (if (3 <? List.length pdfs)%nat then 1 else 0))%nat).
  { unfold Helpers.summary_parts.
    rewrite length_app, length_map, length_firstn.
    destruct (3 <? List.length pdfs)%nat; reflexivity. }
  split; [exact Hlen|].
  split.
  { rewrite Hlen. destruct (3 <? List.length pdfs)%nat eqn:H; lia. }
  split.
  { intros text Hm. unfold Helpers.preview, Helpers.slice_to.
    replace (0 <=? max_chars)%Z with true
      by (symmetry; apply Z.leb_le; exact Hm).
    destruct (max_chars <? Z.of_nat (List.length text))%Z eqn:Hlt.
    - apply Z.ltb_lt in Hlt.
      assert (Hl : List.length (firstn (Z.to_nat max_chars) text
                                ++ lit "...")
                   = (Z.to_nat max_chars + 3)%nat).
      { rewrite length_app, length_firstn. cbn [List.length lit map
          list_ascii_of_string]. lia. }
      split; [rewrite Hl; lia|]. split; [lia|].
      intros _. split; [reflexivity|exact Hl].
    - apply Z.ltb_ge in Hlt.
      split; [lia|]. split; [reflexivity|lia]. }
  split.
  { intros a b c rest rest' Hr.
    unfold Helpers.summarize_pdf_content_n, Helpers.summary_parts.
    cbn [firstn List.length]. rewrite Hr. reflexivity. }
  split; [reflexivity|].
  split; [intros a; reflexivity|].
  split; [intros a b; reflexivity|].
  split; [intros a b c; reflexivity|].
  intros a b c d rest.
  unfold Helpers.summarize_pdf_content_n, Helpers.summary_parts,
    Helpers.more_line.
  replace (Z.of_nat (List.length (a :: b :: c :: d :: rest)) - 3)%Z
    with (Z.of_nat (List.length (d :: rest)))
    by (cbn [List.length]; lia).
  reflexivity.
Qed.

Lemma summarize_pdf_content_bounds_witness :
  (0 <= 5)%Z
  /\ Helpers.preview (lit "Bases reguladoras") 5 = lit "Bases..."
  /\ Helpers.summarize_pdf_content_n
       [ [(lit "filename", lit "Bases.pdf");
          (lit "text", lit "Bases reguladoras")];
         [(lit "text", lit "Anexo")] ] 5
     = lit "[Bases.pdf]: Bases..." ++ [c_newline; c_newline]
       ++ lit "[Unknown]: Anexo".
Proof.
  split; [lia|].
  split.
  - destruct (summarize_pdf_content_bounds [] 5) as (_ & _ & H & _).
    destruct (H (lit "Bases reguladoras") ltac:(lia)) as (_ & _ & H3).
    destruct H3 as [H3 _]; [vm_compute; reflexivity|].
    rewrite H3. reflexivity.
  - vm_compute. reflexivity.
Defined.

Lemma join_lines_cons (h : pystr) (l : list pystr) :
  Helpers.join_lines (h :: l) = h ++ flat_map (fun x => c_newline :: x) l.
Proof.
  revert h. induction l as [|x l IH]; intros h.
  - cbn. rewrite app_nil_r. reflexivity.
  - change (Helpers.join_lines (h :: x :: l))
      with (h ++ c_newline :: Helpers.join_lines (x :: l)).
    rewrite IH. reflexivity.
Qed.

Lemma count_newline_free (s : pystr) :
  ~ In c_newline s -> count_occ N.eq_dec s c_newline = 0%nat.
Proof. intros H. apply count_occ_not_In. exact H. Qed.

(** X20. The territorial distribution is written one line per territory
    under a header line: when no territory and no amount holds a line
    feed, the text for a distribution that is not empty has exactly as
    many line feeds as territories.  For a missing or empty distribution
    the text is the fixed notice; in no case is it empty. *)
Theorem format_territorial_distribution_lines (d : Helpers.str_dict) :
  Helpers.format_territorial_distribution None = Helpers.no_distribution
  /\ Helpers.format_territorial_distribution (Some [])
     = Helpers.no_distribution
  /\ Helpers.format_territorial_distribution (Some d) <> []
  /\ (d <> [] ->
      Helpers.format_territorial_distribution (Some d)
      = Helpers.distribution_header
        ++ flat_map (fun kv => c_newline :: Helpers.distribution_line kv) d)
  /\ (d <> [] ->
      (forall kv, In kv d ->
                  ~ In c_newline (fst kv) /\ ~ In c_newline (snd kv)) ->
      count_occ N.eq_dec (Helpers.format_territorial_distribution (Some d))
        c_newline
      = List.length d).
Proof.
  assert (Hform : d <> [] ->
      Helpers.format_territorial_distribution (Some d)
      = Helpers.distribution_header
        ++ flat_map (fun kv => c_newline :: Helpers.distribution_line kv) d).
  { intros Hd. destruct d as [|kv d]; [contradiction|].
    unfold Helpers.format_territorial_distribution.
    rewrite join_lines_cons. rewrite flat_map_concat_map, map_map,
      <- flat_map_concat_map. reflexivity. }
  split; [reflexivity|]. split; [reflexivity|].
  split.
  { destruct d as [|kv d]; [discriminate|].
    rewrite Hform by discriminate. discriminate. }
  split; [exact Hform|].
  intros Hd Hfree. rewrite (Hform Hd). rewrite count_occ_app.
  replace (count_occ N.eq_dec Helpers.distribution_header c_newline)
    with 0%nat by reflexivity.
  cbn [Nat.add]. clear Hform Hd.
  induction d as [|kv d IH]; [reflexivity|].
  cbn [flat_map List.length]. rewrite count_occ_app, IH.
  - destruct (Hfree kv (or_introl eq_refl)) as [Hk Hv].
    unfold Helpers.distribution_line.
    change (c_newline :: lit "  - " ++ fst kv ++ lit ": " ++ snd kv)
      with ((c_newline :: lit "  - ") ++ fst kv ++ lit ": " ++ snd kv).
    rewrite !count_occ_app.
    rewrite (count_newline_free _ Hk), (count_newline_free _ Hv).
    reflexivity.
  - intros kv' Hin. apply Hfree. right. exact Hin.
Qed.

Lemma format_territorial_distribution_lines_witness :
  let d := [(lit "Madrid", lit "100000 EUR");
            (lit "Sevilla", lit "50000 EUR")] in
  d <> []
  /\ (forall kv, In kv d ->
                 ~ In c_newline (fst kv) /\ ~ In c_newline (snd kv))
  /\ count_occ N.eq_dec (Helpers.format_territorial_distribution (Some d))
       c_newline = 2%nat.
Proof.
  intros d.
  assert (H1 : d <> []) by discriminate.
  assert (H2 : forall kv, In kv d ->
                 ~ In c_newline (fst kv) /\ ~ In c_newline (snd kv)).
  { intros kv [<-|[<-|[]]]; split; cbn; intuition discriminate. }
  split; [exact H1|]. split; [exact H2|].
  exact (proj2 (proj2 (proj2 (proj2
           (format_territorial_distribution_lines d)))) H1 H2).
Defined.

(* ------------------------------------------------------------------ *)
(** * Merging two analyses *)

(** One turn of the loop of [merge_analysis_results]. *)
Lemma merge_items_cons (key : pystr) (value : json) (rest merged : obj) :
  Helpers.merge_items (JObj ((key, value) :: rest)) merged
  = match dict_find merged key with
    | None | Some JNull =>
        Helpers.merge_items (JObj rest) (dict_set merged key value)
    | Some current =>
        if eq_str current (lit "No especificado")
        then Helpers.merge_items (JObj rest) (dict_set merged key value)
        else
          match value, current with
          | JObj _, JObj inner =>
              match Helpers.merge_items value inner with
              | Some r =>
                  Helpers.merge_items (JObj rest)
                    (dict_set merged key (JObj r))
              | None => None
              end
          | JArr l, JArr m =>
              match Helpers.fromkeys [] (m ++ l) with
              | Some r =>
                  Helpers.merge_items (JObj rest)
                    (dict_set merged key (JArr r))
              | None => None
              end
          | _, _ => Helpers.merge_items (JObj rest) merged
          end
    end.
Proof. reflexivity. Qed.

Lemma dict_find_set (d : obj) (k k' : pystr) (v : json) :
  dict_find (dict_set d k v) k'
  = if PyStr.eqb k k' then Some v else dict_find d k'.
Proof.
  induction d as [|[k0 v0] d IH]; cbn.
  - reflexivity.
  - destruct (PyStr.eqb k0 k) eqn:H0; cbn.
    + apply pystr_eqb_spec in H0. subst k0.
      destruct (PyStr.eqb k k'); reflexivity.
    + destruct (PyStr.eqb k0 k') eqn:H1.
      * destruct (PyStr.eqb k k') eqn:H2; [|reflexivity].
        apply pystr_eqb_spec in H1, H2. subst.
        rewrite pystr_eqb_refl in H0. discriminate.
      * exact IH.
Qed.

Ltac merge_step H :=
  rewrite merge_items_cons in H;
  repeat match type of H with
         | context [match ?x with _ => _ end] =>
             lazymatch x with
             | context [match _ with _ => _ end] => fail
             | _ => destruct x eqn:?
             end
         end.

Lemma merge_items_keys (items : obj) :
  forall merged r,
    Helpers.merge_items (JObj items) merged = Some r ->
    forall k, dict_mem r k = dict_mem merged k || dict_mem items k.
Proof.
  induction items as [|[key value] rest IH]; intros merged r H k.
  - cbn in H. injection H as <-. cbn. rewrite orb_false_r. reflexivity.
  - assert (Hset : forall v r',
              Helpers.merge_items (JObj rest) (dict_set merged key v)
              = Some r' ->
              dict_mem r' k
              = dict_mem merged k || dict_mem ((key, value) :: rest) k).
    { intros v r' Hr. rewrite (IH _ _ Hr k), dict_mem_set. cbn [dict_mem].
      rewrite <- orb_assoc. reflexivity. }
    assert (Hkeep : forall r',
              dict_find merged key <> None ->
              Helpers.merge_items (JObj rest) merged = Some r' ->
              dict_mem r' k
              = dict_mem merged k || dict_mem ((key, value) :: rest) k).
    { intros r' Hin Hr. rewrite (IH _ _ Hr k). cbn [dict_mem].
      destruct (PyStr.eqb key k) eqn:Hk; [|reflexivity].
      apply pystr_eqb_spec in Hk. subst k.
      assert (Hm : dict_mem merged key = true).
      { clear - Hin. induction merged as [|[k0 v0] m IHm];
          [contradiction Hin; reflexivity|].
        cbn in *. destruct (PyStr.eqb k0 key); [reflexivity|auto]. }
      rewrite Hm. reflexivity. }
    merge_step H; try discriminate H;
      first [ eapply Hset; exact H
            | eapply Hkeep; [congruence|exact H] ].
Qed.

Lemma merge_items_other_key (items : obj) (k : pystr) :
  ~ In k (map fst items) ->
  forall merged r,
    Helpers.merge_items (JObj items) merged = Some r ->
    dict_find r k = dict_find merged k.
Proof.
  induction items as [|[key value] rest IH]; intros Hk merged r H.
  - cbn in H. injection H as <-. reflexivity.
  - assert (Hne : PyStr.eqb key k = false).
    { destruct (PyStr.eqb key k) eqn:E; [|reflexivity].
      apply pystr_eqb_spec in E. exfalso. apply Hk. left. exact E. }
    assert (Hrest : ~ In k (map fst rest)).
    { intros Hin. apply Hk. right. exact Hin. }
    assert (Hset : forall v r',
              Helpers.merge_items (JObj rest) (dict_set merged key v)
              = Some r' -> dict_find r' k = dict_find merged k).
    { intros v r' Hr. rewrite (IH Hrest _ _ Hr), dict_find_set, Hne.
      reflexivity. }
    merge_step H; try discriminate H;
      first [ eapply Hset; exact H | exact (IH Hrest _ _ H) ].
Qed.

Lemma merge_items_settled (items : obj) (k : pystr) (v : json) :
  settled v = true ->
  forall merged r,
    dict_find merged k = Some v ->
    Helpers.merge_items (JObj items) merged = Some r ->
    dict_find r k = Some v.
Proof.
  intros Hv. induction items as [|[key value] rest IH]; intros merged r Hf H.
  - cbn in H. injection H as <-. exact Hf.
  - destruct (PyStr.eqb key k) eqn:Hk.
    + apply pystr_eqb_spec in Hk. subst key.
      rewrite merge_items_cons, Hf in H.
      destruct v as [|b|z|q|t|l|o]; try discriminate Hv;
        cbn [settled] in Hv; apply negb_true_iff in Hv; rewrite Hv in H;
        destruct value; exact (IH _ _ Hf H).
    + assert (Hset : forall x r',
                Helpers.merge_items (JObj rest) (dict_set merged key x)
                = Some r' -> dict_find r' k = Some v).
      { intros x r' Hr. apply (IH (dict_set merged key x) r'); [|exact Hr].
        rewrite dict_find_set, Hk. exact Hf. }
      merge_step H; try discriminate H;
        first [ eapply Hset; exact H | exact (IH _ _ Hf H) ].
Qed.

Lemma merge_items_flat (items : obj) :
  Forall (fun kv => flat (snd kv) = true) items ->
  forall merged, exists r, Helpers.merge_items (JObj items) merged = Some r.
Proof.
  induction 1 as [|[key value] rest Hv Hrest IH]; intros merged.
  - exists merged. reflexivity.
  - rewrite merge_items_cons. cbn [snd] in Hv.
    destruct (dict_find merged key) as [current|]; [|apply IH].
    destruct current; try apply IH;
      destruct (eq_str _ (lit "No especificado")); try apply IH;
      destruct value; try discriminate Hv; apply IH.
Qed.

(** X21. What a merge of two analyses holds, when it returns: its keys
    are those of the primary and of the secondary, no more and no fewer; a
    value of the primary that is a string, a number or a boolean, and not
    the placeholder, is kept whatever the secondary says; a key the primary
    lacks reads as in the secondary. *)
Theorem merge_analysis_results_content (primary secondary r : obj) :
  Helpers.merge_analysis_results primary secondary = Some r ->
  (forall k, dict_mem r k = dict_mem primary k || dict_mem secondary k)
  /\ (forall k v,
        dict_find primary k = Some v -> settled v = true ->
        dict_find r k = Some v)
  /\ (forall k v,
        NoDup (map fst secondary) -> In (k, v) secondary ->
        dict_find primary k = None ->
        dict_find r k = Some v).
Proof.
  unfold Helpers.merge_analysis_results. intros H.
  split; [intros k; apply (merge_items_keys _ _ H)|].
  split; [intros k v Hf Hv; exact (merge_items_settled _ _ Hv _ Hf H)|].
  intros k v Hnd Hin Hnone.
  revert primary H Hnone.
  induction secondary as [|[key value] rest IH]; intros primary H Hnone;
    [destruct Hin|].
  inversion Hnd as [|? ? Hkey Hnd']; subst.
  destruct Hin as [Heq|Hin].
  - injection Heq as -> ->.
    rewrite merge_items_cons, Hnone in H.
    rewrite (merge_items_other_key _ _ Hkey _ H), dict_find_set,
      pystr_eqb_refl. reflexivity.
  - assert (Hne : PyStr.eqb key k = false).
    { destruct (PyStr.eqb key k) eqn:E; [|reflexivity].
      apply pystr_eqb_spec in E. subst key. exfalso. apply Hkey.
      apply (in_map fst) in Hin. exact Hin. }
    assert (Hset : forall x,
              Helpers.merge_items (JObj rest) (dict_set primary key x)
              = Some r -> dict_find r k = Some v).
    { intros x Hr. apply (IH Hnd' Hin _ Hr).
      rewrite dict_find_set, Hne. exact Hnone. }
    merge_step H; try discriminate H;
      first [ eapply Hset; exact H | exact (IH Hnd' Hin _ H Hnone) ].
Qed.

(** X22. When a merge returns: always for an empty secondary, which gives
    back the primary, and always for a secondary whose values are neither
    dicts nor lists; the removal of duplicates, the one step that can
    raise, returns for every list that holds neither a dict nor a list. *)
Theorem merge_analysis_results_returns (primary secondary : obj) :
  Helpers.merge_analysis_results primary [] = Some primary
  /\ (Forall (fun kv => flat (snd kv) = true) secondary ->
      exists r, Helpers.merge_analysis_results primary secondary = Some r)
  /\ (forall l, Forall (fun v => Helpers.hashable v = true) l ->
                exists r, Helpers.fromkeys [] l = Some r).
Proof.
  split; [reflexivity|].
  split; [intros H; apply merge_items_flat; exact H|].
  intros l Hl. generalize (@nil json).
  induction Hl as [|x l Hx Hl IH]; intros seen.
  - exists seen. reflexivity.
  - cbn [Helpers.fromkeys]. rewrite Hx.
    destruct (existsb (Helpers.key_eq x) seen); apply IH.
Qed.

Lemma merge_analysis_results_content_witness :
  let primary := [ (lit "titulo", JStr (lit "Ayudas 2024"));
                   (lit "presupuesto", JStr (lit "No especificado")) ] in
  let secondary := [ (lit "presupuesto", JStr (lit "1000000 EUR"));
                     (lit "plazo", JStr (lit "Tres meses"));
                     (lit "titulo", JStr (lit "Otro titulo")) ] in
  let r := [ (lit "titulo", JStr (lit "Ayudas 2024"));
             (lit "presupuesto", JStr (lit "1000000 EUR"));
             (lit "plazo", JStr (lit "Tres meses")) ] in
  Helpers.merge_analysis_results primary secondary = Some r
  /\ dict_find r (lit "titulo") = Some (JStr (lit "Ayudas 2024")).
Proof.
  intros primary secondary r.
  assert (H : Helpers.merge_analysis_results primary secondary = Some r)
    by reflexivity.
  split; [exact H|].
  exact (proj1 (proj2 (merge_analysis_results_content _ _ H))
           (lit "titulo") (JStr (lit "Ayudas 2024")) eq_refl eq_refl).
Defined.

Lemma merge_analysis_results_returns_witness :
  let secondary := [ (lit "presupuesto", JStr (lit "1000000 EUR"));
                     (lit "convocatorias", JInt 3) ] in
  Forall (fun kv => flat (snd kv) = true) secondary
  /\ exists r,
       Helpers.merge_analysis_results
         [(lit "presupuesto", JNull)] secondary = Some r.
Proof.
  intros secondary.
  assert (H : Forall (fun kv => flat (snd kv) = true) secondary)
    by (repeat constructor).
  split; [exact H|].
  exact (proj1 (proj2 (merge_analysis_results_returns
                         [(lit "presupuesto", JNull)] secondary)) H).
Defined.

(* ------------------------------------------------------------------ *)
(** * The provider of a model name *)

Lemma listed_in (table : list pystr) (n : pystr) :
  Llms.listed table n = true -> In n table.
Proof.
  unfold Llms.listed. intros H.
  apply existsb_exists in H as (x & Hin & Heq).
  apply pystr_eqb_spec in Heq. subst x. exact Hin.
Qed.

(** X23. [LanguageModel] takes a name exactly when one of its five tables
    lists it, and no name stands in two tables, so the provider is the one
    whose table lists the name, whatever the order of the tests.  The
    OpenRouter table holds six names, not seven: two literals without a
    comma between them make one name, and neither
    google/gemini-2.0-flash-001 nor anthropic/claude-3-haiku is taken. *)
Theorem provider_by_table :
  (forall n p,
     Llms.provider_of n = Some p <-> Llms.listed (table_of p) n = true)
  /\ (forall n,
        Llms.provider_of n = None
        <-> forall p, Llms.listed (table_of p) n = false)
  /\ List.length Llms.openrouter_language_models = 6%nat
  /\ Llms.provider_of (lit "google/gemini-2.0-flash-001") = None
  /\ Llms.provider_of (lit "anthropic/claude-3-haiku") = None.
Proof.
  assert (Hback : forall n p,
            Llms.listed (table_of p) n = true ->
            Llms.provider_of n = Some p).
  { intros n p H. apply listed_in in H.
    destruct p; cbn [table_of] in H;
      repeat (destruct H as [<-|H]; [vm_compute; reflexivity|]);
      destruct H. }
  assert (Hforth : forall n p,
            Llms.provider_of n = Some p ->
            Llms.listed (table_of p) n = true).
  { intros n p. unfold Llms.provider_of.
    destruct (Llms.listed Llms.openrouter_language_models n) eqn:H1;
      [intros E; injection E as <-; exact H1|].
    destruct (Llms.listed Llms.openai_language_models n) eqn:H2;
      [intros E; injection E as <-; exact H2|].
    destruct (Llms.listed Llms.gemini_language_models n) eqn:H3;
      [intros E; injection E as <-; exact H3|].
    destruct (Llms.listed Llms.huggingface_language_models n) eqn:H4;
      [intros E; injection E as <-; exact H4|].
    destruct (Llms.listed Llms.deepseek_language_models n) eqn:H5;
      [intros E; injection E as <-; exact H5|discriminate]. }
  split; [intros n p; split; [apply Hforth|apply Hback]|].
  split.
  { intros n. split.
    - intros Hn p. destruct (Llms.listed (table_of p) n) eqn:Hl;
        [|reflexivity].
      rewrite (Hback _ _ Hl) in Hn. discriminate.
    - intros Hall. destruct (Llms.provider_of n) as [p|] eqn:Hp;
        [|reflexivity].
      specialize (Hall p). rewrite (Hforth _ _ Hp) in Hall. discriminate. }
  repeat split; vm_compute; reflexivity.
Qed.

Lemma provider_by_table_witness :
  Llms.listed (table_of Llms.DeepSeek) (lit "deepseek-chat") = true
  /\ Llms.provider_of (lit "deepseek-chat") = Some Llms.DeepSeek.
Proof.
  split; [reflexivity|].
  exact (proj2 (proj1 provider_by_table (lit "deepseek-chat") Llms.DeepSeek)
           eq_refl).
Defined.

(* ------------------------------------------------------------------ *)
(** * The name [SimpleLLM] reports *)

(** X24. [SimpleLLM] keeps the name it was given as its [model_name], the
    name its token-usage records carry, but hands the client a name of its
    own list: the two agree exactly when the given name is gpt-4o-mini or
    gpt-4o, and any other name is served by gpt-4o-mini while still being
    the one kept. *)
Theorem simple_llm_reported_name (n : pystr) :
  Llms.listed [lit "gpt-4o-mini"; lit "gpt-4o"] (Llms.simple_client_name n)
  = true
  /\ (Llms.simple_client_name n = Llms.simple_reported_name n
      <-> (n = lit "gpt-4o-mini" \/ n = lit "gpt-4o"))
  /\ (n <> lit "gpt-4o-mini" -> n <> lit "gpt-4o" ->
      Llms.simple_client_name n = lit "gpt-4o-mini"
      /\ Llms.simple_reported_name n = n).
Proof.
  unfold Llms.simple_client_name, Llms.simple_reported_name.
  destruct (Llms.listed [lit "gpt-4o-mini"; lit "gpt-4o"] n) eqn:Hl.
  - split; [exact Hl|].
    apply listed_in in Hl. destruct Hl as [<-|[<-|[]]].
    + split; [split; [intros _; left; reflexivity|reflexivity]|].
      intros H _. contradiction H. reflexivity.
    + split; [split; [intros _; right; reflexivity|reflexivity]|].
      intros _ H. contradiction H. reflexivity.
  - split; [vm_compute; reflexivity|].
    split.
    + split.
      * intros <-. left. reflexivity.
      * intros [->| ->]; vm_compute in Hl; discriminate.
    + intros _ _. split; reflexivity.
Qed.

Lemma simple_llm_reported_name_witness :
  lit "gpt-4-turbo" <> lit "gpt-4o-mini"
  /\ lit "gpt-4-turbo" <> lit "gpt-4o"
  /\ Llms.simple_client_name (lit "gpt-4-turbo") = lit "gpt-4o-mini"
  /\ Llms.simple_reported_name (lit "gpt-4-turbo") = lit "gpt-4-turbo".
Proof.
  assert (H1 : lit "gpt-4-turbo" <> lit "gpt-4o-mini") by discriminate.
  assert (H2 : lit "gpt-4-turbo" <> lit "gpt-4o") by discriminate.
  split; [exact H1|]. split; [exact H2|].
  exact (proj2 (proj2 (simple_llm_reported_name (lit "gpt-4-turbo"))) H1 H2).
Defined.

Lemma success_iff_no_error_witness :
  let r := analyze_from_data Worlds.offline [] in
  r_error r <> None /\ success r <> true.
Proof.
  intros r.
  assert (H : r_error r <> None) by (vm_compute; discriminate).
  split; [exact H|].
  intros Hs. apply H.
  exact (proj1 (proj1 (proj2 (proj2 (success_iff_no_error Worlds.offline)))
                  []) Hs).
Defined.
